(** * ruv-swarm hybrid MCP gateway: stdio framing, dispatch, SSE fan-out

    Shallow embedding of [ruv-swarm/npm/bin/ruv-swarm-hybrid.js].  The
    gateway reads line-delimited JSON-RPC from stdin, dispatches
    [initialize], [tools/list] and [tools/call] through
    [handleMcpRequest], and relays bus events to Server-Sent-Events
    clients of the HTTP server.

    How the program is read here:
    - the process is a state ([gateway]) and a function [step] that runs
      the listener of one event to its end; [async] functions are
      computations in a state-and-exception monad [M], [await] is
      sequencing;
    - a listener that waits for a tool returns to the event loop until the
      tool settles: [advance] and [play], further down, cut the listeners
      at that await and let events and settlements come in any order; what
      is said of the stdio session over time is said of those;
    - strings are sequences of UTF-16 code units, values are JSON values
      and [undefined], objects keep their properties in a list;
    - what the process writes (stdout, SSE responses, HTTP replies), which
      tool handlers it calls and what it publishes on the bus are recorded,
      in order, in the [trace] of the state;
    - the built-ins and the modules the file imports ([JSON], [Date], the
      file system, the two tool registries) are the fields of [Runtime];
      the logger only observes and is left out, its calls that mark a
      message being the [LogMcpIn], [LogMcpOut] and [LogError] actions. *)

From Stdlib Require Import String Ascii NArith ZArith List Lia.
From Stdlib Require Import DecimalString.
From stdpp Require Import base option list gmap.

Set Warnings "-register-all".
Local Open Scope N_scope.

(** ** Strings

    A JavaScript string is a sequence of UTF-16 code units.  stdin is read
    with [setEncoding('utf8')], so every chunk handed to the ['data']
    listener is already such a string. *)

Definition jsstring := list N.

Definition js (s : string) : jsstring :=
  map N_of_ascii (list_ascii_of_string s).
Global Arguments js : simpl never.

(** U+000A, the separator of [buffer.split('\n')]. *)
Definition LF : N := 10.

(** Code units removed by [String.prototype.trim]: WhiteSpace and
    LineTerminator of ECMA-262. *)
Definition is_whitespace (c : N) : bool :=
  (9 <=? c) && (c <=? 13)
  || (c =? 32) || (c =? 160) || (c =? 5760)
  || (8192 <=? c) && (c <=? 8202)
  || (c =? 8232) || (c =? 8233) || (c =? 8239) || (c =? 8287)
  || (c =? 12288) || (c =? 65279).

Fixpoint trimStart (s : jsstring) : jsstring :=
  match s with
  | c :: s' => if is_whitespace c then trimStart s' else s
  | [] => []
  end.

Definition trimEnd (s : jsstring) : jsstring := rev (trimStart (rev s)).

Definition trim (s : jsstring) : jsstring := trimEnd (trimStart s).

(** ToBoolean on a string: the empty string is the only falsy one. *)
Definition truthy_string (s : jsstring) : bool :=
  match s with [] => false | _ :: _ => true end.

(** [s.split(sep)] for a separator of one code unit: the pieces between
    occurrences of [sep]; a string with n separators has n+1 pieces. *)
Fixpoint String_split (sep : N) (s : jsstring) : list jsstring :=
  match s with
  | [] => [[]]
  | c :: s' =>
      if c =? sep then [] :: String_split sep s'
      else match String_split sep s' with
           | p :: ps => (c :: p) :: ps
           | [] => [[c]]
           end
  end.

(** [a.pop()]: the last element ([undefined], here [None], on an empty
    array) and the array without it. *)
Definition Array_pop {A} (a : list A) : option A * list A :=
  (last a, removelast a).

(** ** Message framer (the head of the stdin ['data'] listener)

    [buffer += chunk; const lines = buffer.split('\n');
     buffer = lines.pop() || '';] *)

Definition frame (buffer chunk : jsstring) : list jsstring * jsstring :=
  let buffer1 := buffer ++ chunk in
  let lines := String_split LF buffer1 in
  let '(popped, lines) := Array_pop lines in
  let buffer2 :=
    match popped with
    | Some s => if truthy_string s then s else []
    | None => []
    end in
  (lines, buffer2).

(** The guard of the loop body, [if (line.trim())]. *)
Definition is_candidate (line : jsstring) : bool := truthy_string (trim line).

(** The framer over a whole sequence of chunks: the candidate messages in
    the order the loop reaches them, and the buffer left at the end. *)
Fixpoint frame_all (buffer : jsstring) (chunks : list jsstring)
  : list jsstring * jsstring :=
  match chunks with
  | [] => ([], buffer)
  | chunk :: rest =>
      let '(lines, buffer') := frame buffer chunk in
      let '(more, final) := frame_all buffer' rest in
      (List.filter is_candidate lines ++ more, final)
  end.

(** The specification's side of the framing property: a line is blank when
    it holds nothing but whitespace. *)
Definition blank (line : jsstring) : bool := forallb is_whitespace line.

(** [s] read as complete lines [ls], each followed by a newline, and an
    unterminated rest [r]. *)
Definition lines_and_rest (s : jsstring) (ls : list jsstring) (r : jsstring) : Prop :=
  s = concat (map (fun l => l ++ [LF]) ls) ++ r
  /\ Forall (fun l => LF ∉ l) ls
  /\ LF ∉ r.

(** ** Values

    What [JSON.parse] produces, what tools return and what travels in
    events.  Numbers are the integers (ids, counters, codes); [ToString]
    prints them in decimal, as Number::toString does below 10^21.  The
    properties of an object are kept in lookup order, each key once. *)

Inductive value :=
| VUndefined
| VNull
| VBool (b : bool)
| VNum (n : Z)
| VStr (s : jsstring)
| VArr (elems : list value)
| VObj (props : list (jsstring * value)).

(** A thrown [Error] object; the program only ever reads its [message]. *)
Record js_error := Error { message : jsstring }.

Inductive completion (A : Type) :=
| Normal (a : A)
| Throw (e : js_error).
Arguments Normal {A} a.
Arguments Throw {A} e.

Definition jsstring_eqb (a b : jsstring) : bool := bool_decide (a = b).

Fixpoint lookup_prop (k : jsstring) (props : list (jsstring * value)) : option value :=
  match props with
  | [] => None
  | (k', v) :: rest => if jsstring_eqb k k' then Some v else lookup_prop k rest
  end.

(** [typeof v], for the two operands the program uses it on. *)
Definition is_string (v : value) : bool :=
  match v with VStr _ => true | _ => false end.

(** [v === 'literal']. *)
Definition strict_equals_string (v : value) (s : jsstring) : bool :=
  match v with VStr s' => jsstring_eqb s' s | _ => false end.

(** ToBoolean, as used by [||]. *)
Definition ToBoolean (v : value) : bool :=
  match v with
  | VUndefined | VNull => false
  | VBool b => b
  | VNum n => negb (n =? 0)%Z
  | VStr s => truthy_string s
  | VArr _ | VObj _ => true
  end.

(** [Number.prototype.toString] of an integer, all digits written out as
    JavaScript does below [1e21]; the numbers printed here are message
    counts, ids and clock readings. *)
Definition Number_toString (n : Z) : jsstring :=
  js (NilZero.string_of_int (Z.to_int n)).

(** The name V8 prints for the base of a failed property read. *)
Definition nullish_name (v : value) : jsstring :=
  match v with VNull => js "null" | _ => js "undefined" end.

Definition TypeError_cannot_read (base : value) (k : jsstring) : js_error :=
  Error (js "Cannot read properties of " ++ nullish_name base
         ++ js " (reading '" ++ k ++ js "')").

Definition TypeError_cannot_destructure (base : value) (k : jsstring) : js_error :=
  Error (js "Cannot destructure property '" ++ k ++ js "' of 'JSON.parse(...)' as it is "
         ++ nullish_name base ++ js ".").

Definition TypeError_to_primitive : js_error :=
  Error (js "Cannot convert object to primitive value").

(** [base.k] for the property names the program reads ([id], [method],
    [params], [name], [arguments], [version]): reading from [null] or [undefined]
    throws; booleans, numbers, strings and arrays have none of these
    properties. *)
Definition Get (base : value) (k : jsstring) : completion value :=
  match base with
  | VUndefined | VNull => Throw (TypeError_cannot_read base k)
  | VObj props => Normal (default VUndefined (lookup_prop k props))
  | VBool _ | VNum _ | VStr _ | VArr _ => Normal VUndefined
  end.

(** ToString, as applied by template literals and by computed property
    keys.  An array joins its elements with commas, [null] and [undefined]
    elements giving the empty string.  A parsed object prints as
    [[object Object]] unless it has an own [toString] property: that one is
    data, never callable, and [Object.prototype.valueOf] returns the object
    itself, so the conversion finds no primitive and throws. *)
Fixpoint ToString (v : value) : completion jsstring :=
  match v with
  | VUndefined => Normal (js "undefined")
  | VNull => Normal (js "null")
  | VBool true => Normal (js "true")
  | VBool false => Normal (js "false")
  | VNum n => Normal (Number_toString n)
  | VStr s => Normal s
  | VArr elems =>
      let element (x : value) : completion jsstring :=
        match x with
        | VUndefined | VNull => Normal []
        | _ => ToString x
        end in
      (fix join (l : list value) : completion jsstring :=
         match l with
         | [] => Normal []
         | x :: rest =>
             match element x with
             | Throw e => Throw e
             | Normal s =>
                 match rest with
                 | [] => Normal s
                 | _ :: _ =>
                     match join rest with
                     | Throw e => Throw e
                     | Normal r => Normal (s ++ js "," ++ r)
                     end
                 end
             end
         end) elems
  | VObj props =>
      match lookup_prop (js "toString") props with
      | Some _ => Throw TypeError_to_primitive
      | None => Normal (js "[object Object]")
      end
  end.

(** ** Tool registries *)

(** Modelled from the spec: the tool handlers, whose modules
    ([mcp-tools-enhanced.js], [mcp-daa-tools.js]) are not among the
    sources.  A ToolHandler is [(args) -> result | error]: called with the
    arguments object on the opaque state of the tool engine, its promise
    settles, either with a value or with a fault that carries a
    message. *)
Definition handler (world : Type) := value -> world -> completion value * world.

(** What [registry[key]] finds, own or inherited: a function or some other
    value.  A key that is not in the map reads as [undefined]. *)
Inductive member (world : Type) :=
| Method (h : handler world)
| Field.
Arguments Method {world} h.
Arguments Field {world}.

(** [typeof registry[key] === 'function'], with the function found. *)
Definition function_member {world} (registry : gmap jsstring (member world))
    (key : jsstring) : option (handler world) :=
  match registry !! key with
  | Some (Method h) => Some h
  | Some Field | None => None
  end.

(** ** The runtime around the program

    The built-ins and collaborators the file calls but does not define. *)
Class Runtime := {
  world : Type;
  (** [JSON.parse(text)]: a value, or a SyntaxError. *)
  JSON_parse : jsstring -> completion value;
  (** [JSON.stringify(v, null, 2)]: a string, [undefined], or a TypeError. *)
  JSON_stringify : value -> completion value;
  (** [readFileSync(join(__dirname, '..', 'package.json'), 'utf8')]. *)
  readFileSync_package : completion jsstring;
  (** [new Date(ms).toISOString()]. *)
  toISOString : N -> jsstring;
  (** [new EnhancedMCPTools(globalRuvSwarm)] after [initialize]. *)
  EnhancedMCPTools : gmap jsstring (member world);
  (** The [daaMcpTools] export of [mcp-daa-tools.js]. *)
  daaMcpTools : gmap jsstring (member world);
  (** [logger.setCorrelationId()]. *)
  sessionId : jsstring;
  (** [process.env.CLAUDE_FLOW_MODE === 'true']. *)
  env_CLAUDE_FLOW_MODE : bool;
}.

(** ** Wire formats and the trace of observable actions *)

(** One HTTP exchange, named by the order in which it was accepted: its
    [req]/[res] pair. *)
Definition conn := nat.

(** What [res.write] puts on an SSE response. *)
Inductive sse_frame :=
| SseEvent (eventType : jsstring) (data : value)
    (* `event: ${eventType}\ndata: ${JSON.stringify(data)}\n\n` *)
| SseComment (text : jsstring).
    (* `:${text}\n\n` *)

(** [{ code, message, data }] of a JSON-RPC error. *)
Record rpc_error := RpcError {
  code : Z;
  error_message : jsstring;
  data : jsstring;
}.

(** The [response] object of [handleMcpRequest]; [None] is a property that
    was never assigned. *)
Record mcp_response := Response {
  jsonrpc : jsstring;
  response_id : value;
  response_result : option value;
  response_error : option rpc_error;
}.

(** A line on stdout: [JSON.stringify(message) + '\n']. *)
Inductive wire :=
| WResponse (r : mcp_response)
| WNotification (method : jsstring) (params : value).

Inductive registry_id := Primary | Secondary.

(** Everything the process does that is visible from outside it, or that
    the properties below speak about, in the order it happens.  The number
    on the stdio actions is the [messageCount] of the line being handled,
    the one that [messageId] is built from (0 before the first line);
    [Message n line] marks the point where [line] has passed the guard of
    the loop and been counted as the [n]th message. *)
Inductive action :=
| Invoke (r : registry_id) (key : jsstring) (args : value)
| Emit (eventType : jsstring) (data : value)
| SseWrite (c : conn) (f : sse_frame)
| HttpReply (c : conn) (status : Z) (body : value)
| Message (n : N) (line : jsstring)
| LogMcpIn (n : N) (request : value)
| LogMcpOut (n : N) (r : mcp_response)
| LogError (n : N) (e : js_error)
| Stdout (n : N) (w : wire).

(** A listener attached to [sseEventEmitter] by the [/events] route: the
    closure [data => sendEvent(eventType, data)] over the response [res]
    of its connection. *)
Record listener := Listener { l_res : conn; l_eventType : jsstring }.

Global Instance registry_id_eq_dec : EqDecision registry_id.
Proof. solve_decision. Defined.
Global Instance listener_eq_dec : EqDecision listener.
Proof. solve_decision. Defined.

Definition str (s : string) : value := VStr (js s).
Definition prop (k : string) (v : value) : jsstring * value := (js k, v).

Section Gateway.
Context {RT : Runtime}.

(** ** Process state

    The module-level variables of the file, the locals that the stdin
    listeners close over, and the listeners and timers the event loop
    holds. *)
Record gateway := Gateway {
  engine : world;                           (* what the tools act on *)
  clock : N;                                (* Date.now() *)
  sseClients : gmap jsstring conn;          (* new Map() *)
  sseEventEmitter : gmap jsstring (list listener);  (* new EventEmitter() *)
  heartbeats : gset conn;                   (* running setInterval(.., 30000), by res *)
  closeListeners : gmap conn jsstring;      (* req.on('close', ..), with its clientId *)
  buffer : jsstring;
  messageCount : N;
  stdinListeners : bool;                    (* 'data' and 'end' attached *)
  httpServer : bool;                        (* listening *)
  keepAliveTimer : bool;                    (* setInterval(() => {}, 1000 * 60 * 60) *)
  exitCode : option Z;                      (* process.exit(code) *)
  trace : list action;
}.

Definition set_engine (w : world) (g : gateway) : gateway :=
  Gateway w (clock g) (sseClients g) (sseEventEmitter g) (heartbeats g)
    (closeListeners g) (buffer g) (messageCount g) (stdinListeners g)
    (httpServer g) (keepAliveTimer g) (exitCode g) (trace g).
Definition set_clock (t : N) (g : gateway) : gateway :=
  Gateway (engine g) t (sseClients g) (sseEventEmitter g) (heartbeats g)
    (closeListeners g) (buffer g) (messageCount g) (stdinListeners g)
    (httpServer g) (keepAliveTimer g) (exitCode g) (trace g).
Definition set_sseClients (m : gmap jsstring conn) (g : gateway) : gateway :=
  Gateway (engine g) (clock g) m (sseEventEmitter g) (heartbeats g)
    (closeListeners g) (buffer g) (messageCount g) (stdinListeners g)
    (httpServer g) (keepAliveTimer g) (exitCode g) (trace g).
Definition set_sseEventEmitter (m : gmap jsstring (list listener)) (g : gateway) : gateway :=
  Gateway (engine g) (clock g) (sseClients g) m (heartbeats g)
    (closeListeners g) (buffer g) (messageCount g) (stdinListeners g)
    (httpServer g) (keepAliveTimer g) (exitCode g) (trace g).
Definition set_heartbeats (s : gset conn) (g : gateway) : gateway :=
  Gateway (engine g) (clock g) (sseClients g) (sseEventEmitter g) s
    (closeListeners g) (buffer g) (messageCount g) (stdinListeners g)
    (httpServer g) (keepAliveTimer g) (exitCode g) (trace g).
Definition set_closeListeners (m : gmap conn jsstring) (g : gateway) : gateway :=
  Gateway (engine g) (clock g) (sseClients g) (sseEventEmitter g) (heartbeats g)
    m (buffer g) (messageCount g) (stdinListeners g)
    (httpServer g) (keepAliveTimer g) (exitCode g) (trace g).
Definition set_buffer (b : jsstring) (g : gateway) : gateway :=
  Gateway (engine g) (clock g) (sseClients g) (sseEventEmitter g) (heartbeats g)
    (closeListeners g) b (messageCount g) (stdinListeners g)
    (httpServer g) (keepAliveTimer g) (exitCode g) (trace g).
Definition set_messageCount (n : N) (g : gateway) : gateway :=
  Gateway (engine g) (clock g) (sseClients g) (sseEventEmitter g) (heartbeats g)
    (closeListeners g) (buffer g) n (stdinListeners g)
    (httpServer g) (keepAliveTimer g) (exitCode g) (trace g).
Definition set_stdinListeners (b : bool) (g : gateway) : gateway :=
  Gateway (engine g) (clock g) (sseClients g) (sseEventEmitter g) (heartbeats g)
    (closeListeners g) (buffer g) (messageCount g) b
    (httpServer g) (keepAliveTimer g) (exitCode g) (trace g).
Definition set_httpServer (b : bool) (g : gateway) : gateway :=
  Gateway (engine g) (clock g) (sseClients g) (sseEventEmitter g) (heartbeats g)
    (closeListeners g) (buffer g) (messageCount g) (stdinListeners g)
    b (keepAliveTimer g) (exitCode g) (trace g).
Definition set_keepAliveTimer (b : bool) (g : gateway) : gateway :=
  Gateway (engine g) (clock g) (sseClients g) (sseEventEmitter g) (heartbeats g)
    (closeListeners g) (buffer g) (messageCount g) (stdinListeners g)
    (httpServer g) b (exitCode g) (trace g).
Definition set_exitCode (c : option Z) (g : gateway) : gateway :=
  Gateway (engine g) (clock g) (sseClients g) (sseEventEmitter g) (heartbeats g)
    (closeListeners g) (buffer g) (messageCount g) (stdinListeners g)
    (httpServer g) (keepAliveTimer g) c (trace g).
Definition set_trace (t : list action) (g : gateway) : gateway :=
  Gateway (engine g) (clock g) (sseClients g) (sseEventEmitter g) (heartbeats g)
    (closeListeners g) (buffer g) (messageCount g) (stdinListeners g)
    (httpServer g) (keepAliveTimer g) (exitCode g) t.

(** The state of a process that has just been started. *)
Definition boot (w : world) (t : N) : gateway :=
  Gateway w t ∅ ∅ ∅ ∅ [] 0 false false false None [].

(** ** Computations: the state of the process and [throw] *)

Definition M (A : Type) : Type := gateway -> completion A * gateway.

Definition ret {A} (a : A) : M A := fun g => (Normal a, g).

Definition bind {A B} (m : M A) (k : A -> M B) : M B :=
  fun g =>
    match m g with
    | (Normal a, g') => k a g'
    | (Throw e, g') => (Throw e, g')
    end.

Definition throw {A} (e : js_error) : M A := fun g => (Throw e, g).

(** [try { m } catch (error) { h error }]. *)
Definition try_catch {A} (m : M A) (h : js_error -> M A) : M A :=
  fun g =>
    match m g with
    | (Normal a, g') => (Normal a, g')
    | (Throw e, g') => h e g'
    end.

Definition lift {A} (c : completion A) : M A :=
  fun g => (c, g).

Definition gets {A} (f : gateway -> A) : M A := fun g => (Normal (f g), g).

Definition modify (f : gateway -> gateway) : M unit := fun g => (Normal tt, f g).

Definition act (a : action) : M unit :=
  modify (fun g => set_trace (trace g ++ [a]) g).

End Gateway.

Notation "x <- m ;; k" := (bind m (fun x => k))
  (at level 100, m at next level, right associativity).
Notation "m ;;; k" := (bind m (fun _ => k))
  (at level 100, right associativity).

Section Program.
Context {RT : Runtime}.

(** ** getVersion, getToolDefinitions, initializeSystem *)

Definition getVersion : value :=
  match readFileSync_package with
  | Throw _ => str "unknown"
  | Normal text =>
      match JSON_parse text with
      | Throw _ => str "unknown"
      | Normal packageJson =>
          match Get packageJson (js "version") with
          | Normal version => version
          | Throw _ => str "unknown"
          end
      end
  end.

Definition getToolDefinitions : list value := [].

Definition daaToolNames : list jsstring :=
  map js
    ["daa_init"; "daa_agent_create"; "daa_agent_adapt"; "daa_workflow_create";
     "daa_workflow_execute"; "daa_knowledge_share"; "daa_learning_status";
     "daa_cognitive_pattern"; "daa_meta_learning"; "daa_performance_metrics"]%string.

(** [daaMcpTools] once [initializeSystem] has stored the primary registry
    in its [mcpTools] property, which is then an object, not a function. *)
Definition daaMcpTools_linked : gmap jsstring (member world) :=
  <[js "mcpTools" := Field]> daaMcpTools.

(** The [mcpTools] that [initializeSystem] returns: the primary registry
    with the [daaToolNames] that the secondary registry implements stored
    on it, bound to the secondary registry.  The result is memoized in
    [globalMCPTools], so every call yields this same registry. *)
Definition initializeSystem : gmap jsstring (member world) :=
  foldl
    (fun globalMCPTools toolName =>
       match function_member daaMcpTools_linked toolName with
       | Some h => <[toolName := Method h]> globalMCPTools
       | None => globalMCPTools
       end)
    EnhancedMCPTools daaToolNames.

(** ** Event bus: the three EventEmitter methods the file calls *)

Definition sendEvent (res : conn) (eventType : jsstring) (d : value) : M unit :=
  act (SseWrite res (SseEvent eventType d)).

Fixpoint call_listeners (ls : list listener) (d : value) : M unit :=
  match ls with
  | [] => ret tt
  | l :: rest => sendEvent (l_res l) (l_eventType l) d ;;; call_listeners rest d
  end.

Definition listeners_of (g : gateway) (eventType : jsstring) : list listener :=
  default [] (sseEventEmitter g !! eventType).

(** [sseEventEmitter.emit(eventType, d)]: calls the listeners registered
    for [eventType], in registration order; true when there was one. *)
Definition emit (eventType : jsstring) (d : value) : M bool :=
  ls <- gets (fun g => listeners_of g eventType) ;;
  act (Emit eventType d) ;;;
  call_listeners ls d ;;;
  ret (bool_decide (ls ≠ [])).

(** [sseEventEmitter.on(eventType, l)]. *)
Definition on (eventType : jsstring) (l : listener) : M unit :=
  modify (fun g =>
    set_sseEventEmitter
      (<[eventType := listeners_of g eventType ++ [l]]> (sseEventEmitter g)) g).

(** [sseEventEmitter.removeAllListeners()], called without an event name:
    every listener of every event is dropped. *)
Definition removeAllListeners : M unit :=
  modify (set_sseEventEmitter ∅).

(** ** handleMcpRequest *)

Definition with_result (r : mcp_response) (v : value) : mcp_response :=
  Response (jsonrpc r) (response_id r) (Some v) (response_error r).

Definition with_error (r : mcp_response) (e : rpc_error) : mcp_response :=
  Response (jsonrpc r) (response_id r) (response_result r) (Some e).

Definition swarm_init_descriptor : value :=
  VObj [
    prop "name" (str "swarm_init");
    prop "description" (str "Initialize a new swarm with specified topology");
    prop "inputSchema" (VObj [
      prop "type" (str "object");
      prop "properties" (VObj [
        prop "topology" (VObj [
          prop "type" (str "string");
          prop "enum" (VArr [str "mesh"; str "hierarchical"; str "ring"; str "star"])]);
        prop "maxAgents" (VObj [
          prop "type" (str "number");
          prop "minimum" (VNum 1); prop "maximum" (VNum 100); prop "default" (VNum 5)]);
        prop "strategy" (VObj [
          prop "type" (str "string");
          prop "enum" (VArr [str "balanced"; str "specialized"; str "adaptive"]);
          prop "default" (str "balanced")])]);
      prop "required" (VArr [str "topology"])])].

(** [await registry[toolName](toolArgs)]. *)
Definition invoke (r : registry_id) (key : jsstring) (h : handler world)
    (toolArgs : value) : M value :=
  act (Invoke r key toolArgs) ;;;
  (fun g => let '(c, w) := h toolArgs (engine g) in (c, set_engine w g)).

(** The [else if] arm: the secondary registry, and [null] when it has no
    such function either. *)
Definition try_daa (toolName toolArgs : value) : M value :=
  key <- lift (ToString toolName) ;;
  match function_member daaMcpTools_linked key with
  | Some h => invoke Secondary key h toolArgs
  | None => ret VNull
  end.

(** The lookup and call of the ['tools/call'] case, up to the value left
    in [result]. *)
Definition call_tool (mcpTools : option (gmap jsstring (member world)))
    (toolName toolArgs : value) : M value :=
  match mcpTools with
  | Some tools =>
      key <- lift (ToString toolName) ;;
      match function_member tools key with
      | Some h => invoke Primary key h toolArgs
      | None => try_daa toolName toolArgs
      end
  | None => try_daa toolName toolArgs
  end.

Definition method_not_found (d : jsstring) : rpc_error :=
  RpcError (-32601) (js "Method not found") d.

Definition internal_error (e : js_error) : rpc_error :=
  RpcError (-32603) (js "Internal error") (message e).

(** [if (result !== null) { ... } else { ... }]: the response to a
    ['tools/call'], from what the call left in [result]. *)
Definition result_case (response : mcp_response) (toolName toolArgs result : value)
  : M mcp_response :=
  match result with
  | VNull =>
      name <- lift (ToString toolName) ;;
      ret (with_error response (method_not_found (js "Unknown tool: " ++ name)))
  | _ =>
      clients <- gets (fun g => size (sseClients g)) ;;
      (if bool_decide (0 < clients)%nat then
         now <- gets clock ;;
         emit (js "tool:executed") (VObj [
           prop "tool" toolName;
           prop "args" toolArgs;
           prop "timestamp" (VStr (toISOString now))]) ;;;
         ret tt
       else ret tt) ;;;
      text <- (if is_string result then ret result
               else lift (JSON_stringify result)) ;;
      ret (with_result response (VObj [
        prop "content" (VArr [VObj [
          prop "type" (str "text");
          prop "text" text]])]))
  end.

(** [case 'tools/call']. *)
Definition tools_call_case (response : mcp_response) (request : value)
    (mcpTools : option (gmap jsstring (member world))) : M mcp_response :=
  params <- lift (Get request (js "params")) ;;
  toolName <- lift (Get params (js "name")) ;;
  arguments <- lift (Get params (js "arguments")) ;;
  let toolArgs := if ToBoolean arguments then arguments else VObj [] in
  result <- call_tool mcpTools toolName toolArgs ;;
  result_case response toolName toolArgs result.

(** The [switch (request.method)] inside the [try] block; [response] is the
    object created before it. *)
Definition switch_method (response : mcp_response) (request : value)
    (mcpTools : option (gmap jsstring (member world))) : M mcp_response :=
  method <- lift (Get request (js "method")) ;;
  if strict_equals_string method (js "initialize") then
    let version := getVersion in
    ret (with_result response (VObj [
      prop "protocolVersion" (str "2024-11-05");
      prop "capabilities" (VObj [
        prop "tools" (VObj []);
        prop "resources" (VObj [
          prop "list" (VBool true); prop "read" (VBool true)])]);
      prop "serverInfo" (VObj [
        prop "name" (str "ruv-swarm-hybrid");
        prop "version" version])]))
  else if strict_equals_string method (js "tools/list") then
    ret (with_result response (VObj [
      prop "tools" (VArr (swarm_init_descriptor :: getToolDefinitions))]))
  else if strict_equals_string method (js "tools/call") then
    tools_call_case response request mcpTools
  else
    name <- lift (ToString method) ;;
    ret (with_error response (method_not_found (js "Unknown method: " ++ name))).

Definition handleMcpRequest (request : value)
    (mcpTools : option (gmap jsstring (member world))) : M mcp_response :=
  request_id <- lift (Get request (js "id")) ;;
  let response := Response (js "2.0") request_id None None in
  try_catch
    (switch_method response request mcpTools)
    (fun error => ret (with_error response (internal_error error))).

(** The specification's [resolve(name)]: the first registry, in priority
    order, that exposes a function-shaped member of that name. *)
Definition resolve (mcpTools : option (gmap jsstring (member world)))
    (name : jsstring) : option (registry_id * handler world) :=
  match mcpTools ≫= (fun tools => function_member tools name) with
  | Some h => Some (Primary, h)
  | None =>
      match function_member daaMcpTools_linked name with
      | Some h => Some (Secondary, h)
      | None => None
      end
  end.

End Program.

Section Transports.
Context {RT : Runtime}.

(** ** HTTP/SSE server: the request listener of [startHttpServer]

    A request is handed over with its method, the path of its URL and its
    whole body; the CORS headers, set on every response alike, are left
    out of the replies. *)

Definition reply (c : conn) (status : Z) (body : value) : M unit :=
  act (HttpReply c status body).

Definition rpc_error_value (e : rpc_error) : value :=
  VObj [prop "code" (VNum (code e));
        prop "message" (VStr (error_message e));
        prop "data" (VStr (data e))].

(** [r.result || { error: r.error }]: a result, when assigned, is an
    object, hence truthy. *)
Definition result_or_error (r : mcp_response) : value :=
  match response_result r with
  | Some v => v
  | None =>
      VObj [prop "error" (match response_error r with
                          | Some e => rpc_error_value e
                          | None => VUndefined
                          end)]
  end.

Definition eventTypes : list jsstring :=
  map js ["swarm:update"; "agent:spawn"; "task:update"; "performance:metrics"]%string.

Fixpoint register_listeners (res : conn) (types : list jsstring) : M unit :=
  match types with
  | [] => ret tt
  | eventType :: rest =>
      on eventType (Listener res eventType) ;;; register_listeners res rest
  end.

(** [case '/events']. *)
Definition events_route (c : conn) : M unit :=
  now <- gets clock ;;
  let clientId := Number_toString (Z.of_N now) in
  act (SseWrite c (SseEvent (js "connected") (VObj [
    prop "clientId" (VStr clientId);
    prop "timestamp" (VStr (toISOString now))]))) ;;;
  modify (fun g => set_sseClients (<[clientId := c]> (sseClients g)) g) ;;;
  modify (fun g => set_heartbeats ({[c]} ∪ heartbeats g) g) ;;;
  register_listeners c eventTypes ;;;
  modify (fun g => set_closeListeners (<[c := clientId]> (closeListeners g)) g).

(** The ['close'] listener of an [/events] request. *)
Definition on_close (c : conn) (clientId : jsstring) : M unit :=
  modify (fun g => set_heartbeats (heartbeats g ∖ {[c]}) g) ;;;
  modify (fun g => set_sseClients (delete clientId (sseClients g)) g) ;;;
  removeAllListeners.

(** The interval callback [() => res.write(':heartbeat\n\n')]. *)
Definition heartbeat (c : conn) : M unit :=
  act (SseWrite c (SseComment (js "heartbeat"))).

(** [const { name, arguments: args } = parsed]. *)
Definition destructure (parsed : value) : completion (value * value) :=
  match parsed with
  | VUndefined | VNull => Throw (TypeError_cannot_destructure parsed (js "name"))
  | VObj props =>
      Normal (default VUndefined (lookup_prop (js "name") props),
              default VUndefined (lookup_prop (js "arguments") props))
  | VBool _ | VNum _ | VStr _ | VArr _ => Normal (VUndefined, VUndefined)
  end.

(** The ['end'] listener of [case '/api/tools/call']. *)
Definition tools_call_route (c : conn) (body : jsstring) : M unit :=
  try_catch
    (parsed <- lift (JSON_parse body) ;;
     fields <- lift (destructure parsed) ;;
     let '(name, args) := fields in
     let mcpTools := initializeSystem in
     result <- handleMcpRequest
       (VObj [prop "method" (str "tools/call");
              prop "params" (VObj [prop "name" name; prop "arguments" args])])
       (Some mcpTools) ;;
     now <- gets clock ;;
     emit (js "tool:executed") (VObj [
       prop "tool" name;
       prop "timestamp" (VStr (toISOString now));
       prop "success" (VBool (bool_decide (response_error result = None)))]) ;;;
     reply c 200 (result_or_error result))
    (fun error => reply c 400 (VObj [prop "error" (VStr (message error))])).

Definition requestListener (c : conn) (method pathname body : jsstring) : M unit :=
  if jsstring_eqb method (js "OPTIONS") then reply c 200 VUndefined
  else if jsstring_eqb pathname (js "/health") then
    now <- gets clock ;;
    reply c 200 (VObj [
      prop "status" (str "ok");
      prop "version" getVersion;
      prop "mode" (str "hybrid");
      prop "timestamp" (VStr (toISOString now))])
  else if jsstring_eqb pathname (js "/events") then events_route c
  else if jsstring_eqb pathname (js "/api/tools/list") then
    if negb (jsstring_eqb method (js "GET")) then reply c 405 VUndefined
    else
      tools <- handleMcpRequest (VObj [prop "method" (str "tools/list")])
                 (Some initializeSystem) ;;
      reply c 200 (result_or_error tools)
  else if jsstring_eqb pathname (js "/api/tools/call") then
    if negb (jsstring_eqb method (js "POST")) then reply c 405 VUndefined
    else tools_call_route c body
  else if jsstring_eqb pathname (js "/api/status") then
    match function_member initializeSystem (js "swarm_status") with
    | Some h =>
        status <- invoke Primary (js "swarm_status") h
                    (VObj [prop "verbose" (VBool true)]) ;;
        reply c 200 status
    | None => throw (Error (js "statusTools.swarm_status is not a function"))
    end
  else reply c 404 (str "Not Found").

Definition startHttpServer : M unit :=
  modify (set_httpServer true).

(** ** Stdio server *)

(** [`msg-${sessionId}-${messageCount}`], the trace identifier that the
    logger is given with each message. *)
Definition messageId (messageCount : N) : jsstring :=
  js "msg-" ++ sessionId ++ js "-" ++ Number_toString (Z.of_N messageCount).

Definition errorResponse (error : js_error) : mcp_response :=
  Response (js "2.0") VNull None
    (Some (RpcError (-32700) (js "Parse error") (message error))).

(** The body of [for (const line of lines)]. *)
Definition handle_line (mcpTools : gmap jsstring (member world))
    (line : jsstring) : M unit :=
  if is_candidate line then
    modify (fun g => set_messageCount (messageCount g + 1) g) ;;;
    n <- gets messageCount ;;
    act (Message n line) ;;;
    try_catch
      (request <- lift (JSON_parse line) ;;
       lift (Get request (js "method")) ;;;
       act (LogMcpIn n request) ;;;
       response <- handleMcpRequest request (Some mcpTools) ;;
       act (LogMcpOut n response) ;;;
       act (Stdout n (WResponse response)))
      (fun error =>
         act (LogError n error) ;;;
         act (Stdout n (WResponse (errorResponse error))))
  else ret tt.

Fixpoint handle_lines (mcpTools : gmap jsstring (member world))
    (lines : list jsstring) : M unit :=
  match lines with
  | [] => ret tt
  | line :: rest => handle_line mcpTools line ;;; handle_lines mcpTools rest
  end.

(** The ['data'] listener of stdin. *)
Definition on_data (mcpTools : gmap jsstring (member world))
    (chunk : jsstring) : M unit :=
  b <- gets buffer ;;
  let '(lines, b') := frame b chunk in
  modify (set_buffer b') ;;;
  handle_lines mcpTools lines.

Definition process_exit (status : Z) : M unit :=
  modify (set_exitCode (Some status)).

(** The ['end'] listener of stdin. *)
Definition on_end : M unit := process_exit 0.

Definition initMessage : wire :=
  WNotification (js "server.initialized") (VObj [
    prop "serverInfo" (VObj [
      prop "name" (str "ruv-swarm-hybrid");
      prop "version" getVersion;
      prop "capabilities" (VObj [
        prop "tools" (VBool true);
        prop "prompts" (VBool false);
        prop "resources" (VBool true)])])]).

Definition startStdioServer : M unit :=
  modify (set_buffer []) ;;;
  modify (set_messageCount 0) ;;;
  modify (set_stdinListeners true) ;;;
  act (Stdout 0 initMessage).

(** ** main and the event loop *)

Inductive mode := stdio | http | hybrid.

Definition includes (args : list jsstring) (flag : string) : bool :=
  bool_decide (js flag ∈ args).

(** [main], on [process.argv.slice(2)].  The port has no part in what
    follows and is not represented; the HTTP server is listening or not. *)
Definition main (args : list jsstring) : M unit :=
  if includes args "--help" || includes args "-h" then process_exit 0
  else
    let mode :=
      if includes args "--hybrid" then hybrid
      else if includes args "--http" then http
      else stdio in
    let isDaemon := includes args "--daemon" in
    let keepAlive := includes args "--keep-alive" || env_CLAUDE_FLOW_MODE in
    try_catch
      ((match mode with
        | stdio | hybrid => startStdioServer
        | http => ret tt
        end) ;;;
       (match mode with
        | http | hybrid => startHttpServer
        | stdio => ret tt
        end) ;;;
       (if keepAlive || isDaemon
           || match mode with http | hybrid => true | stdio => false end
        then modify (set_keepAliveTimer true)
        else ret tt))
      (fun _ => process_exit 1).

(** The handlers of SIGTERM and SIGINT. *)
Definition on_signal : M unit :=
  (b <- gets httpServer ;;
   if b then modify (set_httpServer false) else ret tt) ;;;
  process_exit 0.

(** What the event loop can deliver to the process. *)
Inductive event :=
| StdinData (chunk : jsstring)
| StdinEnd
| Signal
| HttpRequest (c : conn) (method pathname body : jsstring)
| HttpClose (c : conn)
| HeartbeatTimer (c : conn)
| Tick (ms : N).

(** The listener, if any, that the process has for an event. *)
Definition dispatch (e : event) (g : gateway) : M unit :=
  match e with
  | StdinData chunk =>
      if stdinListeners g then on_data initializeSystem chunk else ret tt
  | StdinEnd => if stdinListeners g then on_end else ret tt
  | Signal => on_signal
  | HttpRequest c method pathname body =>
      if httpServer g then requestListener c method pathname body else ret tt
  | HttpClose c =>
      match closeListeners g !! c with
      | Some clientId =>
          modify (fun g => set_closeListeners (delete c (closeListeners g)) g) ;;;
          on_close c clientId
      | None => ret tt
      end
  | HeartbeatTimer c => if bool_decide (c ∈ heartbeats g) then heartbeat c else ret tt
  | Tick ms => modify (fun g => set_clock (clock g + ms) g)
  end.

(** One turn of the event loop: the listener of the event runs to its end,
    the promises it awaits included, before the next event is delivered.
    A process that has exited handles nothing more; a listener that throws
    ends in the ['unhandledRejection'] handler that [initializeLogger]
    installs, which exits with status 1. *)
Definition step (g : gateway) (e : event) : gateway :=
  match exitCode g with
  | Some _ => g
  | None =>
      match dispatch e g g with
      | (Normal _, g') => g'
      | (Throw _, g') => set_exitCode (Some 1%Z) g'
      end
  end.

Definition run (g : gateway) (events : list event) : gateway :=
  foldl step g events.

(** The process is running and its HTTP transport accepts requests. *)
Definition http_alive (g : gateway) : Prop :=
  exitCode g = None /\ httpServer g = true.

(** The frames written so far on the SSE response [c]. *)
Definition sse_stream (c : conn) (g : gateway) : list sse_frame :=
  omap (fun a => match a with
                 | SseWrite c' f => if decide (c' = c) then Some f else None
                 | _ => None
                 end) (trace g).

(** The lines written so far on stdout. *)
Definition stdout (g : gateway) : list wire :=
  omap (fun a => match a with Stdout _ w => Some w | _ => None end) (trace g).

(** The candidate messages taken from stdin so far. *)
Definition messages (g : gateway) : list jsstring :=
  omap (fun a => match a with Message _ line => Some line | _ => None end) (trace g).

End Transports.

(** ** A concrete runtime and concrete runs

    A small installation to run the gateway on: two registries with a
    handful of tools, a stand-in for [JSON.parse] that knows the texts used
    below and rejects every other text, and a compact [JSON.stringify]. *)
Module Scenario.

(** A text literal, with ['] standing for the double quote. *)
Definition text (s : string) : jsstring :=
  map (fun c => if c =? 39 then 34 else c) (js s).

Fixpoint join (sep : jsstring) (parts : list jsstring) : jsstring :=
  match parts with
  | [] => []
  | [p] => p
  | p :: rest => p ++ sep ++ join sep rest
  end.

Fixpoint render (v : value) : jsstring :=
  match v with
  | VUndefined => js "null"
  | VNull => js "null"
  | VBool true => js "true"
  | VBool false => js "false"
  | VNum n => Number_toString n
  | VStr s => [34] ++ s ++ [34]
  | VArr elems => js "[" ++ join (js ",") (map render elems) ++ js "]"
  | VObj props =>
      js "{"
      ++ join (js ",")
           (map (fun kv => [34] ++ fst kv ++ [34] ++ js ":" ++ render (snd kv)) props)
      ++ js "}"
  end.

Definition stringify (v : value) : completion value :=
  match v with
  | VUndefined => Normal VUndefined
  | _ => Normal (VStr (render v))
  end.

Definition line_initialize : jsstring :=
  text "{'jsonrpc':'2.0','id':1,'method':'initialize'}".
Definition line_unknown_tool : jsstring :=
  text "{'id':2,'method':'tools/call','params':{'name':'nonexistent_tool','arguments':{}}}".
Definition line_status : jsstring :=
  text "{'id':3,'method':'tools/call','params':{'name':'swarm_status','arguments':{}}}".
Definition line_unknown_method : jsstring :=
  text "{'id':4,'method':'resources/list'}".
Definition line_faulty : jsstring :=
  text "{'id':5,'method':'tools/call','params':{'name':'faulty'}}".
Definition line_quiet : jsstring :=
  text "{'id':6,'method':'tools/call','params':{'name':'quiet'}}".
Definition line_shared : jsstring :=
  text "{'id':7,'method':'tools/call','params':{'name':'shared'}}".
Definition line_broken : jsstring := text "{'id':8,".
Definition body_status : jsstring :=
  text "{'name':'swarm_status','arguments':{}}".
Definition body_quiet : jsstring := text "{'name':'quiet'}".
Definition package_text : jsstring := text "{'version':'1.0.18'}".

Definition tools_call (i : Z) (name : string) (rest : list (jsstring * value)) : value :=
  VObj [prop "id" (VNum i); prop "method" (str "tools/call");
        prop "params" (VObj (prop "name" (str name) :: rest))].

Definition request_initialize : value :=
  VObj [prop "jsonrpc" (str "2.0"); prop "id" (VNum 1); prop "method" (str "initialize")].
Definition request_unknown_tool : value :=
  tools_call 2 "nonexistent_tool" [prop "arguments" (VObj [])].
Definition request_status : value :=
  tools_call 3 "swarm_status" [prop "arguments" (VObj [])].
Definition request_unknown_method : value :=
  VObj [prop "id" (VNum 4); prop "method" (str "resources/list")].
Definition request_faulty : value := tools_call 5 "faulty" [].
Definition request_quiet : value := tools_call 6 "quiet" [].
Definition request_shared : value := tools_call 7 "shared" [].

Definition parse_table : list (jsstring * value) :=
  [(line_initialize, request_initialize);
   (line_unknown_tool, request_unknown_tool);
   (line_status, request_status);
   (line_unknown_method, request_unknown_method);
   (line_faulty, request_faulty);
   (line_quiet, request_quiet);
   (line_shared, request_shared);
   (body_status, VObj [prop "name" (str "swarm_status"); prop "arguments" (VObj [])]);
   (body_quiet, VObj [prop "name" (str "quiet")]);
   (package_text, VObj [prop "version" (str "1.0.18")])].

Definition parse (t : jsstring) : completion value :=
  match lookup_prop t parse_table with
  | Some v => Normal v
  | None => Throw (Error (js "Unexpected end of JSON input"))
  end.

(** The engine of the scenario counts the calls made on it. *)
Definition swarm_status : handler N :=
  fun _ calls => (Normal (VObj [prop "agents" (VNum (Z.of_N calls))]), calls + 1).
Definition faulty : handler N :=
  fun _ calls => (Throw (Error (js "engine offline")), calls + 1).
Definition quiet : handler N :=
  fun _ calls => (Normal VNull, calls + 1).
Definition shared_primary : handler N :=
  fun _ calls => (Normal (str "primary"), calls + 1).
Definition shared_secondary : handler N :=
  fun _ calls => (Normal (str "secondary"), calls + 100).
Definition daa_init : handler N :=
  fun _ calls => (Normal (str "daa"), calls + 100).

Definition primary_registry : gmap jsstring (member N) :=
  <[js "swarm_status" := Method swarm_status]>
  (<[js "faulty" := Method faulty]>
  (<[js "quiet" := Method quiet]>
  (<[js "shared" := Method shared_primary]>
  (<[js "ruvSwarm" := Field]> ∅)))).

Definition secondary_registry : gmap jsstring (member N) :=
  <[js "shared" := Method shared_secondary]>
  (<[js "daa_init" := Method daa_init]> ∅).

Definition runtime : Runtime := {|
  world := N;
  JSON_parse := parse;
  JSON_stringify := stringify;
  readFileSync_package := Normal package_text;
  toISOString := fun ms => Number_toString (Z.of_N ms);
  EnhancedMCPTools := primary_registry;
  daaMcpTools := secondary_registry;
  sessionId := js "session-1";
  env_CLAUDE_FLOW_MODE := false;
|}.

(** The process after [main] has run with the given arguments. *)
Definition started (args : list string) : @gateway runtime :=
  snd (main (RT := runtime) (map js args) (boot (RT := runtime) 0 1000)).

Definition GET (c : conn) (path : string) : event :=
  HttpRequest c (js "GET") (js path) [].
Definition POST (c : conn) (path : string) (body : jsstring) : event :=
  HttpRequest c (js "POST") (js path) body.

End Scenario.

(** * Vocabulary of the properties *)

Section Vocabulary.
Context {RT : Runtime}.

(** [changes R m]: whenever [m] runs, the states before and after it are
    related by [R].  For a preorder [R] this passes through sequencing and
    [try]/[catch], which is how the frame conditions of the dispatcher and
    of the listeners are obtained. *)
Definition changes {A} (R : relation gateway) (m : M A) : Prop :=
  forall g c g', m g = (c, g') -> R g g'.

(** [returns P m]: every value [m] returns satisfies [P]. *)
Definition returns {A} (P : A -> Prop) (m : M A) : Prop :=
  forall g a g', m g = (Normal a, g') -> P a.

(** Actions of the dispatcher: calls of tools, publications on the bus,
    and what the listeners of the bus write. *)
Definition quiet (a : action) : Prop :=
  match a with
  | Invoke _ _ _ | Emit _ _ | SseWrite _ _ => True
  | _ => False
  end.

(** Publications on the bus and what its listeners write. *)
Definition publication (a : action) : Prop :=
  match a with
  | Emit _ _ | SseWrite _ _ => True
  | _ => False
  end.

(** Actions that belong to no stdio message. *)
Definition off_stdio (a : action) : Prop :=
  match a with
  | Message _ _ | LogMcpIn _ _ | LogMcpOut _ _ | LogError _ _ | Stdout _ _ => False
  | _ => True
  end.

Definition extend (g : gateway) (w : world) (t : list action) : gateway :=
  set_trace (trace g ++ t) (set_engine w g).

(** The dispatcher's footprint: the engine and the trace, the latter grown
    by quiet actions. *)
Definition dispatched : relation gateway :=
  fun g g' => exists w t, g' = extend g w t /\ Forall quiet t.

(** The footprint of a publication: the trace alone. *)
Definition published : relation gateway :=
  fun g g' => exists t, g' = extend g (engine g) t /\ Forall publication t.

(** The stdio session is left alone. *)
Definition stdio_untouched : relation gateway :=
  fun g g' =>
    buffer g' = buffer g /\ messageCount g' = messageCount g
    /\ stdinListeners g' = stdinListeners g
    /\ exists t, trace g' = trace g ++ t /\ Forall off_stdio t.

(** [request] is a ['tools/call'] with id [i] that names the tool
    [toolName], whose property key is [key], and passes it [toolArgs]. *)
Definition is_tools_call (request i toolName toolArgs : value) (key : jsstring) : Prop :=
  Get request (js "id") = Normal i
  /\ Get request (js "method") = Normal (str "tools/call")
  /\ exists params arguments,
       Get request (js "params") = Normal params
       /\ Get params (js "name") = Normal toolName
       /\ Get params (js "arguments") = Normal arguments
       /\ toolArgs = (if ToBoolean arguments then arguments else VObj [])
       /\ ToString toolName = Normal key.

(** [v === null]. *)
Definition is_null (v : value) : bool :=
  match v with VNull => true | _ => false end.

(** The responses of the dispatcher to a request with id [i]. *)
Definition error_response (i : value) (c : Z) (m d : jsstring) : mcp_response :=
  Response (js "2.0") i None (Some (RpcError c m d)).

(** The actions that [g'] has recorded beyond those of [g]. *)
Definition new_actions (g g' : gateway) : list action :=
  drop (length (trace g)) (trace g').

(** The number of the stdio message an action belongs to. *)
Definition message_number (a : action) : option N :=
  match a with
  | Message n _ | LogMcpIn n _ | LogMcpOut n _ | LogError n _ | Stdout n _ => Some n
  | _ => None
  end.

(** What handling the candidate [line] as message [n] adds to the trace:
    either the line is rejected with a parse-error response, or it parsed
    to a request that was dispatched and answered. *)
Inductive line_effect (line : jsstring) (n : N) : list action -> Prop :=
| line_rejected e :
    line_effect line n
      [Message n line; LogError n e; Stdout n (WResponse (errorResponse e))]
| line_answered request r t :
    JSON_parse line = Normal request ->
    Get request (js "id") = Normal (response_id r) ->
    Forall quiet t ->
    line_effect line n
      ([Message n line; LogMcpIn n request] ++ t
       ++ [LogMcpOut n r; Stdout n (WResponse r)]).

(** What handling [lines] adds to the trace when [n] messages have been
    counted before, and the count afterwards. *)
Inductive lines_effect : N -> list jsstring -> list action -> N -> Prop :=
| lines_done n : lines_effect n [] [] n
| lines_skip n line lines t n' :
    is_candidate line = false ->
    lines_effect n lines t n' ->
    lines_effect n (line :: lines) t n'
| lines_take n line lines t1 t2 n' :
    is_candidate line = true ->
    line_effect line (n + 1) t1 ->
    lines_effect (n + 1) lines t2 n' ->
    lines_effect n (line :: lines) (t1 ++ t2) n'.

(** No client is subscribed to anything but the four event types of the
    [/events] route, and no [tool:executed] event has been written to any
    client. *)
Definition silent (g : gateway) : Prop :=
  (forall k ls l, sseEventEmitter g !! k = Some ls -> l ∈ ls ->
                  l_eventType l ∈ eventTypes)
  /\ (forall c d, SseWrite c (SseEvent (js "tool:executed") d) ∉ trace g).

Definition stays_silent : relation gateway :=
  fun g g' => silent g -> silent g'.

(** What a listener of the bus writes when it is called with [d]. *)
Definition listener_write (d : value) (l : listener) : action :=
  SseWrite (l_res l) (SseEvent (l_eventType l) d).

(** The chunks that stdin delivers in a sequence of events. *)
Definition stdin_chunks (events : list event) : list jsstring :=
  omap (fun e => match e with StdinData chunk => Some chunk | _ => None end) events.

End Vocabulary.



(** * Further vocabulary *)

Section FurtherVocabulary.
Context {RT : Runtime}.

(** The payload of the dispatcher's [tool:executed]. *)
Definition executed_payload (g : gateway) (toolName toolArgs : value) : value :=
  VObj [prop "tool" toolName; prop "args" toolArgs;
        prop "timestamp" (VStr (toISOString (clock g)))].

(** What the dispatcher publishes after a call that did not return [null]:
    nothing while [sseClients] is empty, otherwise [tool:executed], which
    every listener of that event then writes to its client. *)
Definition publications (g : gateway) (toolName toolArgs : value) : list action :=
  if bool_decide (0 < size (sseClients g))%nat then
    Emit (js "tool:executed") (executed_payload g toolName toolArgs)
    :: map (listener_write (executed_payload g toolName toolArgs))
         (listeners_of g (js "tool:executed"))
  else [].

(** [{ content: [{ type: 'text', text }] }]. *)
Definition text_content (text : value) : value :=
  VObj [prop "content" (VArr [VObj [prop "type" (str "text"); prop "text" text]])].

(** [typeof result === 'string' ? result : JSON.stringify(result, null, 2)]. *)
Definition result_text (result : value) : completion value :=
  if is_string result then Normal result else JSON_stringify result.

(** A response carries either a result or an error, and the error is one
    of the two the dispatcher makes. *)
Definition well_formed (r : mcp_response) : Prop :=
  jsonrpc r = js "2.0"
  /\ ((is_Some (response_result r) /\ response_error r = None)
      \/ (response_result r = None
          /\ exists d,
               response_error r = Some (RpcError (-32601) (js "Method not found") d)
               \/ response_error r = Some (RpcError (-32603) (js "Internal error") d))).

Definition is_invoke (a : action) : Prop :=
  match a with Invoke _ _ _ => True | _ => False end.

(** The replies sent on the HTTP exchange [c] among the actions [t]: status
    and body. *)
Definition http_replies (c : conn) (t : list action) : list (Z * value) :=
  omap (fun a => match a with
                 | HttpReply c' status body =>
                     if decide (c' = c) then Some (status, body) else None
                 | _ => None
                 end) t.

(** The request that the [/api/tools/call] route builds from a body. *)
Definition route_request (name args : value) : value :=
  VObj [prop "method" (str "tools/call");
        prop "params" (VObj [prop "name" name; prop "arguments" args])].

(** The route's own [tool:executed], published after the dispatcher has
    returned [r]. *)
Definition route_payload (g : gateway) (name : value) (r : mcp_response) : value :=
  VObj [prop "tool" name;
        prop "timestamp" (VStr (toISOString (clock g)));
        prop "success" (VBool (bool_decide (response_error r = None)))].

(** The two kinds of frame that the [/events] route writes by itself: the
    [connected] event on connection and the heartbeat comment. *)
Definition handshake_or_heartbeat (f : sse_frame) : Prop :=
  match f with
  | SseEvent eventType _ => eventType = js "connected"
  | SseComment text => text = js "heartbeat"
  end.

(** The bus has listeners for the four event types of the [/events] route
    only, and the clients have been written nothing but handshakes and
    heartbeats. *)
Definition unserved (g : gateway) : Prop :=
  (forall k ls, sseEventEmitter g !! k = Some ls -> k ∈ eventTypes)
  /\ (forall c f, SseWrite c f ∈ trace g -> handshake_or_heartbeat f).

Definition stays_unserved : relation gateway :=
  fun g g' => unserved g -> unserved g'.

(** The message numbers of the lines written on stdout, in order. *)
Definition stdout_numbers (t : list action) : list N :=
  omap (fun a => match a with Stdout n _ => Some n | _ => None end) t.


(** Actions that stay on the stdio side of the process: anything but a
    publication on the bus, a write to an SSE client or an HTTP reply. *)
Definition local_action (a : action) : Prop :=
  match a with
  | Emit _ _ | SseWrite _ _ | HttpReply _ _ _ => False
  | _ => True
  end.

(** From a state without SSE clients: none is added, the HTTP server and
    the heartbeats are left alone, and the trace grows by local actions. *)
Definition keeps_private : relation gateway :=
  fun g g' =>
    sseClients g = ∅ ->
    sseClients g' = ∅ /\ httpServer g' = httpServer g
    /\ heartbeats g' = heartbeats g
    /\ exists t, trace g' = trace g ++ t /\ Forall local_action t.

(** The client of connection [c] is detached: its heartbeat timer is not
    running and the bus holds none of its listeners. *)
Definition detached (c : conn) (g : gateway) : Prop :=
  (c ∉ heartbeats g)
  /\ forall k ls l, sseEventEmitter g !! k = Some ls -> l ∈ ls -> l_res l <> c.

(** A detached client stays detached and is written nothing. *)
Definition leaves_alone (c : conn) : relation gateway :=
  fun g g' => detached c g -> detached c g' /\ sse_stream c g' = sse_stream c g.

(** The event is not a request on the connection [c]. *)
Definition not_request_on (c : conn) (e : event) : Prop :=
  match e with
  | HttpRequest c' _ _ _ => c' <> c
  | _ => True
  end.

(** The exit status is left as it was. *)
Definition same_exit : relation gateway :=
  fun g g' => exitCode g' = exitCode g.

(** Events that are neither a signal, nor the end of stdin, nor a request
    to [/api/status] (other than its [OPTIONS] preflight). *)
Definition benign (e : event) : Prop :=
  match e with
  | Signal | StdinEnd => False
  | HttpRequest _ method pathname _ =>
      method = js "OPTIONS" \/ pathname <> js "/api/status"
  | _ => True
  end.

End FurtherVocabulary.

(** ** A second installation

    An installation in a poor state, to run the failure paths on: the
    primary registry has no [swarm_status], its one tool returns a value
    that [JSON.stringify] rejects, the secondary registry is empty and
    [package.json] cannot be read.  [JSON.parse] also knows the text
    [null]. *)
Module Degraded.

Definition line_null : jsstring := js "null".
Definition body_ledger : jsstring := Scenario.text "{'name':'ledger'}".

Definition parse (t : jsstring) : completion value :=
  if jsstring_eqb t line_null then Normal VNull
  else if jsstring_eqb t body_ledger then Normal (VObj [prop "name" (str "ledger")])
  else Scenario.parse t.

Definition stringify (v : value) : completion value :=
  Throw (Error (js "Do not know how to serialize a BigInt")).

Definition ledger : handler N :=
  fun _ calls => (Normal (VObj [prop "total" (VNum 1)]), calls + 1).

Definition request_ledger : value := Scenario.tools_call 1 "ledger" [].

Definition runtime : Runtime := {|
  world := N;
  JSON_parse := parse;
  JSON_stringify := stringify;
  readFileSync_package := Throw (Error (js "ENOENT: no such file or directory"));
  toISOString := fun ms => Number_toString (Z.of_N ms);
  EnhancedMCPTools := {[js "ledger" := Method ledger]};
  daaMcpTools := ∅;
  sessionId := js "session-2";
  env_CLAUDE_FLOW_MODE := true;
|}.

(** The process after [main] has run with the given arguments. *)
Definition started (args : list string) : @gateway runtime :=
  snd (main (RT := runtime) (map js args) (boot (RT := runtime) 0 1000)).

End Degraded.

(** * Listeners that wait for a tool

    [step] lets the listener of an event run to its end.  In the program a
    listener is an [async] function, which returns to the event loop at an
    [await].  The awaits on [getVersion], on [getToolDefinitions], on
    [initializeSystem] once the system is initialized (as it is when the
    stdio server has started) and on [handleMcpRequest] itself are
    resumed from the microtask queue, which is emptied before the event
    loop delivers anything else; the await on the promise of a tool is
    resumed when the tool settles, and until then the event loop goes on
    delivering events.  Here the listeners are cut at that await: a
    [_begin] runs up to the call of the tool, a [_resume] from its
    settlement on.  The handler takes its step on the engine when it is
    called; what its promise settles with is kept until then. *)

Section Asynchrony.
Context {RT : Runtime}.

(** A call that [handleMcpRequest] is waiting for: the [response] under
    construction, [toolName], [toolArgs], and what the promise of the tool
    settles with. *)
Record call := Call {
  call_response : mcp_response;
  call_toolName : value;
  call_toolArgs : value;
  call_outcome : completion value;
}.

(** [registry[toolName](toolArgs)], the call alone. *)
Definition invoke_begin (r : registry_id) (key : jsstring) (h : handler world)
    (toolArgs : value) : M (completion value) :=
  act (Invoke r key toolArgs) ;;;
  (fun g => let '(c, w) := h toolArgs (engine g) in (Normal c, set_engine w g)).

Definition try_daa_begin (toolName toolArgs : value) : M (option (completion value)) :=
  key <- lift (ToString toolName) ;;
  match function_member daaMcpTools_linked key with
  | Some h => outcome <- invoke_begin Secondary key h toolArgs ;; ret (Some outcome)
  | None => ret None
  end.

(** The lookup of the ['tools/call'] case: the outcome of the call that
    was made, or nothing when neither registry has such a function and
    [result] stays [null]. *)
Definition call_tool_begin (mcpTools : option (gmap jsstring (member world)))
    (toolName toolArgs : value) : M (option (completion value)) :=
  match mcpTools with
  | Some tools =>
      key <- lift (ToString toolName) ;;
      match function_member tools key with
      | Some h => outcome <- invoke_begin Primary key h toolArgs ;; ret (Some outcome)
      | None => try_daa_begin toolName toolArgs
      end
  | None => try_daa_begin toolName toolArgs
  end.

(** [case 'tools/call'] up to the await. *)
Definition tools_call_case_begin (response : mcp_response) (request : value)
    (mcpTools : option (gmap jsstring (member world))) : M (mcp_response + call) :=
  params <- lift (Get request (js "params")) ;;
  toolName <- lift (Get params (js "name")) ;;
  arguments <- lift (Get params (js "arguments")) ;;
  let toolArgs := if ToBoolean arguments then arguments else VObj [] in
  called <- call_tool_begin mcpTools toolName toolArgs ;;
  match called with
  | Some outcome => ret (inr (Call response toolName toolArgs outcome))
  | None =>
      response <- result_case response toolName toolArgs VNull ;;
      ret (inl response)
  end.

(** [handleMcpRequest] up to the await on a tool: the response, when the
    request is answered without calling one, or the call it waits for.
    Only the ['tools/call'] case calls a tool. *)
Definition handleMcpRequest_begin (request : value)
    (mcpTools : option (gmap jsstring (member world))) : M (mcp_response + call) :=
  request_id <- lift (Get request (js "id")) ;;
  let response := Response (js "2.0") request_id None None in
  try_catch
    (method <- lift (Get request (js "method")) ;;
     if strict_equals_string method (js "tools/call") then
       tools_call_case_begin response request mcpTools
     else
       response <- switch_method response request mcpTools ;;
       ret (inl response))
    (fun error => ret (inl (with_error response (internal_error error)))).

(** [handleMcpRequest] from the settlement of the tool on, still inside
    its [try]: a rejection is thrown at the await. *)
Definition handleMcpRequest_resume (c : call) : M mcp_response :=
  let response := call_response c in
  try_catch
    (result <- lift (call_outcome c) ;;
     result_case response (call_toolName c) (call_toolArgs c) result)
    (fun error => ret (with_error response (internal_error error))).

(** A suspended listener: the ['data'] listener of stdin inside its loop,
    at message [n], with the lines of the batch it has still to handle;
    the ['end'] listener of a [/api/tools/call] request; the listener of
    an [/api/status] request. *)
Inductive task :=
| DataTask (mcpTools : gmap jsstring (member world)) (n : N) (request : value)
    (c : call) (rest : list jsstring)
| RouteTask (res : conn) (name : value) (c : call)
| StatusTask (res : conn) (outcome : completion value).

(** The body of [for (const line of lines)] up to the await. *)
Definition handle_line_begin (mcpTools : gmap jsstring (member world))
    (line : jsstring) : M (option (N * value * call)) :=
  if is_candidate line then
    modify (fun g => set_messageCount (messageCount g + 1) g) ;;;
    n <- gets messageCount ;;
    act (Message n line) ;;;
    try_catch
      (request <- lift (JSON_parse line) ;;
       lift (Get request (js "method")) ;;;
       act (LogMcpIn n request) ;;;
       outcome <- handleMcpRequest_begin request (Some mcpTools) ;;
       match outcome with
       | inl response =>
           act (LogMcpOut n response) ;;;
           act (Stdout n (WResponse response)) ;;;
           ret None
       | inr c => ret (Some (n, request, c))
       end)
      (fun error =>
         act (LogError n error) ;;;
         act (Stdout n (WResponse (errorResponse error))) ;;;
         ret None)
  else ret None.

(** The rest of the body, from the settlement on. *)
Definition handle_line_resume (n : N) (c : call) : M unit :=
  try_catch
    (response <- handleMcpRequest_resume c ;;
     act (LogMcpOut n response) ;;;
     act (Stdout n (WResponse response)))
    (fun error =>
       act (LogError n error) ;;;
       act (Stdout n (WResponse (errorResponse error)))).

(** The loop, until it has to wait or is through. *)
Fixpoint handle_lines_begin (mcpTools : gmap jsstring (member world))
    (lines : list jsstring) : M (option task) :=
  match lines with
  | [] => ret None
  | line :: rest =>
      waits <- handle_line_begin mcpTools line ;;
      match waits with
      | Some (n, request, c) => ret (Some (DataTask mcpTools n request c rest))
      | None => handle_lines_begin mcpTools rest
      end
  end.

Definition on_data_begin (mcpTools : gmap jsstring (member world))
    (chunk : jsstring) : M (option task) :=
  b <- gets buffer ;;
  let '(lines, b') := frame b chunk in
  modify (set_buffer b') ;;;
  handle_lines_begin mcpTools lines.

(** What the [/api/tools/call] route does with the response of the
    dispatcher. *)
Definition tools_call_route_end (c : conn) (name : value) (result : mcp_response)
  : M unit :=
  now <- gets clock ;;
  emit (js "tool:executed") (VObj [
    prop "tool" name;
    prop "timestamp" (VStr (toISOString now));
    prop "success" (VBool (bool_decide (response_error result = None)))]) ;;;
  reply c 200 (result_or_error result).

Definition tools_call_route_begin (c : conn) (body : jsstring) : M (option task) :=
  try_catch
    (parsed <- lift (JSON_parse body) ;;
     fields <- lift (destructure parsed) ;;
     let '(name, args) := fields in
     let mcpTools := initializeSystem in
     outcome <- handleMcpRequest_begin
       (VObj [prop "method" (str "tools/call");
              prop "params" (VObj [prop "name" name; prop "arguments" args])])
       (Some mcpTools) ;;
     match outcome with
     | inl result => tools_call_route_end c name result ;;; ret None
     | inr pending => ret (Some (RouteTask c name pending))
     end)
    (fun error =>
       reply c 400 (VObj [prop "error" (VStr (message error))]) ;;; ret None).

Definition tools_call_route_resume (c : conn) (name : value) (pending : call)
  : M unit :=
  try_catch
    (result <- handleMcpRequest_resume pending ;;
     tools_call_route_end c name result)
    (fun error => reply c 400 (VObj [prop "error" (VStr (message error))])).

(** The request listener up to an await on a tool.  Two routes call one:
    [/api/tools/call], through the dispatcher, and [/api/status]. *)
Definition requestListener_begin (c : conn) (method pathname body : jsstring)
  : M (option task) :=
  if jsstring_eqb method (js "OPTIONS") then reply c 200 VUndefined ;;; ret None
  else if jsstring_eqb pathname (js "/api/tools/call") then
    if negb (jsstring_eqb method (js "POST")) then reply c 405 VUndefined ;;; ret None
    else tools_call_route_begin c body
  else if jsstring_eqb pathname (js "/api/status") then
    match function_member initializeSystem (js "swarm_status") with
    | Some h =>
        outcome <- invoke_begin Primary (js "swarm_status") h
                     (VObj [prop "verbose" (VBool true)]) ;;
        ret (Some (StatusTask c outcome))
    | None => throw (Error (js "statusTools.swarm_status is not a function"))
    end
  else requestListener c method pathname body ;;; ret None.

(** A suspended listener goes on. *)
Definition resume (t : task) : M (option task) :=
  match t with
  | DataTask mcpTools n request c rest =>
      handle_line_resume n c ;;; handle_lines_begin mcpTools rest
  | RouteTask res name c => tools_call_route_resume res name c ;;; ret None
  | StatusTask res outcome =>
      status <- lift outcome ;; reply res 200 status ;;; ret None
  end.

(** A suspended listener whose tool, and every tool it calls afterwards,
    settles at once. *)
Definition resume_at_once (t : task) : M unit :=
  match t with
  | DataTask mcpTools n request c rest =>
      handle_line_resume n c ;;; handle_lines mcpTools rest
  | RouteTask res name c => tools_call_route_resume res name c
  | StatusTask res outcome => status <- lift outcome ;; reply res 200 status
  end.

(** The listener of an event, up to an await on a tool. *)
Definition begin (e : event) (g : gateway) : M (option task) :=
  match e with
  | StdinData chunk =>
      if stdinListeners g then on_data_begin initializeSystem chunk else ret None
  | HttpRequest c method pathname body =>
      if httpServer g then requestListener_begin c method pathname body else ret None
  | _ => dispatch e g ;;; ret None
  end.

(** The process with its suspended listeners. *)
Record process := Process {
  state : gateway;
  suspended : list task;
}.

(** What happens to the process: the event loop delivers an event; a
    request arrives whose target [new URL(req.url, ...)] rejects, which the
    request listener does first and outside any [try]; the tool that the
    [k]th suspended listener waits for settles. *)
Inductive occurrence :=
| Deliver (e : event)
| BadRequest (c : conn) (error : js_error)
| Settle (k : nat).

(** The process after a listener has run until it waits, is through or has
    thrown; a listener that throws ends in the ['unhandledRejection']
    handler, as in [step]. *)
Definition conclude (others : list task) (r : completion (option task) * gateway)
  : process :=
  match r with
  | (Normal (Some t), g) => Process g (others ++ [t])
  | (Normal None, g) => Process g others
  | (Throw _, g) => Process (set_exitCode (Some 1%Z) g) others
  end.

Definition advance (p : process) (o : occurrence) : process :=
  match exitCode (state p) with
  | Some _ => p
  | None =>
      match o with
      | Deliver e => conclude (suspended p) (begin e (state p) (state p))
      | BadRequest c error =>
          if httpServer (state p)
          then Process (set_exitCode (Some 1%Z) (state p)) (suspended p)
          else p
      | Settle k =>
          match suspended p !! k with
          | Some t => conclude (delete k (suspended p)) (resume t (state p))
          | None => p
          end
      end
  end.

Definition play (p : process) (occurrences : list occurrence) : process :=
  foldl advance p occurrences.

(** The process that [main] has started. *)
Definition launched (g : gateway) : process := Process g [].

(** ** Vocabulary of the properties of waiting listeners *)

(** The records of message [m] in a trace, in order. *)
Definition records (m : N) (t : list action) : list action :=
  List.filter (fun a => bool_decide (message_number a = Some m)) t.

(** The message numbers of the suspended ['data'] listeners. *)
Definition awaited (tasks : list task) : list N :=
  omap (fun t => match t with DataTask _ n _ _ _ => Some n | _ => None end) tasks.

(** The candidate lines that suspended ['data'] listeners have still to
    handle. *)
Definition held (tasks : list task) : list jsstring :=
  concat (omap (fun t => match t with
                         | DataTask _ _ _ _ rest => Some (List.filter is_candidate rest)
                         | _ => None
                         end) tasks).

(** The chunks of stdin among the occurrences. *)
Definition chunks (occurrences : list occurrence) : list jsstring :=
  omap (fun o => match o with Deliver (StdinData chunk) => Some chunk | _ => None end)
    occurrences.

(** The lines that a trace marks as taken, in order; [messages] is those
    of the trace of the process. *)
Definition taken (t : list action) : list jsstring :=
  omap (fun a => match a with Message _ line => Some line | _ => None end) t.

(** The records of a message that was rejected: the line does not parse,
    or it parses to [null], whose [method] cannot be read. *)
Definition rejected (m : N) (line : jsstring) (t : list action) : Prop :=
  exists e,
    t = [Message m line; LogError m e; Stdout m (WResponse (errorResponse e))]
    /\ (JSON_parse line = Throw e
        \/ exists request,
             JSON_parse line = Normal request
             /\ Get request (js "method") = Throw e).

(** The records of a request that has been answered: taken, parsed,
    answered once, by a response that carries its id. *)
Definition answered (m : N) (line : jsstring) (request : value) (t : list action)
  : Prop :=
  exists r,
    t = [Message m line; LogMcpIn m request; LogMcpOut m r; Stdout m (WResponse r)]
    /\ Get request (js "id") = Normal (response_id r).

(** A ['data'] listener alone is suspended inside the loop. *)
Definition no_data_task (waits : option task) : Prop :=
  match waits with Some (DataTask _ _ _ _ _) => False | _ => True end.

(** No listener of an [/api/status] request is suspended. *)
Definition no_status_task (waits : option task) : Prop :=
  match waits with Some (StatusTask _ _) => False | _ => True end.

(** Occurrences that are neither a signal, nor the end of stdin, nor a
    request to [/api/status], nor a request whose target is rejected. *)
Definition harmless (o : occurrence) : Prop :=
  match o with
  | Deliver e => benign e
  | BadRequest _ _ => False
  | Settle _ => True
  end.

(** The stdio session of a process with suspended listeners is in order:
    the suspended ['data'] listeners wait at different messages; nothing
    is on record for a message that has not been counted; under number 0
    there is the greeting; the message of a suspended listener has been
    taken and parsed, and nothing more; every other message that has been
    counted was rejected or answered; and the messages taken are as many
    as were counted. *)
Definition orderly (p : process) : Prop :=
  let g := state p in
  let tasks := suspended p in
  NoDup (awaited tasks)
  /\ (forall m, (messageCount g < m)%N -> records m (trace g) = [])
  /\ records 0 (trace g) = (if stdinListeners g then [Stdout 0 initMessage] else [])
  /\ (forall tools m request c rest,
        DataTask tools m request c rest ∈ tasks ->
        exists line,
          records m (trace g) = [Message m line; LogMcpIn m request]
          /\ JSON_parse line = Normal request
          /\ Get request (js "id") = Normal (response_id (call_response c)))
  /\ (forall m, (1 <= m <= messageCount g)%N -> m ∉ awaited tasks ->
        exists line,
          rejected m line (records m (trace g))
          \/ exists request,
               JSON_parse line = Normal request
               /\ answered m line request (records m (trace g)))
  /\ messageCount g = N.of_nat (length (messages g)).

End Asynchrony.

(** * Properties *)

(** ** The framer *)

Section FramerFacts.

Local Arguments frame : simpl never.

Lemma split_no_separator (a : jsstring) :
  LF ∉ a -> String_split LF a = [a].
Proof.
  induction a as [|c a IH]; intros Hnot; simpl; [done|].
  apply not_elem_of_cons in Hnot as [Hc Ha].
  destruct (N.eqb_spec c LF) as [->|_]; [done|].
  by rewrite (IH Ha).
Qed.

Lemma split_line (a b : jsstring) :
  LF ∉ a -> String_split LF (a ++ LF :: b) = a :: String_split LF b.
Proof.
  induction a as [|c a IH]; intros Hnot; simpl; [done|].
  apply not_elem_of_cons in Hnot as [Hc Ha].
  destruct (N.eqb_spec c LF) as [->|_]; [done|].
  by rewrite (IH Ha).
Qed.

Lemma split_lines_and_rest (s : jsstring) ls r :
  lines_and_rest s ls r -> String_split LF s = ls ++ [r].
Proof.
  intros (-> & Hls & Hr). induction Hls as [|l ls Hl _ IH]; simpl.
  - by apply split_no_separator.
  - rewrite <- !app_assoc. simpl. by rewrite (split_line _ _ Hl), IH.
Qed.

Lemma lines_and_rest_exists (s : jsstring) :
  exists ls r, lines_and_rest s ls r.
Proof.
  induction s as [|c s (ls & r & -> & Hls & Hr)].
  - exists [], []. repeat split; [constructor | apply not_elem_of_nil].
  - destruct (decide (c = LF)) as [->|Hc].
    + exists ([] :: ls), r. repeat split; [|done].
      constructor; [apply not_elem_of_nil | done].
    + destruct ls as [|l ls].
      * exists [], (c :: r). repeat split; [constructor|].
        apply not_elem_of_cons. split; [congruence | done].
      * exists ((c :: l) :: ls), r.
        apply Forall_cons in Hls as [Hl Hls].
        repeat split; [|done].
        constructor; [|done]. apply not_elem_of_cons. split; [congruence | done].
Qed.

(** The two readings of a stream agree: the lines and the rest are
    determined by the stream. *)
Lemma lines_and_rest_unique (s : jsstring) ls r ls' r' :
  lines_and_rest s ls r -> lines_and_rest s ls' r' -> ls = ls' /\ r = r'.
Proof.
  intros H H'. apply split_lines_and_rest in H, H'.
  rewrite H in H'. by apply app_inj_tail in H'.
Qed.

Lemma pop_snoc {A} (l : list A) (x : A) : Array_pop (l ++ [x]) = (Some x, l).
Proof.
  unfold Array_pop. f_equal.
  - apply last_snoc.
  - apply removelast_last.
Qed.

Lemma frame_lines_and_rest (b chunk : jsstring) :
  lines_and_rest (b ++ chunk) (frame b chunk).1 (frame b chunk).2.
Proof.
  destruct (lines_and_rest_exists (b ++ chunk)) as (ls & r & H).
  unfold frame. rewrite (split_lines_and_rest _ _ _ H), pop_snoc. simpl.
  by destruct r.
Qed.

Lemma lines_and_rest_app (s s' : jsstring) ls r ls' r' :
  lines_and_rest s ls r -> lines_and_rest (r ++ s') ls' r' ->
  lines_and_rest (s ++ s') (ls ++ ls') r'.
Proof.
  intros (-> & Hls & Hr) (Heq & Hls' & Hr'). repeat split; [|by apply Forall_app|done].
  rewrite map_app, concat_app, <- !app_assoc. by rewrite Heq.
Qed.

Lemma trimStart_nil (s : jsstring) : trimStart s = [] <-> blank s = true.
Proof.
  unfold blank. induction s as [|c s IH]; simpl; [done|].
  destruct (is_whitespace c); simpl; [done|]. split; discriminate.
Qed.

Lemma blank_rev (s : jsstring) : blank (rev s) = blank s.
Proof.
  unfold blank. apply eq_true_iff_eq. rewrite !forallb_forall.
  split; intros H x Hx; apply H; [by apply in_rev in Hx | by apply in_rev].
Qed.

Lemma blank_trimStart (s : jsstring) : blank (trimStart s) = blank s.
Proof.
  unfold blank. induction s as [|c s IH]; simpl; [done|].
  destruct (is_whitespace c) eqn:Hc; simpl; [done|]. by rewrite Hc.
Qed.

(** The guard [line.trim()] holds exactly for the lines that are not
    blank. *)
Lemma is_candidate_not_blank (line : jsstring) :
  is_candidate line = negb (blank line).
Proof.
  unfold is_candidate, trim, trimEnd.
  destruct (blank line) eqn:Hb; simpl.
  - assert (trimStart (rev (trimStart line)) = []) as ->; [|done].
    apply trimStart_nil. by rewrite blank_rev, blank_trimStart.
  - destruct (rev (trimStart (rev (trimStart line)))) as [|c t] eqn:Ht; [|done].
    exfalso. apply (f_equal (@rev N)) in Ht. rewrite rev_involutive in Ht.
    simpl in Ht. apply trimStart_nil in Ht.
    rewrite blank_rev, blank_trimStart in Ht. congruence.
Qed.

Lemma frame_all_cons (b chunk : jsstring) (rest : list jsstring) :
  frame_all b (chunk :: rest) =
  (List.filter is_candidate (frame b chunk).1 ++ (frame_all (frame b chunk).2 rest).1,
   (frame_all (frame b chunk).2 rest).2).
Proof.
  cbn [frame_all]. destruct (frame b chunk) as [lines b']. cbn [fst snd].
  by destruct (frame_all b' rest).
Qed.

Lemma frame_all_lines_and_rest (chunks : list jsstring) (b : jsstring) :
  LF ∉ b ->
  exists ls,
    lines_and_rest (b ++ concat chunks) ls (frame_all b chunks).2
    /\ (frame_all b chunks).1 = List.filter is_candidate ls.
Proof.
  revert b. induction chunks as [|chunk rest IH]; intros b Hb.
  - exists []. simpl. rewrite app_nil_r. repeat split; [constructor | done].
  - rewrite frame_all_cons.
    pose proof (frame_lines_and_rest b chunk) as Hframe.
    destruct (frame b chunk) as [lines b']. cbn [fst snd] in *.
    destruct (IH b') as (ls & Hrest & Hmsgs); [apply Hframe|].
    destruct (frame_all b' rest) as [more final]. cbn [fst snd] in *.
    exists (lines ++ ls). split.
    + simpl concat. rewrite app_assoc. by eapply lines_and_rest_app.
    + by rewrite List.filter_app, Hmsgs.
Qed.

End FramerFacts.

(** ** What a computation may change *)

Section Changes.
Context {RT : Runtime}.

Section Preorder.
Context (R : relation gateway) `{!PreOrder R}.

Lemma changes_ret {A} (a : A) : changes R (ret a).
Proof. intros g c g' [= _ <-]. reflexivity. Qed.

Lemma changes_throw {A} (e : js_error) : changes R (throw (A:=A) e).
Proof. intros g c g' [= _ <-]. reflexivity. Qed.

Lemma changes_lift {A} (c : completion A) : changes R (lift c).
Proof. intros g c' g' [= _ <-]. reflexivity. Qed.

Lemma changes_gets {A} (f : gateway -> A) : changes R (gets f).
Proof. intros g c g' [= _ <-]. reflexivity. Qed.

Lemma changes_modify (f : gateway -> gateway) :
  (forall g, R g (f g)) -> changes R (modify f).
Proof. intros H g c g' [= _ <-]. apply H. Qed.

Lemma changes_bind {A B} (m : M A) (k : A -> M B) :
  changes R m -> (forall a, changes R (k a)) -> changes R (bind m k).
Proof.
  intros Hm Hk g c g'. unfold bind.
  destruct (m g) as [[a|e] g1] eqn:Hg.
  - intros H. transitivity g1; [by eapply Hm | by eapply Hk].
  - intros [= _ <-]. by eapply Hm.
Qed.

Lemma changes_try_catch {A} (m : M A) (h : js_error -> M A) :
  changes R m -> (forall e, changes R (h e)) -> changes R (try_catch m h).
Proof.
  intros Hm Hh g c g'. unfold try_catch.
  destruct (m g) as [[a|e] g1] eqn:Hg.
  - intros [= _ <-]. by eapply Hm.
  - intros H. transitivity g1; [by eapply Hm | by eapply Hh].
Qed.

End Preorder.

Lemma quiet_off_stdio (a : action) : quiet a -> off_stdio a.
Proof. by destruct a. Qed.

Lemma extend_id (g : gateway) : extend g (engine g) [] = g.
Proof. destruct g. unfold extend, set_trace, set_engine. simpl. by rewrite app_nil_r. Qed.

Lemma extend_extend (g : gateway) w t w' t' :
  extend (extend g w t) w' t' = extend g w' (t ++ t').
Proof. destruct g. unfold extend, set_trace, set_engine. simpl. by rewrite app_assoc. Qed.

Global Instance dispatched_preorder : PreOrder dispatched.
Proof.
  split.
  - intros g. exists (engine g), []. by rewrite extend_id.
  - intros g1 g2 g3 (w & t & -> & Ht) (w' & t' & -> & Ht').
    exists w', (t ++ t'). rewrite extend_extend. split; [done | by apply Forall_app].
Qed.

Global Instance stdio_untouched_preorder : PreOrder stdio_untouched.
Proof.
  split.
  - intros g. repeat split. exists []. by rewrite app_nil_r.
  - intros g1 g2 g3 (Hb & Hn & Hl & t & Ht & Hq) (Hb' & Hn' & Hl' & t' & Ht' & Hq').
    repeat split; [congruence..|].
    exists (t ++ t'). rewrite Ht', Ht, app_assoc. split; [done | by apply Forall_app].
Qed.

Lemma dispatched_stdio_untouched g g' : dispatched g g' -> stdio_untouched g g'.
Proof.
  intros (w & t & -> & Ht). repeat split. exists t. split; [done|].
  eapply Forall_impl; [done | apply quiet_off_stdio].
Qed.

Lemma dispatched_exitCode g g' : dispatched g g' -> exitCode g' = exitCode g.
Proof. by intros (w & t & -> & _). Qed.

Lemma changes_weaken {A} (R R' : relation gateway) (m : M A) :
  (forall g g', R g g' -> R' g g') -> changes R m -> changes R' m.
Proof. intros HR Hm g c g' H. apply HR. by eapply Hm. Qed.

Lemma dispatched_act (a : action) : quiet a -> changes dispatched (act a).
Proof.
  intros Ha. apply changes_modify. intros g. exists (engine g), [a].
  split; [by destruct g | by constructor].
Qed.

Lemma untouched_act (a : action) : off_stdio a -> changes stdio_untouched (act a).
Proof.
  intros Ha. apply changes_modify. intros g. repeat split.
  exists [a]. split; [done | by constructor].
Qed.

End Changes.

Ltac changes_step :=
  match goal with
  | |- changes _ (bind _ _) => apply changes_bind; [apply _| |intros ?; cbv beta]
  | |- changes _ (ret _) => apply changes_ret; apply _
  | |- changes _ (lift _) => apply changes_lift; apply _
  | |- changes _ (gets _) => apply changes_gets; apply _
  | |- changes _ (throw _) => apply changes_throw; apply _
  | |- changes _ (try_catch _ _) =>
      apply changes_try_catch; [apply _| |intros ?; cbv beta]
  | |- changes _ (if ?b then _ else _) => destruct b
  | |- changes _ (match ?x with _ => _ end) => destruct x
  end.

(** ** The dispatcher *)

Section DispatcherFacts.
Context {RT : Runtime}.

Implicit Types (g : gateway) (mcpTools : option (gmap jsstring (member world))).

Lemma returns_ret {A} (P : A -> Prop) (a : A) : P a -> returns P (ret a).
Proof. by intros H g a' g' [= <- _]. Qed.

Lemma returns_bind {A B} (P : B -> Prop) (m : M A) (k : A -> M B) :
  (forall a, returns P (k a)) -> returns P (bind m k).
Proof.
  intros Hk g b g'. unfold bind. destruct (m g) as [[a|e] g1]; [|done].
  apply Hk.
Qed.

Lemma dispatched_invoke r key (h : handler world) toolArgs :
  changes dispatched (invoke r key h toolArgs).
Proof.
  unfold invoke. changes_step; [by apply dispatched_act|].
  intros g c g'. destruct (h toolArgs (engine g)) as [c' w] eqn:Hh.
  intros [= _ <-]. exists w, []. split; [|done].
  destruct g. unfold extend, set_trace, set_engine. simpl. by rewrite app_nil_r.
Qed.

Lemma dispatched_call_listeners (ls : list listener) d :
  changes dispatched (call_listeners ls d).
Proof.
  induction ls as [|l ls IH]; simpl; repeat changes_step; [|done].
  by apply dispatched_act.
Qed.

Lemma dispatched_emit eventType d : changes dispatched (emit eventType d).
Proof.
  unfold emit. repeat changes_step;
    [by apply dispatched_act | apply dispatched_call_listeners].
Qed.

Lemma dispatched_try_daa toolName toolArgs :
  changes dispatched (try_daa toolName toolArgs).
Proof. unfold try_daa. repeat changes_step. apply dispatched_invoke. Qed.

Lemma dispatched_call_tool mcpTools toolName toolArgs :
  changes dispatched (call_tool mcpTools toolName toolArgs).
Proof.
  unfold call_tool. repeat changes_step;
    first [apply dispatched_invoke | apply dispatched_try_daa].
Qed.

Lemma dispatched_result_case response toolName toolArgs result :
  changes dispatched (result_case response toolName toolArgs result).
Proof.
  unfold result_case. repeat first [apply dispatched_emit | changes_step].
Qed.

Lemma dispatched_switch_method response request mcpTools :
  changes dispatched (switch_method response request mcpTools).
Proof.
  unfold switch_method, tools_call_case.
  repeat first
    [apply dispatched_call_tool | apply dispatched_result_case | changes_step].
Qed.

(** The dispatcher touches nothing but the engine and the trace, and adds
    only its own actions to the latter. *)
Lemma dispatched_handleMcpRequest request mcpTools :
  changes dispatched (handleMcpRequest request mcpTools).
Proof.
  unfold handleMcpRequest.
  repeat first [apply dispatched_switch_method | changes_step].
Qed.

Lemma switch_method_keeps_id response request mcpTools :
  returns (fun r => response_id r = response_id response
                    /\ jsonrpc r = jsonrpc response)
    (switch_method response request mcpTools).
Proof.
  unfold switch_method, tools_call_case, result_case.
  repeat first
    [ apply returns_bind; intros ?
    | by apply returns_ret
    | match goal with
      | |- returns _ (if ?b then _ else _) => destruct b
      | |- returns _ (match ?x with _ => _ end) => destruct x
      end ].
Qed.

(** Reading a property fails only on [null] and [undefined], whatever the
    property. *)
Lemma Get_normal (base : value) (k k' : jsstring) v :
  Get base k = Normal v -> exists v', Get base k' = Normal v'.
Proof. destruct base; simpl; intros; try done; eauto. Qed.

(** Given a request that is neither [null] nor [undefined], the dispatcher
    returns a response, and the response carries the request's [id]. *)
Lemma handleMcpRequest_responds request mcpTools g i :
  Get request (js "id") = Normal i ->
  exists r g',
    handleMcpRequest request mcpTools g = (Normal r, g')
    /\ response_id r = i /\ jsonrpc r = js "2.0".
Proof.
  intros Hid. unfold handleMcpRequest, bind, lift, try_catch. rewrite Hid.
  destruct (switch_method _ request mcpTools g) as [[r|e] g1] eqn:Hs.
  - exists r, g1. split; [done|].
    by apply switch_method_keeps_id in Hs.
  - by eexists _, g1.
Qed.

End DispatcherFacts.

(** ** Evaluating a tools/call *)

Section CallFacts.
Context {RT : Runtime}.

Implicit Types (g : gateway) (mcpTools : option (gmap jsstring (member world))).

Global Instance published_preorder : PreOrder published.
Proof.
  split.
  - intros g. exists []. by rewrite extend_id.
  - intros g1 g2 g3 (t & -> & Ht) (t' & -> & Ht').
    exists (t ++ t'). rewrite extend_extend. split; [done | by apply Forall_app].
Qed.

Lemma published_act (a : action) : publication a -> changes published (act a).
Proof.
  intros Ha. apply changes_modify. intros g. exists [a].
  split; [by destruct g | by constructor].
Qed.

Lemma published_emit eventType d : changes published (emit eventType d).
Proof.
  unfold emit. repeat changes_step; [by apply published_act|].
  match goal with |- changes _ (call_listeners ?ls _) => induction ls as [|l ls IH] end;
    simpl; repeat changes_step; [|done].
  by apply published_act.
Qed.

Lemma published_result_case response toolName toolArgs result :
  changes published (result_case response toolName toolArgs result).
Proof.
  unfold result_case. repeat first [apply published_emit | changes_step].
Qed.

Lemma strict_equals_string_ne (v : value) (s : jsstring) :
  v <> VStr s -> strict_equals_string v s = false.
Proof.
  destruct v; simpl; try done. intros H.
  apply bool_decide_eq_false. congruence.
Qed.

(** The lookup of the code is the specification's [resolve]: the handler
    called, if any, is the one [resolve] selects, and when it selects none
    the call is skipped and [result] stays [null]. *)
Lemma call_tool_resolve mcpTools toolName toolArgs key g :
  ToString toolName = Normal key ->
  call_tool mcpTools toolName toolArgs g =
  match resolve mcpTools key with
  | Some (r, h) =>
      ((h toolArgs (engine g)).1,
       extend g (h toolArgs (engine g)).2 [Invoke r key toolArgs])
  | None => (Normal VNull, g)
  end.
Proof.
  intros Hkey.
  assert (forall r h, invoke r key h toolArgs g =
            ((h toolArgs (engine g)).1,
             extend g (h toolArgs (engine g)).2 [Invoke r key toolArgs])) as Hinv.
  { intros r h. unfold invoke, bind, act, modify. simpl.
    by destruct (h toolArgs (engine g)). }
  assert (try_daa toolName toolArgs g =
          match function_member daaMcpTools_linked key with
          | Some h => invoke Secondary key h toolArgs g
          | None => (Normal VNull, g)
          end) as Hdaa.
  { unfold try_daa, bind, lift. rewrite Hkey.
    by destruct (function_member daaMcpTools_linked key). }
  unfold call_tool, resolve. destruct mcpTools as [tools|]; simpl.
  - unfold bind, lift. rewrite Hkey.
    destruct (function_member tools key) as [h|]; [apply Hinv|].
    rewrite Hdaa. destruct (function_member daaMcpTools_linked key); [apply Hinv|done].
  - rewrite Hdaa. destruct (function_member daaMcpTools_linked key); [apply Hinv|done].
Qed.

(** A ['tools/call'] request reaches [call_tool] and [result_case] with its
    tool name and arguments, inside the [try]. *)
Lemma handleMcpRequest_tools_call request i toolName toolArgs key mcpTools g :
  is_tools_call request i toolName toolArgs key ->
  handleMcpRequest request mcpTools g =
  let response := Response (js "2.0") i None None in
  try_catch
    (result <- call_tool mcpTools toolName toolArgs ;;
     result_case response toolName toolArgs result)
    (fun error => ret (with_error response (internal_error error))) g.
Proof.
  intros (Hid & Hmethod & params & arguments & Hparams & Hname & Hargs & -> & Hkey).
  unfold handleMcpRequest, switch_method, tools_call_case, bind, lift, try_catch.
  rewrite Hid, Hmethod, Hparams, Hname, Hargs.
  by replace (strict_equals_string (str "tools/call") (js "initialize")) with false
    by (by vm_compute).
Qed.

End CallFacts.

Section DispatchClaims.
Context {RT : Runtime}.

Implicit Types (g : gateway) (mcpTools : option (gmap jsstring (member world))).
Implicit Types (request i toolName toolArgs : value) (key : jsstring).

Lemma new_actions_extend g w t : new_actions g (extend g w t) = t.
Proof.
  unfold new_actions, extend, set_trace. simpl. by rewrite drop_app_length.
Qed.

Lemma published_extend g w t g' :
  published (extend g w t) g' ->
  exists t', g' = extend g w (t ++ t') /\ Forall publication t'.
Proof.
  intros (t' & -> & Ht'). exists t'. split; [|done].
  rewrite extend_extend. by destruct g.
Qed.

(** What a ['tools/call'] does, case by case: no handler resolved, a
    handler that throws, one that returns [null], one that returns
    anything else. *)
Lemma tools_call_outcome request i toolName toolArgs key mcpTools g :
  is_tools_call request i toolName toolArgs key ->
  exists resp g',
    handleMcpRequest request mcpTools g = (Normal resp, g')
    /\ match resolve mcpTools key with
       | None =>
           resp = error_response i (-32601) (js "Method not found")
                    (js "Unknown tool: " ++ key)
           /\ g' = g
       | Some (r, h) =>
           let g1 := extend g (h toolArgs (engine g)).2 [Invoke r key toolArgs] in
           match (h toolArgs (engine g)).1 with
           | Throw e =>
               resp = error_response i (-32603) (js "Internal error") (message e)
               /\ g' = g1
           | Normal v =>
               if is_null v then
                 resp = error_response i (-32601) (js "Method not found")
                          (js "Unknown tool: " ++ key)
                 /\ g' = g1
               else published g1 g'
           end
       end.
Proof.
  intros Hcall. rewrite (handleMcpRequest_tools_call _ _ _ _ _ _ _ Hcall).
  destruct Hcall as (_ & _ & params & arguments & _ & _ & _ & _ & Hkey).
  cbv zeta. unfold try_catch, bind at 1. rewrite (call_tool_resolve _ _ _ _ _ Hkey).
  assert (forall g0, result_case (Response (js "2.0") i None None) toolName toolArgs VNull g0
          = (Normal (error_response i (-32601) (js "Method not found")
                       (js "Unknown tool: " ++ key)), g0)) as Hnull.
  { intros g0. unfold result_case, bind, lift. by rewrite Hkey. }
  destruct (resolve mcpTools key) as [[r h]|]; [|rewrite Hnull; by eexists _, _].
  destruct (h toolArgs (engine g)) as [[v|e] w]; cbn [fst snd]; [|by eexists _, _].
  set (g1 := extend g w [Invoke r key toolArgs]).
  destruct (is_null v) eqn:Hv.
  { destruct v; try done. rewrite Hnull. by eexists _, _. }
  destruct (result_case (Response (js "2.0") i None None) toolName toolArgs v g1)
    as [[resp|e] g2] eqn:Hcase;
    apply published_result_case in Hcase as Hpub; by eexists _, _.
Qed.

(** C6.  Registry precedence.  For a ['tools/call'] whose tool name the
    primary registry exposes as a function, the dispatcher calls that
    function, whatever the secondary registry exposes under the name: the
    engine is left as the primary's handler leaves it and the call is
    recorded as one on the primary registry, followed by publications only.
    A handler of the secondary registry is called only for a name under
    which the primary registry exposes no function. *)
Theorem registry_precedence request i toolName toolArgs key
    (tools : gmap jsstring (member world)) g :
  is_tools_call request i toolName toolArgs key ->
  let g' := (handleMcpRequest request (Some tools) g).2 in
  (forall h, function_member tools key = Some h ->
     exists t, g' = extend g (h toolArgs (engine g)).2 (Invoke Primary key toolArgs :: t)
               /\ Forall publication t)
  /\ (forall k a, Invoke Secondary k a ∈ new_actions g g' ->
        function_member tools k = None).
Proof.
  intros Hcall g'.
  destruct (tools_call_outcome _ _ _ _ _ (Some tools) g Hcall) as (resp & g2 & Hrun & Hout).
  subst g'. rewrite Hrun. cbn [snd]. unfold resolve in Hout. cbn [mbind option_bind] in Hout.
  assert (forall r w g3, published (extend g w [Invoke r key toolArgs]) g3 ->
          exists t, g3 = extend g w (Invoke r key toolArgs :: t) /\ Forall publication t)
    as Hpub.
  { intros r w g3 H. by apply published_extend in H. }
  assert (forall r (h0 : handler world),
            match (h0 toolArgs (engine g)).1 with
            | Throw e =>
                resp = error_response i (-32603) (js "Internal error") (message e)
                /\ g2 = extend g (h0 toolArgs (engine g)).2 [Invoke r key toolArgs]
            | Normal v =>
                if is_null v then
                  resp = error_response i (-32601) (js "Method not found")
                           (js "Unknown tool: " ++ key)
                  /\ g2 = extend g (h0 toolArgs (engine g)).2 [Invoke r key toolArgs]
                else published (extend g (h0 toolArgs (engine g)).2 [Invoke r key toolArgs]) g2
            end ->
            exists t, g2 = extend g (h0 toolArgs (engine g)).2 (Invoke r key toolArgs :: t)
                      /\ Forall publication t) as Hshape.
  { intros r h0 H. destruct (h0 toolArgs (engine g)).1 as [v|e].
    - destruct (is_null v); [|by eapply Hpub].
      destruct H as [_ ->]. by exists [].
    - destruct H as [_ ->]. by exists []. }
  split.
  - intros h Hh. rewrite Hh in Hout. by apply Hshape.
  - intros k a Hin. destruct (function_member tools key) as [h|] eqn:Hprimary.
    + apply Hshape in Hout as (t & -> & Ht). rewrite new_actions_extend in Hin.
      apply elem_of_cons in Hin as [[=]|Hin].
      rewrite Forall_forall in Ht. by apply Ht in Hin.
    + destruct (function_member daaMcpTools_linked key) as [h|].
      * apply Hshape in Hout as (t & -> & Ht). rewrite new_actions_extend in Hin.
        apply elem_of_cons in Hin as [[= -> _]|Hin]; [done|].
        rewrite Forall_forall in Ht. by apply Ht in Hin.
      * destruct Hout as [_ ->]. unfold new_actions in Hin.
        rewrite drop_all in Hin. by apply elem_of_nil in Hin.
Qed.

(** C8.  Method not found.  A ['tools/call'] whose tool name resolves in no
    registry, and a request whose method is none of [initialize],
    [tools/list] and [tools/call], are answered with the error -32601,
    "Method not found", whose data names the tool or the method; nothing
    else happens. *)
Theorem method_not_found_response request mcpTools g i :
  Get request (js "id") = Normal i ->
  (forall toolName toolArgs key,
     is_tools_call request i toolName toolArgs key ->
     resolve mcpTools key = None ->
     handleMcpRequest request mcpTools g =
       (Normal (Response (js "2.0") i None
                  (Some (RpcError (-32601) (js "Method not found")
                           (js "Unknown tool: " ++ key)))), g))
  /\ (forall method name,
        Get request (js "method") = Normal method ->
        method <> str "initialize" -> method <> str "tools/list" ->
        method <> str "tools/call" ->
        ToString method = Normal name ->
        handleMcpRequest request mcpTools g =
          (Normal (Response (js "2.0") i None
                     (Some (RpcError (-32601) (js "Method not found")
                              (js "Unknown method: " ++ name)))), g)).
Proof.
  intros Hid. split.
  - intros toolName toolArgs key Hcall Hnone.
    destruct (tools_call_outcome _ _ _ _ _ mcpTools g Hcall) as (resp & g' & -> & Hout).
    rewrite Hnone in Hout. by destruct Hout as [-> ->].
  - intros method name Hmethod H1 H2 H3 Hname.
    unfold handleMcpRequest, switch_method, bind, lift, try_catch.
    rewrite Hid, Hmethod, !strict_equals_string_ne by done.
    by rewrite Hname.
Qed.

(** C9.  Internal error.  Whatever is thrown inside the dispatch of a
    request, by a tool handler or by any other step, the dispatcher returns
    the error -32603, "Internal error", with the message of the fault as
    data, and the process goes on ([exitCode] is unchanged and nothing is
    thrown further).  A handler that throws is such a case; the call it
    was given is on record. *)
Theorem internal_error_response request mcpTools g i :
  Get request (js "id") = Normal i ->
  (forall e g1,
     switch_method (Response (js "2.0") i None None) request mcpTools g = (Throw e, g1) ->
     handleMcpRequest request mcpTools g =
       (Normal (Response (js "2.0") i None
                  (Some (RpcError (-32603) (js "Internal error") (message e)))), g1)
     /\ exitCode g1 = exitCode g)
  /\ (forall toolName toolArgs key r h e,
        is_tools_call request i toolName toolArgs key ->
        resolve mcpTools key = Some (r, h) ->
        (h toolArgs (engine g)).1 = Throw e ->
        let g1 := extend g (h toolArgs (engine g)).2 [Invoke r key toolArgs] in
        handleMcpRequest request mcpTools g =
          (Normal (Response (js "2.0") i None
                     (Some (RpcError (-32603) (js "Internal error") (message e)))), g1)
        /\ exitCode g1 = exitCode g).
Proof.
  intros Hid. split.
  - intros e g1 Hthrow. split.
    + unfold handleMcpRequest, bind, lift, try_catch. by rewrite Hid, Hthrow.
    + apply dispatched_switch_method in Hthrow. by apply dispatched_exitCode.
  - intros toolName toolArgs key r h e Hcall Hres Hthrow g1. split; [|done].
    destruct (tools_call_outcome _ _ _ _ _ mcpTools g Hcall) as (resp & g' & -> & Hout).
    rewrite Hres in Hout. cbv zeta in Hout. rewrite Hthrow in Hout.
    by destruct Hout as [-> ->].
Qed.

(** C10.  A handler that returns [null].  When the handler resolved for a
    ['tools/call'] runs and returns [null], the response is the error
    -32601 with data "Unknown tool: <name>", although the handler ran (its
    call is on record and the engine is as it left it), and nothing is
    published.  Conversely a ['tools/call'] gets a success response, or a
    [tool:executed] publication from the dispatcher, only when a handler
    was resolved and returned something other than [null]. *)
Theorem null_result_is_not_found request mcpTools g i toolName toolArgs key :
  is_tools_call request i toolName toolArgs key ->
  (forall r h,
     resolve mcpTools key = Some (r, h) ->
     (h toolArgs (engine g)).1 = Normal VNull ->
     handleMcpRequest request mcpTools g =
       (Normal (Response (js "2.0") i None
                  (Some (RpcError (-32601) (js "Method not found")
                           (js "Unknown tool: " ++ key)))),
        extend g (h toolArgs (engine g)).2 [Invoke r key toolArgs]))
  /\ (forall resp g',
        handleMcpRequest request mcpTools g = (Normal resp, g') ->
        is_Some (response_result resp)
        \/ (exists d, Emit (js "tool:executed") d ∈ new_actions g g') ->
        exists r h v,
          resolve mcpTools key = Some (r, h)
          /\ (h toolArgs (engine g)).1 = Normal v /\ v <> VNull).
Proof.
  intros Hcall.
  destruct (tools_call_outcome _ _ _ _ _ mcpTools g Hcall) as (resp & g' & Hrun & Hout).
  split.
  - intros r h Hres Hnull. rewrite Hrun. rewrite Hres in Hout. cbv zeta in Hout.
    rewrite Hnull in Hout. by destruct Hout as [-> ->].
  - intros resp' g'' Hrun' Hgood. rewrite Hrun in Hrun'. injection Hrun' as <- <-.
    assert (forall w r, ~ (is_Some (response_result (error_response i (-32601)
                 (js "Method not found") (js "Unknown tool: " ++ key)))
               \/ exists d, Emit (js "tool:executed") d
                              ∈ new_actions g (extend g w [Invoke r key toolArgs])))
      as Hno.
    { intros w r [[? [=]]|[d Hin]]. rewrite new_actions_extend in Hin.
      by apply list_elem_of_singleton in Hin. }
    destruct (resolve mcpTools key) as [[r h]|].
    + cbv zeta in Hout. destruct (h toolArgs (engine g)).1 as [v|e] eqn:Hh.
      * destruct (is_null v) eqn:Hv.
        -- destruct Hout as [-> ->]. by apply Hno in Hgood.
        -- exists r, h, v. repeat split; [done|]. by intros ->.
      * destruct Hout as [-> ->]. destruct Hgood as [[? [=]]|[d Hin]].
        rewrite new_actions_extend in Hin. by apply list_elem_of_singleton in Hin.
    + destruct Hout as [-> ->]. destruct Hgood as [[? [=]]|[d Hin]].
      unfold new_actions in Hin. rewrite drop_all in Hin. by apply elem_of_nil in Hin.
Qed.

End DispatchClaims.

(** ** The stdio session *)

Section StdioFacts.
Context {RT : Runtime}.

Implicit Types (g : gateway) (tools : gmap jsstring (member world)).
Implicit Types (line : jsstring) (lines : list jsstring) (t : list action).

Lemma handle_line_skips tools line g :
  is_candidate line = false -> handle_line tools line g = (Normal tt, g).
Proof. intros H. unfold handle_line. by rewrite H. Qed.

(** A candidate line is counted and handled; it is either rejected or
    answered, and the loop goes on. *)
Lemma handle_line_effect tools line g :
  is_candidate line = true ->
  exists w t,
    handle_line tools line g =
      (Normal tt, extend (set_messageCount (messageCount g + 1) g) w t)
    /\ line_effect line (messageCount g + 1) t.
Proof.
  intros Hcand. unfold handle_line. rewrite Hcand.
  set (n := messageCount g + 1).
  unfold bind at 1, modify at 1. unfold bind at 1, gets at 1.
  unfold bind at 1, act at 1, modify at 1. unfold try_catch, bind at 1, lift at 1.
  cbn [messageCount set_messageCount set_trace trace].
  destruct (JSON_parse line) as [request|e] eqn:Hparse.
  2:{ exists (engine g), [Message n line; LogError n e; Stdout n (WResponse (errorResponse e))].
      split; [|constructor]. unfold bind, act, modify, extend. destruct g; cbn.
      by rewrite <- !app_assoc. }
  unfold bind at 1, lift at 1.
  destruct (Get request (js "method")) as [method|e] eqn:Hmethod.
  2:{ exists (engine g), [Message n line; LogError n e; Stdout n (WResponse (errorResponse e))].
      split; [|constructor]. unfold bind, act, modify, extend. destruct g; cbn.
      by rewrite <- !app_assoc. }
  destruct (Get_normal _ _ (js "id") _ Hmethod) as [i Hid].
  unfold bind at 1, act at 1, modify at 1. unfold bind at 1.
  match goal with |- context [handleMcpRequest request (Some tools) ?g0] =>
    destruct (handleMcpRequest_responds request (Some tools) g0 i Hid)
      as (r & g' & Hrun & Hrid & _);
    pose proof (dispatched_handleMcpRequest _ _ _ _ _ Hrun) as (w & t & -> & Ht);
    rewrite Hrun
  end.
  exists w, ([Message n line; LogMcpIn n request] ++ t
             ++ [LogMcpOut n r; Stdout n (WResponse r)]).
  split; [|constructor; congruence].
  unfold bind, act, modify, extend. destruct g; cbn.
  by rewrite <- !app_assoc.
Qed.

Lemma handle_lines_effect tools lines g :
  exists w t n',
    handle_lines tools lines g = (Normal tt, extend (set_messageCount n' g) w t)
    /\ lines_effect (messageCount g) lines t n'.
Proof.
  revert g. induction lines as [|line lines IH]; intros g.
  - exists (engine g), [], (messageCount g). split; [|constructor].
    cbn. unfold ret. f_equal. destruct g; unfold extend; cbn. by rewrite app_nil_r.
  - cbn [handle_lines]. unfold bind.
    destruct (is_candidate line) eqn:Hcand.
    + destruct (handle_line_effect tools line g Hcand) as (w1 & t1 & -> & Hline).
      destruct (IH (extend (set_messageCount (messageCount g + 1) g) w1 t1))
        as (w & t & n' & -> & Hlines).
      exists w, (t1 ++ t), n'. split; [|by econstructor].
      f_equal. destruct g; unfold extend; cbn. by rewrite app_assoc.
    + rewrite (handle_line_skips _ _ _ Hcand).
      destruct (IH g) as (w & t & n' & -> & Hlines).
      exists w, t, n'. split; [done | by constructor].
Qed.

(** The ['data'] listener: the buffer is replaced by the framer's rest, and
    the framer's lines are handled in order. *)
Lemma on_data_effect tools chunk g :
  exists w t n',
    on_data tools chunk g =
      (Normal tt,
       extend (set_messageCount n' (set_buffer (frame (buffer g) chunk).2 g)) w t)
    /\ lines_effect (messageCount g) (frame (buffer g) chunk).1 t n'.
Proof.
  unfold on_data, bind at 1, gets at 1.
  destruct (frame (buffer g) chunk) as [lines b'] eqn:Hframe. cbn [fst snd].
  unfold bind, modify.
  destruct (handle_lines_effect tools lines (set_buffer b' g)) as (w & t & n' & -> & Hlines).
  by exists w, t, n'.
Qed.

Lemma line_effect_messages line n t :
  line_effect line n t ->
  omap (fun a => match a with Message _ l => Some l | _ => None end) t = [line].
Proof.
  intros [e|request r t' _ _ Hquiet]; [done|]. cbn. f_equal.
  rewrite omap_app. cbn. rewrite app_nil_r.
  induction Hquiet as [|a t' Ha _ IH]; [done|]. by destruct a.
Qed.

Lemma lines_effect_messages n lines t n' :
  lines_effect n lines t n' ->
  omap (fun a => match a with Message _ l => Some l | _ => None end) t
  = List.filter is_candidate lines.
Proof.
  induction 1 as [n|n line lines t n' Hc _ IH|n line lines t1 t2 n' Hc Hline _ IH]; cbn.
  - done.
  - by rewrite Hc.
  - by rewrite Hc, omap_app, (line_effect_messages _ _ _ Hline), IH.
Qed.



End StdioFacts.

Section StdioClaims.
Context {RT : Runtime}.

Implicit Types (g : gateway) (tools : gmap jsstring (member world)).
Implicit Types (line : jsstring) (lines : list jsstring) (t : list action).



Lemma filter_candidates lines :
  List.filter is_candidate lines = List.filter (fun l => negb (blank l)) lines.
Proof. apply List.filter_ext. intros l. apply is_candidate_not_blank. Qed.


End StdioClaims.

(** ** The event loop *)

Ltac untouched_step :=
  first
    [ changes_step
    | apply untouched_act; exact I
    | apply changes_modify; intros ?; repeat split; exists [];
      (by rewrite app_nil_r)
    | eapply changes_weaken;
      [ apply dispatched_stdio_untouched
      | first [ apply dispatched_handleMcpRequest
              | apply dispatched_emit
              | apply dispatched_invoke ] ] ].

Section LoopFacts.
Context {RT : Runtime}.

Implicit Types (g : gateway) (e : event) (events : list event).

Lemma register_listeners_untouched (c : conn) (types : list jsstring) :
  changes stdio_untouched (register_listeners c types).
Proof.
  induction types as [|eventType types IH]; cbn [register_listeners];
    unfold on; repeat untouched_step. done.
Qed.

(** Every listener but the ['data'] listener of stdin leaves the stdio
    session alone. *)
Lemma dispatch_untouched e g0 :
  (forall chunk, e <> StdinData chunk) ->
  changes stdio_untouched (dispatch e g0).
Proof.
  intros Hne. destruct e; [by destruct (Hne chunk)|..]; cbn [dispatch].
  - unfold on_end, process_exit. repeat untouched_step.
  - unfold on_signal, process_exit. repeat untouched_step.
  - unfold requestListener, events_route, tools_call_route, reply.
    repeat first [apply register_listeners_untouched | untouched_step].
  - unfold on_close, removeAllListeners. repeat untouched_step.
  - unfold heartbeat. repeat untouched_step.
  - repeat untouched_step.
Qed.

Lemma step_untouched g e :
  (forall chunk, e <> StdinData chunk) -> stdio_untouched g (step g e).
Proof.
  intros Hne. unfold step. destruct (exitCode g); [reflexivity|].
  destruct (dispatch e g g) as [[[]|err] g'] eqn:Hd;
    apply dispatch_untouched in Hd; done.
Qed.

(** A chunk of stdin, delivered to a running process that listens to
    stdin, goes through the framer and the loop. *)
Lemma step_data g chunk :
  exitCode g = None -> stdinListeners g = true ->
  exists w t n',
    step g (StdinData chunk) =
      extend (set_messageCount n' (set_buffer (frame (buffer g) chunk).2 g)) w t
    /\ lines_effect (messageCount g) (frame (buffer g) chunk).1 t n'.
Proof.
  intros Hexit Hlisten. unfold step. rewrite Hexit. cbn [dispatch]. rewrite Hlisten.
  destruct (on_data_effect initializeSystem chunk g) as (w & t & n' & -> & Hlines).
  by exists w, t, n'.
Qed.

Lemma step_data_ignored g chunk :
  exitCode g = None -> stdinListeners g = false -> step g (StdinData chunk) = g.
Proof. intros Hexit Hlisten. unfold step. rewrite Hexit. cbn. by rewrite Hlisten. Qed.

Lemma step_exited g e : exitCode g <> None -> step g e = g.
Proof. unfold step. by destruct (exitCode g). Qed.

Lemma run_exited g events : exitCode g <> None -> run g events = g.
Proof.
  revert g. induction events as [|e events IH]; intros g H; [done|].
  cbn. rewrite (step_exited _ _ H). by apply IH.
Qed.

(** [main] leaves the process started or exited, its trace being empty or
    the greeting of the stdio server. *)
Lemma main_started (w : world) (t0 : N) (args : list jsstring) :
  let g0 := (main args (boot w t0)).2 in
  messageCount g0 = 0%N /\ buffer g0 = []
  /\ (trace g0 = [] /\ stdinListeners g0 = false
      \/ trace g0 = [Stdout 0 initMessage] /\ stdinListeners g0 = true).
Proof.
  unfold main.
  destruct (includes args "--help" || includes args "-h"); [by repeat split; left|].
  destruct (includes args "--hybrid"), (includes args "--http"),
    (includes args "--keep-alive" || env_CLAUDE_FLOW_MODE), (includes args "--daemon");
    cbn; repeat split; auto.
Qed.

End LoopFacts.

Section SessionClaims.
Context {RT : Runtime}.

Implicit Types (g : gateway) (e : event) (events : list event).

Lemma untouched_messages g g' :
  stdio_untouched g g' -> messages g' = messages g.
Proof.
  intros (_ & _ & _ & t & Ht & Hoff). unfold messages. rewrite Ht, omap_app.
  replace (omap _ t) with (@nil jsstring); [by rewrite app_nil_r|].
  clear Ht. induction Hoff as [|a t Ha _ IH]; [done|]. by destruct a.
Qed.

(** Over any run of a process that listens to stdin and is still running
    at the end, the loop has taken the framer's candidates, in order, and
    the buffer is the framer's. *)
Lemma run_framing events g :
  stdinListeners g = true ->
  exitCode (run g events) = None ->
  buffer (run g events) = (frame_all (buffer g) (stdin_chunks events)).2
  /\ messages (run g events)
     = messages g ++ (frame_all (buffer g) (stdin_chunks events)).1.
Proof.
  revert g. induction events as [|e events IH]; intros g Hlisten Hrun.
  { cbn. by rewrite app_nil_r. }
  destruct (exitCode g) as [c|] eqn:Hexit.
  { rewrite run_exited in Hrun by congruence. congruence. }
  cbn [run foldl] in *. fold (run (step g e) events) in *.
  assert ((exists chunk, e = StdinData chunk) \/ (forall chunk, e <> StdinData chunk))
    as [[chunk ->]|Hne'] by (destruct e; eauto).
  - destruct (step_data g chunk Hexit Hlisten) as (w & t & n' & Hstep & Hlines).
    rewrite Hstep in *. clear Hstep.
    destruct (IH (extend (set_messageCount n' (set_buffer (frame (buffer g) chunk).2 g))
                    w t) Hlisten Hrun) as [-> ->].
    cbn [stdin_chunks omap list_omap]. fold (stdin_chunks events).
    rewrite frame_all_cons. cbn [fst snd buffer extend set_trace set_engine
      set_messageCount set_buffer].
    split; [done|].
    unfold messages at 1. cbn [trace extend set_trace].
    rewrite omap_app, (lines_effect_messages _ _ _ _ Hlines).
    by rewrite <- app_assoc.
  - pose proof (step_untouched g e Hne') as Hun.
    destruct (Hun) as (Hb & _ & Hl & _).
    destruct (IH (step g e)) as [-> ->]; [congruence | done |].
    rewrite Hb, (untouched_messages _ _ Hun).
    replace (stdin_chunks (e :: events)) with (stdin_chunks events); [done|].
    destruct e; try done. by destruct (Hne' chunk).
Qed.

(** From [main] on, the stream read so far is framed as the framer frames
    it in one piece. *)
Lemma run_lines_and_rest (w : world) (t0 : N) (args : list jsstring) events :
  let g0 := (main args (boot w t0)).2 in
  let g := run g0 events in
  stdinListeners g0 = true ->
  exitCode g = None ->
  exists ls,
    lines_and_rest (concat (stdin_chunks events)) ls (buffer g)
    /\ messages g = List.filter (fun line => negb (blank line)) ls.
Proof.
  intros g0 g Hlisten Hrun.
  destruct (main_started w t0 args) as (_ & Hbuffer & [[_ Hoff]|[Htrace _]]).
  { fold g0 in Hoff. congruence. }
  fold g0 in Hbuffer, Htrace.
  destruct (run_framing events g0 Hlisten Hrun) as [Hb Hm]. fold g in Hb, Hm.
  rewrite Hbuffer in Hb, Hm.
  destruct (frame_all_lines_and_rest (stdin_chunks events) [])
    as (ls & Hls & Hfilter); [apply not_elem_of_nil|].
  exists ls. rewrite Hb, Hm, Hfilter. split; [done|].
  unfold messages. rewrite Htrace. cbn. apply filter_candidates.
Qed.

(** Where the stream is cut into chunks, and what else happens between
    the chunks, makes no difference to the messages and the buffer. *)
Lemma framing_ignores_chunking (w : world) (t0 : N) (args : list jsstring)
    events events' :
  let g0 := (main args (boot w t0)).2 in
  concat (stdin_chunks events) = concat (stdin_chunks events') ->
  stdinListeners g0 = true ->
  exitCode (run g0 events) = None -> exitCode (run g0 events') = None ->
  messages (run g0 events) = messages (run g0 events')
  /\ buffer (run g0 events) = buffer (run g0 events').
Proof.
  intros g0 Hsame Hlisten Hrun Hrun'.
  destruct (run_lines_and_rest w t0 args events Hlisten Hrun) as (ls & Hls & Hm).
  destruct (run_lines_and_rest w t0 args events' Hlisten Hrun') as (ls' & Hls' & Hm').
  fold g0 in Hls, Hls', Hm, Hm'. rewrite Hsame in Hls.
  destruct (lines_and_rest_unique _ _ _ _ _ Hls Hls') as [-> Hb].
  split; congruence.
Qed.


End SessionClaims.

(** ** SSE fan-out and lifecycle, on concrete runs *)

Section BusFacts.
Context {RT : Runtime}.

(** Whatever is registered on the bus, and for whichever clients, the
    ['close'] listener of one connection leaves no listener at all. *)
Lemma on_close_clears_bus (c : conn) (clientId : jsstring) (g : gateway) :
  sseEventEmitter (on_close c clientId g).2 = ∅.
Proof. reflexivity. Qed.

(** In hybrid mode, whatever the other flags, end-of-input on stdin exits
    the process with status 0, HTTP server and keep-alive timer
    notwithstanding. *)
Lemma hybrid_stdin_end (w : world) (t0 : N) (args : list jsstring) :
  includes args "--help" = false -> includes args "-h" = false ->
  includes args "--hybrid" = true ->
  let g := (main args (boot w t0)).2 in
  http_alive g /\ keepAliveTimer g = true
  /\ exitCode (step g StdinEnd) = Some 0%Z.
Proof.
  intros H1 H2 H3. unfold main. rewrite H1, H2, H3. cbn.
  by destruct (includes args "--keep-alive" || env_CLAUDE_FLOW_MODE),
    (includes args "--daemon").
Qed.

(** In http mode there is no stdio server, and end-of-input on stdin
    changes nothing. *)
Lemma http_stdin_end (w : world) (t0 : N) (args : list jsstring) :
  includes args "--help" = false -> includes args "-h" = false ->
  includes args "--hybrid" = false -> includes args "--http" = true ->
  let g := (main args (boot w t0)).2 in
  http_alive g /\ keepAliveTimer g = true /\ step g StdinEnd = g.
Proof.
  intros H1 H2 H3 H4. unfold main. rewrite H1, H2, H3, H4. cbn.
  by destruct (includes args "--keep-alive" || env_CLAUDE_FLOW_MODE),
    (includes args "--daemon").
Qed.

End BusFacts.

(** ** No client ever receives [tool:executed] *)

Ltac silent_step :=
  first
    [ changes_step
    | apply changes_modify; intros ? [? ?]; (by split) ].

Section Silence.
Context {RT : Runtime}.

Implicit Types (g : gateway) (e : event) (events : list event).

Global Instance stays_silent_preorder : PreOrder stays_silent.
Proof.
  split.
  - intros g H. exact H.
  - intros g1 g2 g3 H12 H23 H. apply H23, H12, H.
Qed.

Lemma call_listeners_trace (ls : list listener) (d : value) g :
  call_listeners ls d g
  = (Normal tt, set_trace (trace g ++ map (listener_write d) ls) g).
Proof.
  revert g. induction ls as [|l ls IH]; intros g; cbn [call_listeners map].
  - unfold ret. destruct g; cbn. by rewrite app_nil_r.
  - unfold bind, sendEvent, act, modify. rewrite IH. destruct g; cbn.
    by rewrite <- app_assoc.
Qed.

(** [emit] records the publication and has every listener of the event
    write it to its client, in registration order. *)
Lemma emit_trace (eventType : jsstring) (d : value) g :
  emit eventType d g
  = (Normal (bool_decide (listeners_of g eventType <> [])),
     set_trace (trace g ++ Emit eventType d
                  :: map (listener_write d) (listeners_of g eventType)) g).
Proof.
  unfold emit, bind, gets, act, modify. rewrite call_listeners_trace.
  destruct g; cbn. by rewrite <- app_assoc.
Qed.

Lemma tool_executed_not_subscribed : js "tool:executed" ∉ eventTypes.
Proof.
  unfold eventTypes. cbn [map].
  repeat (apply not_elem_of_cons; split; [by vm_compute|]). apply not_elem_of_nil.
Qed.

Lemma silent_act (a : action) :
  (forall c d, a <> SseWrite c (SseEvent (js "tool:executed") d)) ->
  changes stays_silent (act a).
Proof.
  intros Ha. apply changes_modify. intros g [Hsub Hnone]. split; [done|].
  intros c d Hin. cbn in Hin. apply elem_of_app in Hin as [Hin|Hin].
  - by apply Hnone in Hin.
  - apply list_elem_of_singleton in Hin. symmetry in Hin. by apply Ha in Hin.
Qed.

Lemma silent_emit (eventType : jsstring) (d : value) :
  changes stays_silent (emit eventType d).
Proof.
  intros g c g'. rewrite emit_trace. intros [= _ <-] [Hsub Hnone]. split; [done|].
  intros c' d' Hin. cbn in Hin. apply elem_of_app in Hin as [Hin|Hin].
  { by apply Hnone in Hin. }
  apply elem_of_cons in Hin as [[=]|Hin].
  apply list_elem_of_fmap in Hin as (l & [= _ Htype _] & Hl).
  unfold listeners_of in Hl.
  destruct (sseEventEmitter g !! eventType) as [ls|] eqn:Hls;
    [|by apply elem_of_nil in Hl].
  apply (Hsub _ _ _ Hls) in Hl. rewrite <- Htype in Hl.
  by apply tool_executed_not_subscribed in Hl.
Qed.

Lemma silent_invoke r key (h : handler world) toolArgs :
  changes stays_silent (invoke r key h toolArgs).
Proof.
  unfold invoke. changes_step; [by apply silent_act|].
  intros g c g'. destruct (h toolArgs (engine g)) as [c' w]. by intros [= _ <-] [? ?].
Qed.

Lemma silent_handleMcpRequest request mcpTools :
  changes stays_silent (handleMcpRequest request mcpTools).
Proof.
  unfold handleMcpRequest, switch_method, tools_call_case, result_case, call_tool,
    try_daa.
  repeat first [apply silent_emit | apply silent_invoke | changes_step].
Qed.

Lemma silent_handle_lines tools (lines : list jsstring) :
  changes stays_silent (handle_lines tools lines).
Proof.
  induction lines as [|line lines IH]; cbn [handle_lines]; [by changes_step|].
  changes_step; [|done]. unfold handle_line.
  repeat first
    [ apply silent_handleMcpRequest | by apply silent_act | silent_step ].
Qed.

Lemma silent_register_listeners (c : conn) (types : list jsstring) :
  (forall eventType, eventType ∈ types -> eventType ∈ eventTypes) ->
  changes stays_silent (register_listeners c types).
Proof.
  induction types as [|eventType types IH]; intros Hsub; cbn [register_listeners];
    [by changes_step|].
  changes_step; [|apply IH; intros ? ?; apply Hsub; by right].
  apply changes_modify. intros g [Hbus Hnone]. split; [|done].
  intros k ls l Hk Hl. cbn in Hk.
  destruct (decide (eventType = k)) as [<-|Hne].
  - rewrite lookup_insert_eq in Hk. injection Hk as <-.
    apply elem_of_app in Hl as [Hl|Hl].
    + unfold listeners_of in Hl.
      destruct (sseEventEmitter g !! eventType) as [ls|] eqn:Hls;
        [by eapply Hbus | by apply elem_of_nil in Hl].
    + apply list_elem_of_singleton in Hl as ->. apply Hsub. by left.
  - rewrite lookup_insert_ne in Hk by done. by eapply Hbus.
Qed.

Lemma silent_dispatch e g0 : changes stays_silent (dispatch e g0).
Proof.
  destruct e; cbn [dispatch].
  - destruct (stdinListeners g0); [|by changes_step].
    unfold on_data. changes_step; [by changes_step|].
    destruct (frame a chunk). changes_step; [silent_step|].
    apply silent_handle_lines.
  - unfold on_end, process_exit. repeat silent_step.
  - unfold on_signal, process_exit. repeat silent_step.
  - unfold requestListener, events_route, tools_call_route, reply.
    repeat first
      [ apply silent_handleMcpRequest | apply silent_emit | apply silent_invoke
      | by apply silent_register_listeners
      | by apply silent_act
      | apply silent_act; intros ? ? [= _ H]; by vm_compute in H
      | silent_step ].
  - unfold on_close, removeAllListeners. repeat silent_step.
  - unfold heartbeat. repeat first [by apply silent_act | silent_step].
  - repeat silent_step.
Qed.

(** However the process is started and whatever the event loop delivers,
    no SSE client is ever written a [tool:executed] event. *)
Lemma tool_executed_never_written (w : world) (t0 : N) (args : list jsstring)
    events (c : conn) (d : value) :
  SseWrite c (SseEvent (js "tool:executed") d)
    ∉ trace (run (main args (boot w t0)).2 events).
Proof.
  assert (forall g, silent g -> silent (run g events)) as Hrun.
  { induction events as [|e events IH]; intros g Hg; [done|].
    cbn. apply IH. unfold step. destruct (exitCode g); [done|].
    destruct (dispatch e g g) as [[[]|err] g'] eqn:Hd;
      apply silent_dispatch in Hd; by apply Hd. }
  apply Hrun.
  destruct (main_started w t0 args) as (_ & _ & Htrace).
  assert (sseEventEmitter (main args (boot w t0)).2 = ∅) as Hbus.
  { unfold main.
    destruct (includes args "--help" || includes args "-h"); [done|].
    by destruct (includes args "--hybrid"), (includes args "--http"),
      (includes args "--keep-alive" || env_CLAUDE_FLOW_MODE), (includes args "--daemon"). }
  split.
  - intros k ls l Hk. by rewrite Hbus, lookup_empty in Hk.
  - intros c' d' Hin. destruct Htrace as [[Ht _]|[Ht _]]; rewrite Ht in Hin.
    + by apply elem_of_nil in Hin.
    + by apply list_elem_of_singleton in Hin.
Qed.

End Silence.

(** C1 (fails on the code).  One client is connected on [/events]; then
    [POST /api/tools/call] runs [swarm_status], which succeeds.  The
    dispatcher and the route each publish [tool:executed], but the
    [/events] route has registered listeners for [swarm:update],
    [agent:spawn], [task:update] and [performance:metrics] only: nothing is
    written to the client, whose stream still holds the [connected] event
    alone, and the next thing it receives is the heartbeat. *)
Theorem tool_executed_reaches_no_client :
  let g0 := Scenario.started ["--http"%string] in
  let g1 := step g0 (Scenario.GET 1%nat "/events") in
  let g2 := step g1 (Scenario.POST 2%nat "/api/tools/call" Scenario.body_status) in
  let connected :=
    SseEvent (js "connected")
      (VObj [prop "clientId" (str "1000"); prop "timestamp" (str "1000")]) in
  sseClients g1 = {[js "1000" := 1%nat]}
  /\ listeners_of g1 (js "tool:executed") = []
  /\ new_actions g1 g2 =
       [Invoke Primary (js "swarm_status") (VObj []);
        Emit (js "tool:executed")
          (VObj [prop "tool" (str "swarm_status"); prop "args" (VObj []);
                 prop "timestamp" (str "1000")]);
        Emit (js "tool:executed")
          (VObj [prop "tool" (str "swarm_status"); prop "timestamp" (str "1000");
                 prop "success" (VBool true)]);
        HttpReply 2%nat 200%Z
          (VObj [prop "content"
                   (VArr [VObj [prop "type" (str "text");
                                prop "text" (VStr (Scenario.text "{'agents':0}"))]])])]
  /\ sse_stream 1%nat g2 = [connected]
  /\ sse_stream 1%nat (step g2 (HeartbeatTimer 1%nat)) = [connected; SseComment (js "heartbeat")].
Proof. repeat apply conj; by vm_compute. Qed.

(** C2 (fails on the code).  Two clients are connected; the first one
    disconnects.  Its heartbeat is cancelled and it alone leaves
    [sseClients], but [removeAllListeners()] has emptied the bus: the
    listeners of the second client are gone with those of the first, and a
    [swarm:update] published afterwards, which the second client would
    have received before, is written to nobody. *)
Theorem disconnect_silences_other_clients :
  let g := run (Scenario.started ["--http"%string])
             [Scenario.GET 1%nat "/events"; Tick 5; Scenario.GET 2%nat "/events"] in
  let g' := step g (HttpClose 1%nat) in
  let update := VObj [prop "agents" (VNum 3)] in
  sseClients g = {[js "1000" := 1%nat; js "1005" := 2%nat]}
  /\ listeners_of g (js "swarm:update")
     = [Listener 1%nat (js "swarm:update"); Listener 2%nat (js "swarm:update")]
  /\ sseClients g' = {[js "1005" := 2%nat]}
  /\ heartbeats g' = {[2%nat]}
  /\ sseEventEmitter g' = ∅
  /\ sse_stream 2%nat (emit (js "swarm:update") update g).2
     = sse_stream 2%nat g ++ [SseEvent (js "swarm:update") update]
  /\ sse_stream 2%nat (emit (js "swarm:update") update g').2 = sse_stream 2%nat g'.
Proof. repeat apply conj; by vm_compute. Qed.

(** Two clients that connect within the same millisecond get the same
    [clientId]: the second overwrites the first in [sseClients], and when
    either disconnects the entry of the other goes with it. *)
Lemma same_millisecond_same_clientId :
  let g := run (Scenario.started ["--http"%string])
             [Scenario.GET 1%nat "/events"; Scenario.GET 2%nat "/events"] in
  sseClients g = {[js "1000" := 2%nat]}
  /\ sseClients (step g (HttpClose 1%nat)) = ∅
  /\ heartbeats (step g (HttpClose 1%nat)) = {[2%nat]}.
Proof. repeat apply conj; by vm_compute. Qed.

(** The [/api/tools/call] route publishes a [tool:executed] of its own
    after the dispatcher has returned, whatever the outcome: here for a
    handler that returned [null], with [success: false]. *)
Lemma route_publishes_after_failure :
  trace (step (Scenario.started ["--http"%string])
           (Scenario.POST 1%nat "/api/tools/call" Scenario.body_quiet))
  = [Invoke Primary (js "quiet") (VObj []);
     Emit (js "tool:executed")
       (VObj [prop "tool" (str "quiet"); prop "timestamp" (str "1000");
              prop "success" (VBool false)]);
     HttpReply 1%nat 200%Z
       (VObj [prop "error"
                (VObj [prop "code" (VNum (-32601));
                       prop "message" (str "Method not found");
                       prop "data" (str "Unknown tool: quiet")])])].
Proof. by vm_compute. Qed.

(** C3 (fails on the code).  Started with [--hybrid], the process has its
    HTTP server listening and its keep-alive timer running; when stdin
    reaches end-of-input, the ['end'] listener of the stdio server calls
    [process.exit(0)] all the same, and the HTTP transport is gone with the
    process. *)
Theorem hybrid_exits_when_stdin_closes :
  let g := Scenario.started ["--hybrid"%string] in
  http_alive g
  /\ keepAliveTimer g = true
  /\ exitCode (step g StdinEnd) = Some 0%Z
  /\ ~ http_alive (step g StdinEnd).
Proof.
  repeat apply conj; try by vm_compute.
  intros [Hexit _]. by vm_compute in Hexit.
Qed.

(** ** The theorems at work on the concrete installation *)

Lemma scenario_tools_call (i : Z) (name : string) (rest : list (jsstring * value))
    (arguments : value) :
  Get (VObj (prop "name" (str name) :: rest)) (js "arguments") = Normal arguments ->
  is_tools_call (Scenario.tools_call i name rest) (VNum i) (str name)
    (if ToBoolean arguments then arguments else VObj []) (js name).
Proof.
  intros Hargs. split; [done|]. split; [done|].
  exists (VObj (prop "name" (str name) :: rest)), arguments.
  by repeat apply conj.
Defined.


Lemma registry_precedence_witness :
  let g := Scenario.started ["--stdio"%string] in
  let tools := initializeSystem (RT := Scenario.runtime) in
  function_member tools (js "shared") = Some Scenario.shared_primary
  /\ function_member (daaMcpTools_linked (RT := Scenario.runtime)) (js "shared")
     = Some Scenario.shared_secondary
  /\ exists t,
       (handleMcpRequest Scenario.request_shared (Some tools) g).2
       = extend g 1 (Invoke Primary (js "shared") (VObj []) :: t)
       /\ Forall publication t.
Proof.
  intros g tools. split; [by vm_compute|]. split; [by vm_compute|].
  apply (proj1 (registry_precedence (RT := Scenario.runtime) Scenario.request_shared
                  (VNum 7) (str "shared") (VObj []) (js "shared") tools g
                  (scenario_tools_call 7 "shared" [] VUndefined eq_refl))
           Scenario.shared_primary).
  by vm_compute.
Defined.


Lemma method_not_found_response_witness :
  let g := Scenario.started ["--stdio"%string] in
  let tools := Some (initializeSystem (RT := Scenario.runtime)) in
  handleMcpRequest Scenario.request_unknown_tool tools g
  = (Normal (Response (js "2.0") (VNum 2) None
               (Some (RpcError (-32601) (js "Method not found")
                        (js "Unknown tool: nonexistent_tool")))), g)
  /\ handleMcpRequest Scenario.request_unknown_method tools g
     = (Normal (Response (js "2.0") (VNum 4) None
                  (Some (RpcError (-32601) (js "Method not found")
                           (js "Unknown method: resources/list")))), g).
Proof.
  intros g tools. split.
  - apply (proj1 (method_not_found_response (RT := Scenario.runtime)
                    Scenario.request_unknown_tool tools g (VNum 2) eq_refl)
             (str "nonexistent_tool") (VObj []) (js "nonexistent_tool")
             (scenario_tools_call 2 "nonexistent_tool" [prop "arguments" (VObj [])]
                (VObj []) eq_refl)).
    by vm_compute.
  - apply (proj2 (method_not_found_response (RT := Scenario.runtime)
                    Scenario.request_unknown_method tools g (VNum 4) eq_refl)
             (str "resources/list") (js "resources/list") eq_refl);
      by vm_compute.
Defined.

Lemma internal_error_response_witness :
  let g := Scenario.started ["--stdio"%string] in
  let tools := Some (initializeSystem (RT := Scenario.runtime)) in
  let no_params := VObj [prop "id" (VNum 9); prop "method" (str "tools/call")] in
  handleMcpRequest no_params tools g
  = (Normal (Response (js "2.0") (VNum 9) None
               (Some (RpcError (-32603) (js "Internal error")
                        (js "Cannot read properties of undefined (reading 'name')")))), g)
  /\ handleMcpRequest Scenario.request_faulty tools g
     = (Normal (Response (js "2.0") (VNum 5) None
                  (Some (RpcError (-32603) (js "Internal error") (js "engine offline")))),
        extend g 1 [Invoke Primary (js "faulty") (VObj [])]).
Proof.
  intros g tools no_params. split.
  - apply (proj1 (internal_error_response (RT := Scenario.runtime)
                    no_params tools g (VNum 9) eq_refl)
             (TypeError_cannot_read VUndefined (js "name")) g).
    by vm_compute.
  - apply (proj2 (internal_error_response (RT := Scenario.runtime)
                    Scenario.request_faulty tools g (VNum 5) eq_refl)
             (str "faulty") (VObj []) (js "faulty") Primary Scenario.faulty
             (Error (js "engine offline"))
             (scenario_tools_call 5 "faulty" [] VUndefined eq_refl));
      by vm_compute.
Defined.

Lemma null_result_is_not_found_witness :
  let g := Scenario.started ["--stdio"%string] in
  let tools := Some (initializeSystem (RT := Scenario.runtime)) in
  resolve tools (js "quiet") = Some (Primary, Scenario.quiet)
  /\ handleMcpRequest Scenario.request_quiet tools g
     = (Normal (Response (js "2.0") (VNum 6) None
                  (Some (RpcError (-32601) (js "Method not found")
                           (js "Unknown tool: quiet")))),
        extend g 1 [Invoke Primary (js "quiet") (VObj [])]).
Proof.
  intros g tools. split; [by vm_compute|].
  apply (proj1 (null_result_is_not_found (RT := Scenario.runtime)
                  Scenario.request_quiet tools g (VNum 6) (str "quiet") (VObj [])
                  (js "quiet") (scenario_tools_call 6 "quiet" [] VUndefined eq_refl))
           Primary Scenario.quiet);
    by vm_compute.
Defined.


(** * Further properties of the dispatcher *)

Section DispatcherExtras.
Context {RT : Runtime}.

Implicit Types (g : gateway) (mcpTools : option (gmap jsstring (member world))).
Implicit Types (request i toolName toolArgs : value) (key : jsstring).

Lemma returns_try_catch {A} (P : A -> Prop) (m : M A) (h : js_error -> M A) :
  returns P m -> (forall e, returns P (h e)) -> returns P (try_catch m h).
Proof.
  intros Hm Hh g a g'. unfold try_catch.
  destruct (m g) as [[a'|e] g1] eqn:Hg.
  - intros [= <- <-]. by eapply Hm.
  - apply Hh.
Qed.

Lemma switch_method_well_formed i request mcpTools :
  returns well_formed (switch_method (Response (js "2.0") i None None) request mcpTools).
Proof.
  unfold switch_method, tools_call_case, result_case.
  repeat first
    [ apply returns_bind; intros ?
    | apply returns_ret; split; [done|]; first [by left; split; eauto | by right; eauto]
    | match goal with
      | |- returns _ (if ?b then _ else _) => destruct b
      | |- returns _ (match ?x with _ => _ end) => destruct x
      end ].
Qed.

(** X1.  Whatever the request and the registries, a response of the
    dispatcher is a JSON-RPC 2.0 response with either a result or an error,
    never both and never neither; the error is "Method not found" (-32601)
    or "Internal error" (-32603). *)
Theorem dispatcher_response_well_formed request mcpTools g r g' :
  handleMcpRequest request mcpTools g = (Normal r, g') -> well_formed r.
Proof.
  unfold handleMcpRequest. apply returns_bind. intros i.
  apply returns_try_catch; [apply switch_method_well_formed|].
  intros e. apply returns_ret. split; [done|]. right. split; [done|]. eauto.
Qed.

(** X2.  The dispatcher rejects only a request that is [null] or
    [undefined], on reading its [id] before the [try] block, and then it has
    done nothing; any other request, whatever becomes of it, is given a
    response. *)
Theorem dispatcher_throws_only_on_nullish request mcpTools g :
  match request with
  | VNull | VUndefined =>
      handleMcpRequest request mcpTools g
      = (Throw (TypeError_cannot_read request (js "id")), g)
  | _ =>
      exists r g', handleMcpRequest request mcpTools g = (Normal r, g')
                   /\ Get request (js "id") = Normal (response_id r)
  end.
Proof.
  destruct request as [| |b|n|s|elems|props]; try done;
    match goal with
    | |- context [handleMcpRequest ?request _ _] =>
        destruct (Get request (js "id")) as [i|e] eqn:Hid; [|done];
        destruct (handleMcpRequest_responds request mcpTools g i Hid)
          as (r & g' & Hrun & Hr & _);
        exists r, g'; by rewrite Hr
    end.
Qed.

Lemma strict_equals_string_true (v : value) (s : jsstring) :
  strict_equals_string v s = true -> v = VStr s.
Proof.
  destruct v; simpl; try done. intros H. apply bool_decide_eq_true in H. by subst.
Qed.

(** The response to a result that is not [null]: the publications, then
    the text of the result. *)
Lemma result_case_not_null response toolName toolArgs result g :
  is_null result = false ->
  result_case response toolName toolArgs result g =
  (match result_text result with
   | Normal text => Normal (with_result response (text_content text))
   | Throw e => Throw e
   end,
   set_trace (trace g ++ publications g toolName toolArgs) g).
Proof.
  intros Hnull.
  assert (result_case response toolName toolArgs result g =
          bind (clients <- gets (fun g => size (sseClients g)) ;;
                (if bool_decide (0 < clients)%nat then
                   now <- gets clock ;;
                   emit (js "tool:executed") (VObj [
                     prop "tool" toolName; prop "args" toolArgs;
                     prop "timestamp" (VStr (toISOString now))]) ;;; ret tt
                 else ret tt))
            (fun _ =>
               text <- (if is_string result then ret result
                        else lift (JSON_stringify result)) ;;
               ret (with_result response (text_content text))) g) as ->.
  { by destruct result. }
  unfold publications, result_text, executed_payload.
  unfold bind at 1. unfold bind at 1, gets at 1.
  destruct (bool_decide (0 < size (sseClients g))%nat).
  - unfold bind at 1. unfold bind at 1, gets at 1. rewrite emit_trace.
    unfold bind, ret, lift. cbn [size sseClients set_trace].
    destruct (is_string result); [done|]. by destruct (JSON_stringify result).
  - unfold bind, ret, lift.
    replace (set_trace (trace g ++ []) g) with g
      by (destruct g; cbn; by rewrite app_nil_r).
    destruct (is_string result); [done|]. by destruct (JSON_stringify result).
Qed.

(** A ['tools/call'] in full: what is returned and what is done, from what
    [resolve] selects, what the handler does and what [JSON.stringify]
    makes of the result. *)
Lemma tools_call_eval request i toolName toolArgs key mcpTools g :
  is_tools_call request i toolName toolArgs key ->
  handleMcpRequest request mcpTools g =
  match resolve mcpTools key with
  | None =>
      (Normal (error_response i (-32601) (js "Method not found")
                 (js "Unknown tool: " ++ key)), g)
  | Some (r, h) =>
      let g1 := extend g (h toolArgs (engine g)).2 [Invoke r key toolArgs] in
      match (h toolArgs (engine g)).1 with
      | Throw e =>
          (Normal (error_response i (-32603) (js "Internal error") (message e)), g1)
      | Normal result =>
          if is_null result then
            (Normal (error_response i (-32601) (js "Method not found")
                       (js "Unknown tool: " ++ key)), g1)
          else
            (Normal
               match result_text result with
               | Normal text => Response (js "2.0") i (Some (text_content text)) None
               | Throw e => error_response i (-32603) (js "Internal error") (message e)
               end,
             set_trace (trace g1 ++ publications g1 toolName toolArgs) g1)
      end
  end.
Proof.
  intros Hcall. rewrite (handleMcpRequest_tools_call _ _ _ _ _ _ _ Hcall).
  destruct Hcall as (_ & _ & params & arguments & _ & _ & _ & _ & Hkey).
  cbv zeta. unfold try_catch, bind at 1. rewrite (call_tool_resolve _ _ _ _ _ Hkey).
  assert (forall g0, result_case (Response (js "2.0") i None None) toolName toolArgs VNull g0
          = (Normal (error_response i (-32601) (js "Method not found")
                       (js "Unknown tool: " ++ key)), g0)) as Hnull.
  { intros g0. unfold result_case, bind, lift. by rewrite Hkey. }
  destruct (resolve mcpTools key) as [[r h]|]; [|by rewrite Hnull].
  destruct (h toolArgs (engine g)) as [[v|e] w]; cbn [fst snd]; [|done].
  destruct (is_null v) eqn:Hv.
  { destruct v; try done. by rewrite Hnull. }
  rewrite (result_case_not_null _ _ _ _ _ Hv).
  by destruct (result_text v).
Qed.

(** A request is a ['tools/call'] that reaches the lookup, or handling it
    changes nothing at all. *)
Lemma handleMcpRequest_cases request mcpTools g :
  (exists i toolName toolArgs key, is_tools_call request i toolName toolArgs key)
  \/ (handleMcpRequest request mcpTools g).2 = g.
Proof.
  unfold handleMcpRequest, bind at 1, lift at 1.
  destruct (Get request (js "id")) as [i|e] eqn:Hid; [|by right].
  unfold try_catch, switch_method, bind at 1, lift at 1.
  destruct (Get request (js "method")) as [method|e] eqn:Hmethod; [|by right].
  destruct (strict_equals_string method (js "initialize")); [by right|].
  destruct (strict_equals_string method (js "tools/list")); [by right|].
  destruct (strict_equals_string method (js "tools/call")) eqn:Hcall.
  2:{ right. unfold bind, lift. by destruct (ToString method). }
  apply strict_equals_string_true in Hcall as ->.
  unfold tools_call_case, bind at 1, lift at 1.
  destruct (Get request (js "params")) as [params|e] eqn:Hparams; [|by right].
  unfold bind at 1, lift at 1.
  destruct (Get params (js "name")) as [toolName|e] eqn:Hname; [|by right].
  unfold bind at 1, lift at 1.
  destruct (Get params (js "arguments")) as [arguments|e] eqn:Hargs; [|by right].
  destruct (ToString toolName) as [key|e] eqn:Hkey.
  - left. exists i, toolName, (if ToBoolean arguments then arguments else VObj []), key.
    split; [done|]. split; [done|]. by exists params, arguments.
  - right. unfold bind at 1.
    assert (forall toolArgs, call_tool mcpTools toolName toolArgs g = (Throw e, g)) as ->;
      [|done].
    intros toolArgs. unfold call_tool, try_daa, bind, lift.
    destruct mcpTools; by rewrite Hkey.
Qed.


Lemma new_actions_id g : new_actions g g = [].
Proof. unfold new_actions. apply drop_all. Qed.

Lemma new_actions_append g w t t' :
  new_actions g (set_trace (trace (extend g w t) ++ t') (extend g w t)) = t ++ t'.
Proof.
  unfold new_actions, extend. cbn [trace set_trace set_engine].
  by rewrite <- app_assoc, drop_app_length.
Qed.

(** What handling one request adds to the trace: nothing, or one call of
    the resolved handler, with the arguments of the request, followed by
    nothing or by the publications. *)
Lemma handleMcpRequest_actions request mcpTools g :
  let g' := (handleMcpRequest request mcpTools g).2 in
  new_actions g g' = []
  \/ exists i toolName toolArgs key r h,
       is_tools_call request i toolName toolArgs key
       /\ resolve mcpTools key = Some (r, h)
       /\ let g1 := extend g (h toolArgs (engine g)).2 [Invoke r key toolArgs] in
          new_actions g g' = [Invoke r key toolArgs]
          \/ new_actions g g'
             = Invoke r key toolArgs :: publications g1 toolName toolArgs.
Proof.
  intros g'. subst g'.
  destruct (handleMcpRequest_cases request mcpTools g)
    as [(i & toolName & toolArgs & key & Hcall)| ->]; [|left; apply new_actions_id].
  rewrite (tools_call_eval _ _ _ _ _ _ _ Hcall).
  destruct (resolve mcpTools key) as [[r h]|] eqn:Hres; [|left; apply new_actions_id].
  right. exists i, toolName, toolArgs, key, r, h. split; [done|]. split; [done|].
  cbv zeta. destruct (h toolArgs (engine g)) as [[v|e] w]; cbn [fst snd].
  - destruct (is_null v); cbn [snd].
    + left. apply new_actions_extend.
    + right. apply new_actions_append.
  - left. apply new_actions_extend.
Qed.

(** X3.  [initialize] and [tools/list] are answered without touching
    anything: the state is unchanged, no handler is called, and the response
    does not depend on the registries.  [initialize] announces protocol
    version 2024-11-05 with the version of [getVersion]; [tools/list] lists
    the descriptor of [swarm_init] and nothing else, whatever tools the
    registries would serve. *)
Theorem initialize_and_list_are_pure request i mcpTools g :
  Get request (js "id") = Normal i ->
  (Get request (js "method") = Normal (str "initialize") ->
   handleMcpRequest request mcpTools g =
     (Normal (Response (js "2.0") i
                (Some (VObj [
                   prop "protocolVersion" (str "2024-11-05");
                   prop "capabilities" (VObj [
                     prop "tools" (VObj []);
                     prop "resources" (VObj [
                       prop "list" (VBool true); prop "read" (VBool true)])]);
                   prop "serverInfo" (VObj [
                     prop "name" (str "ruv-swarm-hybrid");
                     prop "version" getVersion])])) None), g))
  /\ (Get request (js "method") = Normal (str "tools/list") ->
      handleMcpRequest request mcpTools g =
        (Normal (Response (js "2.0") i
                   (Some (VObj [prop "tools" (VArr [swarm_init_descriptor])])) None), g)).
Proof.
  intros Hid.
  split; intros Hmethod;
    unfold handleMcpRequest, switch_method, bind, lift, try_catch;
    rewrite Hid, Hmethod.
  - by replace (strict_equals_string (str "initialize") (js "initialize")) with true
      by (by vm_compute).
  - by replace (strict_equals_string (str "tools/list") (js "initialize")) with false
      by (by vm_compute).
Qed.

(** X4.  A successful ['tools/call'].  When the resolved handler returns
    anything but [null] (be it [undefined], [false], 0 or the empty string)
    and the text of the result can be made, the response is a result whose
    content is one text item: the result itself when it is a string, its
    JSON text otherwise.  The handler was called once, and [tool:executed]
    was published if and only if an SSE client is connected. *)
Theorem tools_call_success request i toolName toolArgs key mcpTools g r h result text :
  is_tools_call request i toolName toolArgs key ->
  resolve mcpTools key = Some (r, h) ->
  (h toolArgs (engine g)).1 = Normal result ->
  is_null result = false ->
  result_text result = Normal text ->
  let g1 := extend g (h toolArgs (engine g)).2 [Invoke r key toolArgs] in
  handleMcpRequest request mcpTools g =
    (Normal (Response (js "2.0") i (Some (text_content text)) None),
     set_trace (trace g1 ++ publications g1 toolName toolArgs) g1)
  /\ (is_string result = true -> text = result).
Proof.
  intros Hcall Hres Hh Hnull Htext g1. split.
  - rewrite (tools_call_eval _ _ _ _ _ _ _ Hcall), Hres. cbv zeta.
    by rewrite Hh, Hnull, Htext.
  - intros Hs. unfold result_text in Htext. rewrite Hs in Htext. by injection Htext.
Qed.

(** X5.  A result that cannot be turned into text.  When [JSON.stringify]
    throws on the result of the handler, the response is the error -32603
    with the message of that fault, although the handler ran and
    [tool:executed] has already been published to the connected clients. *)
Theorem tools_call_unprintable_result request i toolName toolArgs key mcpTools g r h
    result e :
  is_tools_call request i toolName toolArgs key ->
  resolve mcpTools key = Some (r, h) ->
  (h toolArgs (engine g)).1 = Normal result ->
  is_null result = false ->
  result_text result = Throw e ->
  let g1 := extend g (h toolArgs (engine g)).2 [Invoke r key toolArgs] in
  handleMcpRequest request mcpTools g =
    (Normal (Response (js "2.0") i None
               (Some (RpcError (-32603) (js "Internal error") (message e)))),
     set_trace (trace g1 ++ publications g1 toolName toolArgs) g1).
Proof.
  intros Hcall Hres Hh Hnull Htext g1.
  rewrite (tools_call_eval _ _ _ _ _ _ _ Hcall), Hres. cbv zeta.
  by rewrite Hh, Hnull, Htext.
Qed.


(** X7.  Nothing is published to nobody.  While no SSE client is connected,
    handling a request publishes nothing on the bus: all it can add to the
    trace is the call of a handler. *)
Theorem no_client_no_publication request mcpTools g :
  sseClients g = ∅ ->
  Forall is_invoke (new_actions g (handleMcpRequest request mcpTools g).2).
Proof.
  intros Hnone.
  destruct (handleMcpRequest_actions request mcpTools g)
    as [-> |(i & toolName & toolArgs & key & r & h & _ & _ & Hactions)];
    [constructor|].
  cbv zeta in Hactions. destruct Hactions as [-> | ->]; [by repeat constructor|].
  unfold publications, extend. cbn [sseClients set_trace set_engine].
  rewrite Hnone, map_size_empty. cbn. by repeat constructor.
Qed.

End DispatcherExtras.

(** * Further properties of the HTTP server *)

Section HttpExtras.
Context {RT : Runtime}.

Implicit Types (g : gateway) (c : conn) (method pathname body : jsstring).

Lemma Forall_quiet_no_reply c (t : list action) :
  Forall quiet t -> http_replies c t = [].
Proof. induction 1 as [|a t Ha _ IH]; [done|]. by destruct a. Qed.

Lemma http_replies_app c (t t' : list action) :
  http_replies c (t ++ t') = http_replies c t ++ http_replies c t'.
Proof. apply omap_app. Qed.

Lemma http_replies_reply c status b :
  http_replies c [HttpReply c status b] = [(status, b)].
Proof. unfold http_replies. cbn. by rewrite decide_True. Qed.

Lemma http_replies_emit c eventType d (ls : list listener) :
  http_replies c (Emit eventType d :: map (listener_write d) ls) = [].
Proof. cbn. by induction ls. Qed.

Lemma new_actions_app g g' t :
  trace g' = trace g ++ t -> new_actions g g' = t.
Proof. intros H. unfold new_actions. by rewrite H, drop_app_length. Qed.

(** The ['end'] listener of [/api/tools/call], in full. *)
Lemma tools_call_route_eval c body g :
  let bad_request (e : js_error) (g0 : gateway) : completion unit * gateway :=
    (Normal tt,
     set_trace (trace g0 ++ [HttpReply c 400 (VObj [prop "error" (VStr (message e))])])
       g0) in
  tools_call_route c body g =
  match JSON_parse body with
  | Throw e => bad_request e g
  | Normal parsed =>
      match destructure parsed with
      | Throw e => bad_request e g
      | Normal (name, args) =>
          match handleMcpRequest (route_request name args) (Some initializeSystem) g with
          | (Normal r, g1) =>
              (Normal tt,
               set_trace
                 (trace g1
                  ++ (Emit (js "tool:executed") (route_payload g1 name r)
                      :: map (listener_write (route_payload g1 name r))
                           (listeners_of g1 (js "tool:executed")))
                  ++ [HttpReply c 200 (result_or_error r)]) g1)
          | (Throw e, g1) => bad_request e g1
          end
      end
  end.
Proof.
  intros bad_request. unfold tools_call_route, try_catch, bind at 1, lift at 1.
  destruct (JSON_parse body) as [parsed|e]; [|by unfold reply, act, modify].
  unfold bind at 1, lift at 1.
  destruct (destructure parsed) as [[name args]|e]; [|by unfold reply, act, modify].
  unfold bind at 1. fold (route_request name args).
  destruct (handleMcpRequest (route_request name args) (Some initializeSystem) g)
    as [[r|e] g1]; [|by unfold reply, act, modify].
  unfold bind at 1, gets at 1. unfold bind at 1. rewrite emit_trace.
  unfold reply, act, modify, route_payload. destruct g1; cbn.
  by rewrite <- !app_assoc.
Qed.

(** The dispatcher answers every request the route builds. *)
Lemma route_request_responds name args g :
  exists r w t,
    handleMcpRequest (route_request name args) (Some initializeSystem) g
    = (Normal r, extend g w t)
    /\ Forall quiet t /\ response_id r = VUndefined.
Proof.
  destruct (handleMcpRequest_responds (route_request name args)
              (Some initializeSystem) g VUndefined eq_refl) as (r & g' & Hrun & Hid & _).
  pose proof (dispatched_handleMcpRequest _ _ _ _ _ Hrun) as (w & t & -> & Ht).
  by exists r, w, t.
Qed.

(** X8.  [POST /api/tools/call].  Whatever the body, the route sends exactly
    one reply and throws nothing, so the process goes on.  The reply is a
    400 with the message of the fault exactly when the body is rejected by
    [JSON.parse] or parses to [null]; every other body is answered 200, with
    the result of the dispatcher or, when the dispatcher answered with an
    error (unknown tool, failing handler), with that error wrapped in [{
    error }] under the same status 200. *)
Theorem tools_call_route_replies_once c body g :
  exists g' status b,
    tools_call_route c body g = (Normal tt, g')
    /\ http_replies c (new_actions g g') = [(status, b)]
    /\ exitCode g' = exitCode g
    /\ match JSON_parse body with
       | Throw e => status = 400%Z /\ b = VObj [prop "error" (VStr (message e))]
       | Normal parsed =>
           match destructure parsed with
           | Throw e => status = 400%Z /\ b = VObj [prop "error" (VStr (message e))]
           | Normal (name, args) =>
               exists r,
                 (handleMcpRequest (route_request name args)
                    (Some initializeSystem) g).1 = Normal r
                 /\ status = 200%Z /\ b = result_or_error r
           end
       end.
Proof.
  rewrite tools_call_route_eval. cbv zeta.
  destruct (JSON_parse body) as [parsed|e].
  2:{ eexists _, _, _. split; [done|]. repeat split.
      erewrite new_actions_app by done. apply http_replies_reply. }
  destruct (destructure parsed) as [[name args]|e].
  2:{ eexists _, _, _. split; [done|]. repeat split.
      erewrite new_actions_app by done. apply http_replies_reply. }
  destruct (route_request_responds name args g) as (r & w & t & -> & Ht & _).
  eexists _, _, _. split; [done|]. cbn [fst]. split; [|split; [done|by exists r]].
  unfold extend. cbn [trace set_trace set_engine listeners_of sseEventEmitter].
  erewrite new_actions_app by (by rewrite <- !app_assoc).
  rewrite !http_replies_app, (Forall_quiet_no_reply _ _ Ht), http_replies_reply.
  by rewrite http_replies_emit.
Qed.

(** X9.  Every accepted call is published by the route.  For each body that
    parses to something other than [null], the route publishes
    [tool:executed] once, after the dispatcher has returned and before the
    reply, with [success] telling whether the response carries no error; it
    does so whether or not an SSE client is connected, and in addition to
    what the dispatcher published. *)
Theorem route_publishes_every_call c body g parsed name args :
  JSON_parse body = Normal parsed ->
  destructure parsed = Normal (name, args) ->
  exists r g1,
    handleMcpRequest (route_request name args) (Some initializeSystem) g = (Normal r, g1)
    /\ new_actions g (tools_call_route c body g).2 =
       new_actions g g1
       ++ Emit (js "tool:executed")
            (VObj [prop "tool" name;
                   prop "timestamp" (VStr (toISOString (clock g)));
                   prop "success" (VBool (bool_decide (response_error r = None)))])
          :: map (listener_write (route_payload g1 name r))
               (listeners_of g (js "tool:executed"))
       ++ [HttpReply c 200 (result_or_error r)].
Proof.
  intros Hparse Hfields. rewrite tools_call_route_eval. cbv zeta.
  rewrite Hparse, Hfields.
  destruct (route_request_responds name args g) as (r & w & t & Hrun & Ht & _).
  rewrite Hrun. exists r, (extend g w t). split; [done|]. cbn [snd].
  rewrite new_actions_extend.
  apply new_actions_app. unfold extend. cbn [trace set_trace].
  by rewrite <- app_assoc.
Qed.

Lemma jsstring_eqb_eq (a b : jsstring) : jsstring_eqb a b = true <-> a = b.
Proof. apply bool_decide_eq_true. Qed.

Lemma jsstring_eqb_ne (a b : jsstring) : a <> b -> jsstring_eqb a b = false.
Proof. intros H. by apply bool_decide_eq_false. Qed.

Lemma reply_once c status b g :
  exists g', reply c status b g = (Normal tt, g')
    /\ http_replies c (new_actions g g') = [(status, b)]
    /\ exitCode g' = exitCode g.
Proof.
  eexists. split; [done|]. split; [|done].
  erewrite new_actions_app by done. apply http_replies_reply.
Qed.

(** X10.  One request, one reply.  Every request other than the SSE stream
    on [/events] and the status query on [/api/status] is sent exactly one
    reply, without anything being thrown, so the process goes on; the status
    is 200, 400, 404 or 405.  [OPTIONS] is answered 200 on every path, these
    two included, before the path is looked at; a path that is none of the
    five routes is answered 404. *)
Theorem request_gets_one_reply c method pathname body g :
  method = js "OPTIONS"
  \/ (pathname <> js "/events" /\ pathname <> js "/api/status") ->
  exists g' status b,
    requestListener c method pathname body g = (Normal tt, g')
    /\ http_replies c (new_actions g g') = [(status, b)]
    /\ exitCode g' = exitCode g
    /\ (status = 200 \/ status = 400 \/ status = 404 \/ status = 405)%Z
    /\ (method = js "OPTIONS" -> status = 200%Z /\ b = VUndefined)
    /\ (method <> js "OPTIONS" -> pathname <> js "/health" ->
        pathname <> js "/api/tools/list" -> pathname <> js "/api/tools/call" ->
        status = 404%Z /\ b = str "Not Found").
Proof.
  intros Hroute. unfold requestListener.
  destruct (jsstring_eqb method (js "OPTIONS")) eqn:Hoptions.
  { apply jsstring_eqb_eq in Hoptions as ->.
    destruct (reply_once c 200 VUndefined g) as (g' & -> & Hone & Hexit).
    exists g', 200%Z, VUndefined. repeat apply conj; auto. by intros []. }
  assert (method <> js "OPTIONS") as Hmethod.
  { intros ->. by rewrite (proj2 (jsstring_eqb_eq _ _) eq_refl) in Hoptions. }
  destruct Hroute as [->|[Hevents Hstatus]]; [done|].
  destruct (jsstring_eqb pathname (js "/health")) eqn:Hhealth.
  { apply jsstring_eqb_eq in Hhealth as ->. unfold bind, gets.
    match goal with |- context [reply c 200 ?b g] =>
      destruct (reply_once c 200 b g) as (g' & -> & Hone & Hexit);
      exists g', 200%Z, b
    end. repeat apply conj; auto; done. }
  rewrite (jsstring_eqb_ne _ _ Hevents).
  destruct (jsstring_eqb pathname (js "/api/tools/list")) eqn:Hlist.
  { apply jsstring_eqb_eq in Hlist as ->.
    destruct (negb (jsstring_eqb method (js "GET"))).
    { destruct (reply_once c 405 VUndefined g) as (g' & -> & Hone & Hexit).
      exists g', 405%Z, VUndefined. repeat apply conj; auto; done. }
    unfold bind.
    destruct (handleMcpRequest_responds (VObj [prop "method" (str "tools/list")])
                (Some initializeSystem) g VUndefined eq_refl)
      as (r & g1 & Hrun & _).
    pose proof (dispatched_handleMcpRequest _ _ _ _ _ Hrun) as (w & t & -> & Ht).
    rewrite Hrun.
    exists (set_trace (trace (extend g w t) ++ [HttpReply c 200 (result_or_error r)])
              (extend g w t)), 200%Z, (result_or_error r).
    split; [done|]. repeat apply conj; auto; try done.
    rewrite new_actions_append, http_replies_app, (Forall_quiet_no_reply _ _ Ht).
    apply http_replies_reply. }
  destruct (jsstring_eqb pathname (js "/api/tools/call")) eqn:Hcall.
  { apply jsstring_eqb_eq in Hcall as ->.
    destruct (negb (jsstring_eqb method (js "POST"))).
    { destruct (reply_once c 405 VUndefined g) as (g' & -> & Hone & Hexit).
      exists g', 405%Z, VUndefined. repeat apply conj; auto; done. }
    rewrite tools_call_route_eval. cbv zeta.
    assert (forall e,
              exists g' status b,
                (Normal tt,
                 set_trace (trace g ++ [HttpReply c 400
                                          (VObj [prop "error" (VStr (message e))])]) g)
                = (Normal tt, g')
                /\ http_replies c (new_actions g g') = [(status, b)]
                /\ exitCode g' = exitCode g
                /\ (status = 200 \/ status = 400 \/ status = 404 \/ status = 405)%Z)
      as Hbad.
    { intros e. eexists _, 400%Z, _. split; [done|]. repeat apply conj; auto.
      erewrite new_actions_app by done. apply http_replies_reply. }
    destruct (JSON_parse body) as [parsed|e].
    2:{ destruct (Hbad e) as (g' & status & b & H1 & H2 & H3 & H4).
        exists g', status, b. repeat apply conj; auto; done. }
    destruct (destructure parsed) as [[name args]|e].
    2:{ destruct (Hbad e) as (g' & status & b & H1 & H2 & H3 & H4).
        exists g', status, b. repeat apply conj; auto; done. }
    destruct (route_request_responds name args g) as (r & w & t & -> & Ht & _).
    eexists _, 200%Z, (result_or_error r). split; [done|].
    repeat apply conj; auto; try done.
    erewrite new_actions_app
      by (unfold extend; cbn [trace set_trace]; by rewrite <- !app_assoc).
    by rewrite !http_replies_app, (Forall_quiet_no_reply _ _ Ht), http_replies_emit,
      http_replies_reply. }
  rewrite (jsstring_eqb_ne _ _ Hstatus).
  destruct (reply_once c 404 (str "Not Found") g) as (g' & -> & Hone & Hexit).
  exists g', 404%Z, (str "Not Found"). repeat apply conj; auto; done.
Qed.

(** X11.  The two transports agree.  A ['tools/call'] gets the same
    treatment whether it arrives as a line on stdin, with whatever id and
    further properties, or as the body of [POST /api/tools/call], which the
    route turns into a request without id: the dispatcher calls the same
    handler with the same arguments and leaves the process in the same
    state, and the two responses carry the same result or the same error, so
    that the body of the HTTP reply is the [result], or the [error], of the
    stdio response. *)
Theorem transports_agree request i toolName toolArgs key arguments mcpTools g :
  is_tools_call request i toolName toolArgs key ->
  toolArgs = (if ToBoolean arguments then arguments else VObj []) ->
  exists r r' g',
    handleMcpRequest request mcpTools g = (Normal r, g')
    /\ handleMcpRequest (route_request toolName arguments) mcpTools g = (Normal r', g')
    /\ response_id r = i /\ response_id r' = VUndefined
    /\ response_result r' = response_result r
    /\ response_error r' = response_error r
    /\ result_or_error r' = result_or_error r.
Proof.
  intros Hcall Hargs.
  assert (is_tools_call (route_request toolName arguments) VUndefined toolName toolArgs key)
    as Hroute.
  { destruct Hcall as (_ & _ & _ & _ & _ & _ & _ & _ & Hkey).
    repeat apply conj; try done.
    exists (VObj [prop "name" toolName; prop "arguments" arguments]), arguments.
    by repeat apply conj. }
  rewrite (tools_call_eval _ _ _ _ _ mcpTools g Hcall),
    (tools_call_eval _ _ _ _ _ mcpTools g Hroute).
  destruct (resolve mcpTools key) as [[reg h]|]; [|by eexists _, _, _].
  cbv zeta. destruct (h toolArgs (engine g)) as [[result|e] w']; cbn [fst snd];
    [|by eexists _, _, _].
  destruct (is_null result); [by eexists _, _, _|].
  destruct (result_text result); by eexists _, _, _.
Qed.

(** X12.  The status route lets a failure out.
    [/api/status] calls [swarm_status] on the primary registry outside any
    [try]: when the registry has no such function, or when the handler
    fails, the request is sent no reply at all and the rejection of the
    request listener ends the process with status 1. *)
Theorem status_route_is_unguarded c method body g :
  http_alive g -> method <> js "OPTIONS" ->
  function_member initializeSystem (js "swarm_status") = None
  \/ (exists h e w,
        function_member initializeSystem (js "swarm_status") = Some h
        /\ h (VObj [prop "verbose" (VBool true)]) (engine g) = (Throw e, w)) ->
  let g' := step g (HttpRequest c method (js "/api/status") body) in
  exitCode g' = Some 1%Z /\ http_replies c (new_actions g g') = [].
Proof.
  intros [Hexit Hhttp] Hmethod Hfails. unfold step. rewrite Hexit. cbn [dispatch].
  rewrite Hhttp. unfold requestListener.
  rewrite (jsstring_eqb_ne _ _ Hmethod).
  replace (jsstring_eqb (js "/api/status") (js "/health")) with false by by vm_compute.
  replace (jsstring_eqb (js "/api/status") (js "/events")) with false by by vm_compute.
  replace (jsstring_eqb (js "/api/status") (js "/api/tools/list")) with false
    by by vm_compute.
  replace (jsstring_eqb (js "/api/status") (js "/api/tools/call")) with false
    by by vm_compute.
  replace (jsstring_eqb (js "/api/status") (js "/api/status")) with true
    by by vm_compute.
  destruct Hfails as [->|(h & e & w & -> & Hh)].
  { cbn. split; [done|].
    rewrite (new_actions_app g _ []); [done|]. cbn. by rewrite app_nil_r. }
  unfold bind, invoke, act, modify, reply, bind. cbn [engine set_trace trace].
  rewrite Hh. split; [done|].
  by rewrite (new_actions_app g _ [Invoke Primary (js "swarm_status")
                                     (VObj [prop "verbose" (VBool true)])]).
Qed.

End HttpExtras.

(** * The merged registry *)

Section RegistryExtras.
Context {RT : Runtime}.

Lemma merge_lookup (secondary primary : gmap jsstring (member world))
    (names : list jsstring) (key : jsstring) :
  foldl (fun tools toolName =>
           match function_member secondary toolName with
           | Some h => <[toolName := Method h]> tools
           | None => tools
           end) primary names !! key
  = match (if bool_decide (key ∈ names) then function_member secondary key else None) with
    | Some h => Some (Method h)
    | None => primary !! key
    end.
Proof.
  revert primary. induction names as [|name names IH]; intros primary; [done|].
  cbn [foldl]. rewrite IH. clear IH.
  destruct (decide (key ∈ names)) as [Hin|Hout].
  - rewrite !bool_decide_eq_true_2 by (done || by right).
    destruct (function_member secondary key) as [h|] eqn:Hkey; [done|].
    destruct (decide (name = key)) as [->|Hne]; [by rewrite Hkey|].
    destruct (function_member secondary name); [|done].
    by rewrite lookup_insert_ne.
  - rewrite (bool_decide_eq_false_2 (key ∈ names)) by done.
    destruct (decide (name = key)) as [->|Hne].
    + rewrite bool_decide_eq_true_2 by left.
      destruct (function_member secondary key) as [h|]; [|done].
      by rewrite lookup_insert_eq.
    + rewrite bool_decide_eq_false_2
        by (intros [?|?]%elem_of_cons; [congruence|done]).
      destruct (function_member secondary name); [|done].
      by rewrite lookup_insert_ne.
Qed.

(** X13.  What [initializeSystem] hands to both transports.  Under one of
    the ten [daaToolNames] that the secondary registry implements as a
    function, the merged registry holds that function, whether or not the
    primary registry had a member of that name; under every other key it
    holds what the primary registry holds.  So the ten names are the only
    ones for which a function of the secondary registry takes the place of a
    member of the primary registry. *)
Theorem initializeSystem_member (key : jsstring) :
  initializeSystem !! key
  = match (if bool_decide (key ∈ daaToolNames)
           then function_member daaMcpTools key else None) with
    | Some h => Some (Method h)
    | None => EnhancedMCPTools !! key
    end.
Proof.
  unfold initializeSystem. rewrite merge_lookup.
  destruct (bool_decide (key ∈ daaToolNames)) eqn:Hin; [|done].
  apply bool_decide_eq_true in Hin.
  assert (key <> js "mcpTools") as Hne.
  { intros ->. by apply (bool_decide_eq_true_2 _) in Hin; vm_compute in Hin. }
  unfold function_member, daaMcpTools_linked. by rewrite lookup_insert_ne.
Qed.

End RegistryExtras.

(** * What the SSE clients are sent *)

Section StreamExtras.
Context {RT : Runtime}.

Implicit Types (g : gateway) (e : event) (events : list event).

Global Instance stays_unserved_preorder : PreOrder stays_unserved.
Proof.
  split.
  - intros g H. exact H.
  - intros g1 g2 g3 H12 H23 H. apply H23, H12, H.
Qed.

Lemma unserved_act (a : action) :
  (forall c f, a = SseWrite c f -> handshake_or_heartbeat f) ->
  changes stays_unserved (act a).
Proof.
  intros Ha. apply changes_modify. intros g [Hbus Hnone]. split; [done|].
  intros c f Hin. cbn in Hin. apply elem_of_app in Hin as [Hin|Hin].
  - by apply Hnone in Hin.
  - apply list_elem_of_singleton in Hin. symmetry in Hin. by apply Ha in Hin.
Qed.

(** With listeners for the four event types only, a [tool:executed] finds
    nobody to call. *)
Lemma unserved_emit (d : value) :
  changes stays_unserved (emit (js "tool:executed") d).
Proof.
  intros g c g'. rewrite emit_trace. intros [= _ <-] [Hbus Hnone].
  assert (listeners_of g (js "tool:executed") = []) as ->.
  { unfold listeners_of.
    destruct (sseEventEmitter g !! js "tool:executed") as [ls|] eqn:Hls; [|done].
    apply Hbus in Hls. by apply tool_executed_not_subscribed in Hls. }
  split; [done|].
  intros c' f Hin. cbn in Hin. apply elem_of_app in Hin as [Hin|Hin].
  { by apply Hnone in Hin. }
  by apply list_elem_of_singleton in Hin.
Qed.

Lemma unserved_invoke r key (h : handler world) toolArgs :
  changes stays_unserved (invoke r key h toolArgs).
Proof.
  unfold invoke. changes_step; [by apply unserved_act|].
  intros g c g'. destruct (h toolArgs (engine g)) as [c' w]. by intros [= _ <-] [? ?].
Qed.

Lemma unserved_handleMcpRequest request mcpTools :
  changes stays_unserved (handleMcpRequest request mcpTools).
Proof.
  unfold handleMcpRequest, switch_method, tools_call_case, result_case, call_tool,
    try_daa.
  repeat first [apply unserved_emit | apply unserved_invoke | changes_step].
Qed.

Lemma unserved_handle_lines tools (lines : list jsstring) :
  changes stays_unserved (handle_lines tools lines).
Proof.
  induction lines as [|line lines IH]; cbn [handle_lines]; [by changes_step|].
  changes_step; [|done]. unfold handle_line.
  repeat first
    [ apply unserved_handleMcpRequest | by apply unserved_act | silent_step ].
Qed.

Lemma unserved_register_listeners (c : conn) (types : list jsstring) :
  (forall eventType, eventType ∈ types -> eventType ∈ eventTypes) ->
  changes stays_unserved (register_listeners c types).
Proof.
  induction types as [|eventType types IH]; intros Hsub; cbn [register_listeners];
    [by changes_step|].
  changes_step; [|apply IH; intros ? ?; apply Hsub; by right].
  apply changes_modify. intros g [Hbus Hnone]. split; [|done].
  intros k ls Hk. cbn in Hk.
  destruct (decide (eventType = k)) as [<-|Hne].
  - apply Hsub. by left.
  - rewrite lookup_insert_ne in Hk by done. by eapply Hbus.
Qed.

Lemma unserved_dispatch e g0 : changes stays_unserved (dispatch e g0).
Proof.
  destruct e; cbn [dispatch].
  - destruct (stdinListeners g0); [|by changes_step].
    unfold on_data. changes_step; [by changes_step|].
    destruct (frame a chunk). changes_step; [silent_step|].
    apply unserved_handle_lines.
  - unfold on_end, process_exit. repeat silent_step.
  - unfold on_signal, process_exit. repeat silent_step.
  - unfold requestListener, events_route, tools_call_route, reply.
    repeat first
      [ apply unserved_handleMcpRequest | apply unserved_emit | apply unserved_invoke
      | by apply unserved_register_listeners
      | by apply unserved_act
      | apply unserved_act; by intros ? ? [= _ <-]
      | silent_step ].
  - unfold on_close, removeAllListeners. repeat silent_step.
  - unfold heartbeat. repeat first [by apply unserved_act | silent_step].
    apply unserved_act. by intros ? ? [= _ <-].
  - repeat silent_step.
Qed.

(** X14.  The SSE channel carries no event of the gateway.  However the
    process is started and whatever the event loop delivers (tool calls over
    either transport, connections, disconnections, timers), every frame
    written to every SSE client is the [connected] handshake or a heartbeat:
    none of [swarm:update], [agent:spawn], [task:update],
    [performance:metrics] or [tool:executed] is ever sent to anyone. *)
Theorem sse_stream_is_handshake_and_heartbeats (w : world) (t0 : N)
    (args : list jsstring) events (c : conn) :
  Forall handshake_or_heartbeat (sse_stream c (run (main args (boot w t0)).2 events)).
Proof.
  assert (forall g, unserved g -> unserved (run g events)) as Hrun.
  { induction events as [|e events IH]; intros g Hg; [done|].
    cbn. apply IH. unfold step. destruct (exitCode g); [done|].
    destruct (dispatch e g g) as [[[]|err] g'] eqn:Hd;
      apply unserved_dispatch in Hd; by apply Hd. }
  assert (unserved (main args (boot w t0)).2) as Hstart.
  { destruct (main_started w t0 args) as (_ & _ & Htrace).
    assert (sseEventEmitter (main args (boot w t0)).2 = ∅) as Hbus.
    { unfold main.
      destruct (includes args "--help" || includes args "-h"); [done|].
      by destruct (includes args "--hybrid"), (includes args "--http"),
        (includes args "--keep-alive" || env_CLAUDE_FLOW_MODE),
        (includes args "--daemon"). }
    split.
    - intros k ls Hk. by rewrite Hbus, lookup_empty in Hk.
    - intros c' f Hin. destruct Htrace as [[Ht _]|[Ht _]]; rewrite Ht in Hin.
      + by apply elem_of_nil in Hin.
      + by apply list_elem_of_singleton in Hin. }
  destruct (Hrun _ Hstart) as [_ Hframes].
  apply Forall_forall. intros f Hf. unfold sse_stream in Hf.
  apply list_elem_of_omap in Hf as (a & Ha & Hsome).
  destruct a; try done. destruct (decide (c0 = c)); [|done].
  injection Hsome as <-. by eapply Hframes.
Qed.

Lemma register_listeners_keeps (c : conn) (types : list jsstring) g :
  exists g',
    register_listeners c types g = (Normal tt, g')
    /\ sseClients g' = sseClients g /\ closeListeners g' = closeListeners g
    /\ heartbeats g' = heartbeats g /\ clock g' = clock g /\ trace g' = trace g.
Proof.
  revert g. induction types as [|eventType types IH]; intros g; [by exists g|].
  cbn [register_listeners]. unfold bind, on, modify.
  destruct (IH (set_sseEventEmitter
                  (<[eventType := listeners_of g eventType ++ [Listener c eventType]]>
                     (sseEventEmitter g)) g)) as (g' & -> & Hs & Hc & Hb & Hk & Ht).
  by exists g'.
Qed.

(** A connection to [/events]: the handshake is written, the client is
    entered under the clock's reading, its heartbeat and its ['close']
    listener are set up. *)
Lemma events_route_connects (c : conn) g :
  let clientId := Number_toString (Z.of_N (clock g)) in
  exists g',
    events_route c g = (Normal tt, g')
    /\ sseClients g' = <[clientId := c]> (sseClients g)
    /\ closeListeners g' = <[c := clientId]> (closeListeners g)
    /\ heartbeats g' = {[c]} ∪ heartbeats g
    /\ clock g' = clock g.
Proof.
  unfold events_route, bind, gets, act, modify.
  match goal with |- context [register_listeners c eventTypes ?g1] =>
    destruct (register_listeners_keeps c eventTypes g1)
      as (g'' & -> & Hs & Hc & Hb & Hk & _)
  end.
  eexists. split; [done|].
  cbn [sseClients closeListeners heartbeats clock trace set_sseClients
       set_closeListeners set_heartbeats set_trace] in *.
  by rewrite Hs, Hc, Hb, Hk.
Qed.

(** X15.  The [clientId] is the clock.  Two clients that connect while the
    clock shows the same millisecond are given the same [clientId]:
    [sseClients] then holds one entry for the two of them, and when the
    first disconnects that entry is deleted, although the second is still
    connected and still sent heartbeats.  So the size of [sseClients], which
    guards the dispatcher's publications, can be smaller than the number of
    connected clients. *)
Theorem clients_of_one_millisecond_share_an_id (c1 c2 : conn) g :
  c1 <> c2 ->
  let clientId := Number_toString (Z.of_N (clock g)) in
  let g2 := (events_route c2 (events_route c1 g).2).2 in
  let g3 := (on_close c1 clientId g2).2 in
  sseClients g2 = <[clientId := c2]> (sseClients g)
  /\ closeListeners g2 !! c1 = Some clientId
  /\ closeListeners g2 !! c2 = Some clientId
  /\ sseClients g3 = delete clientId (sseClients g)
  /\ c2 ∈ heartbeats g3.
Proof.
  intros Hne clientId g2 g3. subst g2 g3.
  destruct (events_route_connects c1 g) as (g1 & -> & Hs1 & Hc1 & Hb1 & Hk1).
  cbn [snd].
  destruct (events_route_connects c2 g1) as (g2 & -> & Hs2 & Hc2 & Hb2 & Hk2).
  cbn [snd]. rewrite Hk1 in Hs2, Hc2. fold clientId in Hs1, Hs2, Hc1, Hc2.
  rewrite Hs1, insert_insert_eq in Hs2. rewrite Hc1 in Hc2.
  unfold on_close, removeAllListeners, bind, modify.
  cbn [snd sseClients heartbeats set_heartbeats set_sseClients set_sseEventEmitter].
  repeat apply conj.
  - done.
  - by rewrite Hc2, lookup_insert_ne, lookup_insert_eq.
  - by rewrite Hc2, lookup_insert_eq.
  - by rewrite Hs2, delete_insert_eq.
  - rewrite Hb2. apply elem_of_difference. split.
    + by apply elem_of_union_l, elem_of_singleton.
    + intros Hin. apply elem_of_singleton in Hin. by symmetry in Hin.
Qed.

Global Instance leaves_alone_preorder (c : conn) : PreOrder (leaves_alone c).
Proof.
  split.
  - intros g H. by split.
  - intros g1 g2 g3 H12 H23 H.
    destruct (H12 H) as [H2 Hs]. destruct (H23 H2) as [H3 Hs'].
    split; [done | congruence].
Qed.

Lemma sse_stream_app (c : conn) g (t : list action) :
  sse_stream c (set_trace (trace g ++ t) g)
  = sse_stream c g ++ sse_stream c (set_trace t g).
Proof. unfold sse_stream. cbn [trace set_trace]. apply omap_app. Qed.

Lemma alone_act (c : conn) (a : action) :
  (forall f, a <> SseWrite c f) -> changes (leaves_alone c) (act a).
Proof.
  intros Ha. apply changes_modify. intros g Hg. split; [done|].
  rewrite sse_stream_app. unfold sse_stream at 2. cbn.
  destruct a; try by rewrite app_nil_r.
  destruct (decide (c0 = c)) as [->|]; [by destruct (Ha f) | by rewrite app_nil_r].
Qed.

Lemma alone_emit (c : conn) (eventType : jsstring) (d : value) :
  changes (leaves_alone c) (emit eventType d).
Proof.
  intros g r g'. rewrite emit_trace. intros [= _ <-] [Hbeat Hbus].
  split; [done|]. rewrite sse_stream_app. unfold sse_stream at 2. cbn.
  assert (forall l, l ∈ listeners_of g eventType -> l_res l <> c) as Hls.
  { intros l Hl. unfold listeners_of in Hl.
    destruct (sseEventEmitter g !! eventType) as [ls|] eqn:Hk;
      [by eapply Hbus | by apply elem_of_nil in Hl]. }
  induction (listeners_of g eventType) as [|l ls IH]; [by rewrite app_nil_r|].
  cbn. destruct (decide (l_res l = c)) as [Heq|_].
  - destruct (Hls l); [by left | done].
  - apply IH. intros l' Hl'. apply Hls. by right.
Qed.

Lemma alone_invoke (c : conn) r key (h : handler world) toolArgs :
  changes (leaves_alone c) (invoke r key h toolArgs).
Proof.
  unfold invoke. changes_step; [by apply alone_act|].
  intros g r' g'. destruct (h toolArgs (engine g)) as [c' w]. by intros [= _ <-] [? ?].
Qed.

Lemma alone_handleMcpRequest (c : conn) request mcpTools :
  changes (leaves_alone c) (handleMcpRequest request mcpTools).
Proof.
  unfold handleMcpRequest, switch_method, tools_call_case, result_case, call_tool,
    try_daa.
  repeat first [apply alone_emit | apply alone_invoke | changes_step].
Qed.

Lemma alone_handle_lines (c : conn) tools (lines : list jsstring) :
  changes (leaves_alone c) (handle_lines tools lines).
Proof.
  induction lines as [|line lines IH]; cbn [handle_lines]; [by changes_step|].
  changes_step; [|done]. unfold handle_line.
  repeat first
    [ apply alone_handleMcpRequest | by apply alone_act
    | changes_step | apply changes_modify; intros ? [? ?]; (by split) ].
Qed.

Lemma alone_register_listeners (c c' : conn) (types : list jsstring) :
  c' <> c -> changes (leaves_alone c) (register_listeners c' types).
Proof.
  intros Hne. induction types as [|eventType types IH]; cbn [register_listeners];
    [by changes_step|].
  changes_step; [|done].
  apply changes_modify. intros g [Hbeat Hbus]. split; [|done]. split; [done|].
  intros k ls l Hk Hl. cbn in Hk.
  destruct (decide (eventType = k)) as [<-|Hne'].
  - rewrite lookup_insert_eq in Hk. injection Hk as <-.
    apply elem_of_app in Hl as [Hl|Hl].
    + unfold listeners_of in Hl.
      destruct (sseEventEmitter g !! eventType) as [ls|] eqn:Hls;
        [by eapply Hbus | by apply elem_of_nil in Hl].
    + by apply list_elem_of_singleton in Hl as ->.
  - rewrite lookup_insert_ne in Hk by done. by eapply Hbus.
Qed.

Lemma alone_dispatch (c : conn) e g :
  not_request_on c e -> detached c g -> changes (leaves_alone c) (dispatch e g).
Proof.
  intros He [Hbeat _]. destruct e; cbn [dispatch].
  - destruct (stdinListeners g); [|by changes_step].
    unfold on_data. changes_step; [by changes_step|].
    destruct (frame a chunk).
    changes_step; [apply changes_modify; intros ? [? ?]; (by split)|].
    apply alone_handle_lines.
  - unfold on_end, process_exit.
    repeat first [changes_step | apply changes_modify; intros ? [? ?]; (by split)].
  - unfold on_signal, process_exit.
    repeat first [changes_step | apply changes_modify; intros ? [? ?]; (by split)].
  - cbn in He. unfold requestListener, events_route, tools_call_route, reply.
    repeat first
      [ apply alone_handleMcpRequest | apply alone_emit | apply alone_invoke
      | by apply alone_register_listeners
      | by apply alone_act
      | apply alone_act; intros ? [= ? _]; congruence
      | changes_step
      | apply changes_modify; intros ? [? ?]; (by split) ].
    apply changes_modify. intros g' [Hbeat' Hbus']. split; [|done]. split; [|done].
    cbn [heartbeats set_heartbeats]. intros Hin.
    apply elem_of_union in Hin as [Hin|Hin]; [|done].
    apply elem_of_singleton in Hin. congruence.
  - destruct (closeListeners g !! c0) as [clientId|]; [|by changes_step].
    unfold on_close, removeAllListeners.
    repeat first [changes_step | apply changes_modify; intros ? [? ?]; (by split)].
    apply changes_modify. intros g' [Hbeat' Hbus']. split; [|done]. split; [|done].
    cbn [heartbeats set_heartbeats]. intros Hin.
    by apply elem_of_difference in Hin as [Hin _].
  - destruct (decide (c0 = c)) as [->|Hne].
    + rewrite bool_decide_eq_false_2 by done. by changes_step.
    + destruct (bool_decide (c0 ∈ heartbeats g)); [|by changes_step].
      unfold heartbeat. apply alone_act. intros f [= ? _]. congruence.
  - apply changes_modify. intros ? [? ?]. by split.
Qed.

Lemma alone_run (c : conn) events g :
  Forall (not_request_on c) events -> leaves_alone c g (run g events).
Proof.
  intros Hevents. revert g.
  induction Hevents as [|e events He _ IH]; intros g Hg; [by split|].
  cbn [run foldl]. fold (run (step g e) events).
  assert (leaves_alone c g (step g e)) as Hstep.
  { unfold step. destruct (exitCode g); [reflexivity|].
    destruct (dispatch e g g) as [[[]|err] g'] eqn:Hd;
      apply (alone_dispatch c _ _ He Hg) in Hd; [done|].
    intros Hg'. destruct (Hd Hg') as [[? ?] ?]. split; [by split | done]. }
  destruct (Hstep Hg) as [Hg1 Hs1]. destruct (IH _ Hg1) as [Hg2 Hs2].
  split; [done | congruence].
Qed.

(** X16.  A client that has disconnected is never written again.  Once the
    ['close'] listener of an SSE connection has run, whatever the event loop
    delivers afterwards (tool calls over either transport, other clients
    connecting and disconnecting, timers, its own stale heartbeat timer),
    nothing more is written on that connection, as long as no new request
    arrives on it. *)
Theorem closed_client_is_never_written (c : conn) (clientId : jsstring) g events :
  closeListeners g !! c = Some clientId ->
  Forall (not_request_on c) events ->
  sse_stream c (run g (HttpClose c :: events)) = sse_stream c g.
Proof.
  intros Hclose Hevents. cbn [run foldl]. fold (run (step g (HttpClose c)) events).
  destruct (exitCode g) as [status|] eqn:Hexit.
  { rewrite (step_exited g) by congruence. by rewrite run_exited by congruence. }
  assert (detached c (step g (HttpClose c))
          /\ sse_stream c (step g (HttpClose c)) = sse_stream c g) as [Hg Hs].
  { unfold step. rewrite Hexit. cbn [dispatch]. rewrite Hclose.
    unfold on_close, removeAllListeners, bind, modify.
    cbn [fst snd heartbeats sseEventEmitter trace set_heartbeats set_sseClients
         set_sseEventEmitter set_closeListeners].
    split; [split|done].
    - cbn [heartbeats set_heartbeats set_sseClients set_sseEventEmitter].
      intros Hin. apply elem_of_difference in Hin as [_ Hin].
      by apply Hin, elem_of_singleton.
    - intros k ls l Hk. cbn [sseEventEmitter set_sseEventEmitter] in Hk.
      by rewrite lookup_empty in Hk. }
  destruct (alone_run c events _ Hevents Hg) as [_ ->]. done.
Qed.

End StreamExtras.

(** * The stdio session *)

Section StdioExtras.
Context {RT : Runtime}.

Implicit Types (g : gateway) (tools : gmap jsstring (member world)).
Implicit Types (line : jsstring) (lines : list jsstring) (t : list action).



End StdioExtras.

(** * Stdio mode *)

Section PrivateExtras.
Context {RT : Runtime}.

Implicit Types (g : gateway) (e : event) (events : list event).

Global Instance keeps_private_preorder : PreOrder keeps_private.
Proof.
  split.
  - intros g H. repeat apply conj; try done. exists []. by rewrite app_nil_r.
  - intros g1 g2 g3 H12 H23 H.
    destruct (H12 H) as (H2 & Hs & Hb & t & Ht & Hlocal).
    destruct (H23 H2) as (H3 & Hs' & Hb' & t' & Ht' & Hlocal').
    repeat apply conj; [done | congruence | congruence |]. exists (t ++ t').
    split; [by rewrite Ht', Ht, app_assoc | by apply Forall_app].
Qed.

Lemma private_act (a : action) : local_action a -> changes keeps_private (act a).
Proof.
  intros Ha. apply changes_modify. intros g Hg. repeat apply conj; try done.
  exists [a]. split; [done | by constructor].
Qed.

Lemma private_handleMcpRequest request mcpTools :
  changes keeps_private (handleMcpRequest request mcpTools).
Proof.
  intros g c g' Hrun Hnone.
  pose proof (dispatched_handleMcpRequest _ _ _ _ _ Hrun) as (w & t & -> & _).
  repeat apply conj; try done. exists t. split; [done|].
  pose proof (handleMcpRequest_actions request mcpTools g) as Hactions.
  rewrite Hrun in Hactions. cbn [snd] in Hactions.
  rewrite new_actions_extend in Hactions.
  destruct Hactions
    as [-> |(i & toolName & toolArgs & key & r & h & _ & _ & [-> | ->])];
    [constructor | by repeat constructor |].
  unfold publications, extend. cbn [sseClients set_trace set_engine].
  rewrite Hnone, map_size_empty. cbn. by repeat constructor.
Qed.

Ltac private_step :=
  first
    [ apply private_handleMcpRequest
    | by apply private_act
    | changes_step
    | apply changes_modify; intros ? ?; repeat apply conj; try done;
      exists []; by rewrite app_nil_r ].

Lemma private_handle_lines tools (lines : list jsstring) :
  changes keeps_private (handle_lines tools lines).
Proof.
  induction lines as [|line lines IH]; cbn [handle_lines]; [by changes_step|].
  changes_step; [|done]. unfold handle_line. repeat private_step.
Qed.

(** What every listener keeps: no HTTP server, no SSE client, no heartbeat
    timer, nothing but local actions done. *)
Lemma private_step_invariant g e :
  httpServer g = false /\ sseClients g = ∅ /\ heartbeats g = ∅
  /\ Forall local_action (trace g) ->
  httpServer (step g e) = false /\ sseClients (step g e) = ∅
  /\ heartbeats (step g e) = ∅ /\ Forall local_action (trace (step g e)).
Proof.
  intros (Hhttp & Hclients & Hbeats & Htrace). unfold step.
  destruct (exitCode g); [done|].
  destruct e; cbn [dispatch].
  - assert (changes keeps_private
              (if stdinListeners g then on_data initializeSystem chunk else ret tt))
      as Hprivate.
    { destruct (stdinListeners g); [|by changes_step].
      unfold on_data. changes_step; [by changes_step|].
      destruct (frame a chunk). changes_step; [private_step|].
      apply private_handle_lines. }
    destruct ((if stdinListeners g then on_data initializeSystem chunk else ret tt) g)
      as [[[]|err] g'] eqn:Hrun;
      destruct (Hprivate _ _ _ Hrun Hclients) as (? & Hs & Hb & t & Ht & Hlocal);
      cbn [httpServer sseClients heartbeats trace set_exitCode];
      rewrite Ht, Hs, Hb; repeat apply conj; try done; by apply Forall_app.
  - by destruct (stdinListeners g).
  - unfold on_signal, bind, gets. by rewrite Hhttp.
  - by rewrite Hhttp.
  - destruct (closeListeners g !! c) as [clientId|]; [|done].
    cbn. rewrite Hclients, Hbeats. repeat apply conj; try done.
    apply empty_difference_L.
  - rewrite Hbeats. by rewrite bool_decide_eq_false_2 by set_solver.
  - done.
Qed.

(** X19.  Stdio mode keeps to itself.  Started with neither [--hybrid] nor
    [--http], the process never starts the HTTP server, whatever the event
    loop delivers; no SSE client can connect, so no tool call is ever
    published on the bus, and nothing is written to an SSE client or replied
    over HTTP: every action of the process is a message taken from stdin, a
    log record, a line on stdout or the call of a tool. *)
Theorem stdio_mode_is_private (w : world) (t0 : N) (args : list jsstring) events :
  includes args "--hybrid" = false -> includes args "--http" = false ->
  let g := run (main args (boot w t0)).2 events in
  httpServer g = false /\ sseClients g = ∅ /\ Forall local_action (trace g).
Proof.
  intros Hhybrid Hhttp.
  assert (forall g,
            httpServer g = false /\ sseClients g = ∅ /\ heartbeats g = ∅
            /\ Forall local_action (trace g) ->
            httpServer (run g events) = false /\ sseClients (run g events) = ∅
            /\ Forall local_action (trace (run g events))) as Hrun.
  { induction events as [|e events IH]; intros g Hg; [tauto|].
    cbn. apply IH. by apply private_step_invariant. }
  apply Hrun. unfold main. rewrite Hhybrid, Hhttp.
  destruct (includes args "--help" || includes args "-h");
    [by repeat apply conj|].
  destruct (includes args "--keep-alive" || env_CLAUDE_FLOW_MODE),
    (includes args "--daemon"); cbn; repeat apply conj; try done;
    by repeat constructor.
Qed.

End PrivateExtras.

(** * What can end the process *)

Section SurvivalExtras.
Context {RT : Runtime}.

Implicit Types (g : gateway) (e : event) (events : list event).

Global Instance same_exit_preorder : PreOrder same_exit.
Proof.
  split; [by intros g|]. intros g1 g2 g3 H12 H23. unfold same_exit in *. congruence.
Qed.

Ltac exit_step :=
  first [ changes_step | by apply changes_modify ].

Lemma same_exit_handleMcpRequest request mcpTools :
  changes same_exit (handleMcpRequest request mcpTools).
Proof.
  intros g c g' Hrun. apply dispatched_exitCode. by eapply dispatched_handleMcpRequest.
Qed.

Lemma same_exit_call_listeners (ls : list listener) d :
  changes same_exit (call_listeners ls d).
Proof.
  induction ls as [|l ls IH]; cbn [call_listeners]; [by exit_step|].
  unfold sendEvent, act. by repeat exit_step.
Qed.

Lemma same_exit_register_listeners (c : conn) (types : list jsstring) :
  changes same_exit (register_listeners c types).
Proof.
  induction types as [|eventType types IH]; cbn [register_listeners]; [by exit_step|].
  unfold on. by repeat exit_step.
Qed.

(** No route sets the exit status. *)
Lemma same_exit_requestListener (c : conn) (method pathname body : jsstring) :
  changes same_exit (requestListener c method pathname body).
Proof.
  unfold requestListener, events_route, tools_call_route, reply, invoke, emit, act.
  repeat first
    [ apply same_exit_handleMcpRequest | apply same_exit_call_listeners
    | apply same_exit_register_listeners | exit_step ].
  intros g r g'. destruct (h _ (engine g)) as [r' w]. by intros [= _ <-].
Qed.

(** Every route but [/api/status] runs to its end. *)
Lemma requestListener_returns (c : conn) (method pathname body : jsstring) g :
  method = js "OPTIONS" \/ pathname <> js "/api/status" ->
  exists g', requestListener c method pathname body g = (Normal tt, g').
Proof.
  intros Hroute. unfold requestListener.
  destruct (jsstring_eqb method (js "OPTIONS")) eqn:Hoptions; [by eexists|].
  destruct Hroute as [->|Hstatus]; [by vm_compute in Hoptions|].
  destruct (jsstring_eqb pathname (js "/health")); [by eexists|].
  destruct (jsstring_eqb pathname (js "/events")).
  { destruct (events_route_connects c g) as (g' & -> & _). by eexists. }
  destruct (jsstring_eqb pathname (js "/api/tools/list")).
  { destruct (negb (jsstring_eqb method (js "GET"))); [by eexists|].
    unfold bind.
    destruct (handleMcpRequest_responds (VObj [prop "method" (str "tools/list")])
                (Some initializeSystem) g VUndefined eq_refl) as (r & g1 & -> & _).
    by eexists. }
  destruct (jsstring_eqb pathname (js "/api/tools/call")).
  { destruct (negb (jsstring_eqb method (js "POST"))); [by eexists|].
    rewrite tools_call_route_eval. cbv zeta.
    destruct (JSON_parse body) as [parsed|err]; [|by eexists].
    destruct (destructure parsed) as [[name args]|err]; [|by eexists].
    destruct (route_request_responds name args g) as (r & w & t & -> & _).
    by eexists. }
  rewrite (jsstring_eqb_ne _ _ Hstatus). by eexists.
Qed.

End SurvivalExtras.

(** ** The further theorems at work on the two installations *)

Lemma dispatcher_response_well_formed_witness :
  let g := Scenario.started ["--stdio"%string] in
  let tools := Some (initializeSystem (RT := Scenario.runtime)) in
  let r := Response (js "2.0") (VNum 5) None
             (Some (RpcError (-32603) (js "Internal error") (js "engine offline"))) in
  let g' := extend g 1 [Invoke Primary (js "faulty") (VObj [])] in
  handleMcpRequest Scenario.request_faulty tools g = (Normal r, g')
  /\ well_formed r.
Proof.
  intros g tools r g'.
  assert (handleMcpRequest Scenario.request_faulty tools g = (Normal r, g')) as Hrun
    by (by vm_compute).
  split; [exact Hrun|].
  exact (dispatcher_response_well_formed (RT := Scenario.runtime)
           Scenario.request_faulty tools g r g' Hrun).
Defined.

Lemma initialize_and_list_are_pure_witness :
  let g := Scenario.started ["--stdio"%string] in
  let list_request := VObj [prop "id" (VNum 2); prop "method" (str "tools/list")] in
  (handleMcpRequest (RT := Scenario.runtime) Scenario.request_initialize None g).2 = g
  /\ handleMcpRequest (RT := Scenario.runtime) list_request None g
     = (Normal (Response (js "2.0") (VNum 2)
                  (Some (VObj [prop "tools" (VArr [swarm_init_descriptor])])) None), g).
Proof.
  intros g list_request. split.
  - by rewrite (proj1 (initialize_and_list_are_pure (RT := Scenario.runtime)
                         Scenario.request_initialize (VNum 1) None g eq_refl) eq_refl).
  - exact (proj2 (initialize_and_list_are_pure (RT := Scenario.runtime)
                    list_request (VNum 2) None g eq_refl) eq_refl).
Defined.

Lemma tools_call_success_witness :
  let g := Scenario.started ["--stdio"%string] in
  let tools := Some (initializeSystem (RT := Scenario.runtime)) in
  let text := VStr (Scenario.text "{'agents':0}") in
  handleMcpRequest Scenario.request_status tools g
  = (Normal (Response (js "2.0") (VNum 3) (Some (text_content text)) None),
     extend g 1 [Invoke Primary (js "swarm_status") (VObj [])]).
Proof.
  intros g tools text.
  rewrite (proj1 (tools_call_success (RT := Scenario.runtime)
                    Scenario.request_status (VNum 3) (str "swarm_status") (VObj [])
                    (js "swarm_status") tools g Primary Scenario.swarm_status
                    (VObj [prop "agents" (VNum 0)]) text
                    (scenario_tools_call 3 "swarm_status" [prop "arguments" (VObj [])]
                       (VObj []) eq_refl)
                    ltac:(by vm_compute) ltac:(by vm_compute) eq_refl
                    ltac:(by vm_compute))).
  by vm_compute.
Defined.

Lemma tools_call_unprintable_result_witness :
  let g := Degraded.started ["--stdio"%string] in
  let tools := Some (initializeSystem (RT := Degraded.runtime)) in
  handleMcpRequest Degraded.request_ledger tools g
  = (Normal (Response (js "2.0") (VNum 1) None
               (Some (RpcError (-32603) (js "Internal error")
                        (js "Do not know how to serialize a BigInt")))),
     extend g 1 [Invoke Primary (js "ledger") (VObj [])]).
Proof.
  intros g tools.
  rewrite (tools_call_unprintable_result (RT := Degraded.runtime)
             Degraded.request_ledger (VNum 1) (str "ledger") (VObj [])
             (js "ledger") tools g Primary Degraded.ledger
             (VObj [prop "total" (VNum 1)])
             (Error (js "Do not know how to serialize a BigInt"))
             (scenario_tools_call 1 "ledger" [] VUndefined eq_refl)
             ltac:(by vm_compute) ltac:(by vm_compute) eq_refl eq_refl).
  by vm_compute.
Defined.

Lemma no_client_no_publication_witness :
  let g := Scenario.started ["--stdio"%string] in
  let tools := Some (initializeSystem (RT := Scenario.runtime)) in
  sseClients g = ∅
  /\ Forall is_invoke
       (new_actions g (handleMcpRequest Scenario.request_status tools g).2).
Proof.
  intros g tools.
  assert (sseClients g = ∅) as Hnone by (by vm_compute).
  split; [exact Hnone|].
  exact (no_client_no_publication (RT := Scenario.runtime)
           Scenario.request_status tools g Hnone).
Defined.

Lemma route_publishes_every_call_witness :
  let g := Scenario.started ["--http"%string] in
  let name := str "swarm_status" in
  exists r g1,
    handleMcpRequest (route_request name (VObj []))
      (Some (initializeSystem (RT := Scenario.runtime))) g = (Normal r, g1)
    /\ new_actions g (tools_call_route 1%nat Scenario.body_status g).2 =
       new_actions g g1
       ++ Emit (js "tool:executed")
            (VObj [prop "tool" name;
                   prop "timestamp" (VStr (@toISOString Scenario.runtime (clock g)));
                   prop "success" (VBool (bool_decide (response_error r = None)))])
          :: map (listener_write (route_payload g1 name r))
               (listeners_of g (js "tool:executed"))
       ++ [HttpReply 1%nat 200 (result_or_error r)].
Proof.
  intros g name.
  exact (route_publishes_every_call (RT := Scenario.runtime) 1%nat Scenario.body_status g
           (VObj [prop "name" name; prop "arguments" (VObj [])]) name (VObj [])
           ltac:(by vm_compute) eq_refl).
Defined.

Lemma request_gets_one_reply_witness :
  let g := Scenario.started ["--http"%string] in
  exists g' status b,
    requestListener 7%nat (js "GET") (js "/metrics") [] g = (Normal tt, g')
    /\ http_replies 7%nat (new_actions g g') = [(status, b)]
    /\ status = 404%Z /\ b = str "Not Found".
Proof.
  intros g.
  assert (js "/metrics" <> js "/events" /\ js "/metrics" <> js "/api/status") as Hpath
    by (split; by vm_compute).
  destruct (request_gets_one_reply (RT := Scenario.runtime) 7%nat (js "GET")
              (js "/metrics") [] g (or_intror Hpath))
    as (g' & status & b & Hrun & Hone & _ & _ & _ & Hmissing).
  exists g', status, b. split; [exact Hrun|]. split; [exact Hone|].
  apply Hmissing; by vm_compute.
Defined.

Lemma transports_agree_witness :
  let g := Scenario.started ["--hybrid"%string] in
  let tools := Some (initializeSystem (RT := Scenario.runtime)) in
  exists r r' g',
    handleMcpRequest Scenario.request_status tools g = (Normal r, g')
    /\ handleMcpRequest (route_request (str "swarm_status") (VObj [])) tools g
       = (Normal r', g')
    /\ response_id r = VNum 3 /\ response_id r' = VUndefined
    /\ response_result r' = response_result r
    /\ response_error r' = response_error r
    /\ result_or_error r' = result_or_error r.
Proof.
  intros g tools.
  exact (transports_agree (RT := Scenario.runtime) Scenario.request_status (VNum 3)
           (str "swarm_status") (VObj []) (js "swarm_status") (VObj []) tools g
           (scenario_tools_call 3 "swarm_status" [prop "arguments" (VObj [])]
              (VObj []) eq_refl)
           eq_refl).
Defined.

Lemma status_route_is_unguarded_witness :
  let g := Degraded.started ["--http"%string] in
  let g' := step g (Scenario.GET 4%nat "/api/status") in
  http_alive g
  /\ function_member (initializeSystem (RT := Degraded.runtime)) (js "swarm_status") = None
  /\ exitCode g' = Some 1%Z
  /\ http_replies 4%nat (new_actions g g') = [].
Proof.
  intros g g'.
  assert (http_alive g) as Halive by (split; by vm_compute).
  assert (function_member (initializeSystem (RT := Degraded.runtime)) (js "swarm_status")
          = None) as Hmissing by (by vm_compute).
  split; [exact Halive|]. split; [exact Hmissing|].
  exact (status_route_is_unguarded (RT := Degraded.runtime) 4%nat (js "GET") [] g
           Halive ltac:(by vm_compute) (or_introl Hmissing)).
Defined.

Lemma clients_of_one_millisecond_share_an_id_witness :
  let g := Scenario.started ["--http"%string] in
  let g2 := (events_route 2%nat (events_route 1%nat g).2).2 in
  let g3 := (on_close 1%nat (js "1000") g2).2 in
  sseClients g2 = <[js "1000" := 2%nat]> (sseClients g)
  /\ closeListeners g2 !! 1%nat = Some (js "1000")
  /\ closeListeners g2 !! 2%nat = Some (js "1000")
  /\ sseClients g3 = delete (js "1000") (sseClients g)
  /\ 2%nat ∈ heartbeats g3.
Proof.
  exact (clients_of_one_millisecond_share_an_id (RT := Scenario.runtime) 1%nat 2%nat
           (Scenario.started ["--http"%string]) ltac:(lia)).
Defined.

Lemma closed_client_is_never_written_witness :
  let g := run (Scenario.started ["--http"%string]) [Scenario.GET 1%nat "/events"] in
  let events := [HeartbeatTimer 1%nat;
                 Scenario.POST 2%nat "/api/tools/call" Scenario.body_status;
                 Scenario.GET 3%nat "/events"; HeartbeatTimer 3%nat] in
  closeListeners g !! 1%nat = Some (js "1000")
  /\ sse_stream 1%nat (run g (HttpClose 1%nat :: events)) = sse_stream 1%nat g.
Proof.
  intros g events.
  assert (closeListeners g !! 1%nat = Some (js "1000")) as Hclose by (by vm_compute).
  split; [exact Hclose|].
  apply (closed_client_is_never_written (RT := Scenario.runtime) 1%nat (js "1000") g
           events Hclose).
  repeat constructor; cbn; lia.
Defined.


Lemma stdio_mode_is_private_witness :
  let events :=
    [StdinData (Scenario.line_status ++ [LF]); Scenario.GET 1%nat "/events";
     Scenario.POST 2%nat "/api/tools/call" Scenario.body_status;
     StdinData (Scenario.line_faulty ++ [LF])] in
  let g := run (Scenario.started []) events in
  httpServer g = false /\ sseClients g = ∅ /\ Forall local_action (trace g).
Proof.
  exact (stdio_mode_is_private (RT := Scenario.runtime) 0 1000 (map js []) _
           eq_refl eq_refl).
Defined.

(** * Listeners that wait: the two readings agree *)

Section Splitting.
Context {RT : Runtime}.

Implicit Types (g : gateway) (mcpTools : option (gmap jsstring (member world))).
Implicit Types (tools : gmap jsstring (member world)).
Implicit Types (line : jsstring) (lines : list jsstring).

Lemma invoke_split r key (h : handler world) toolArgs g :
  invoke r key h toolArgs g
  = match invoke_begin r key h toolArgs g with
    | (Normal outcome, g') => (outcome, g')
    | (Throw e, g') => (Throw e, g')
    end.
Proof.
  unfold invoke, invoke_begin, bind, act, modify.
  by destruct (h toolArgs _) as [[v|e] w].
Qed.

Lemma invoke_begin_returns r key (h : handler world) toolArgs g :
  invoke_begin r key h toolArgs g
  = (Normal (h toolArgs (engine g)).1,
     extend g (h toolArgs (engine g)).2 [Invoke r key toolArgs]).
Proof.
  unfold invoke_begin, bind, act, modify, extend. cbn [engine set_trace].
  by destruct (h toolArgs (engine g)) as [c w].
Qed.

(** The lookup up to the await is the specification's [resolve]. *)
Lemma call_tool_begin_resolve mcpTools toolName toolArgs key g :
  ToString toolName = Normal key ->
  call_tool_begin mcpTools toolName toolArgs g =
  match resolve mcpTools key with
  | Some (r, h) =>
      (Normal (Some (h toolArgs (engine g)).1),
       extend g (h toolArgs (engine g)).2 [Invoke r key toolArgs])
  | None => (Normal None, g)
  end.
Proof.
  intros Hkey.
  assert (forall r h,
            (outcome <- invoke_begin r key h toolArgs ;; ret (Some outcome)) g =
            (Normal (Some (h toolArgs (engine g)).1),
             extend g (h toolArgs (engine g)).2 [Invoke r key toolArgs])) as Hinv.
  { intros r h. unfold bind at 1. by rewrite invoke_begin_returns. }
  assert (try_daa_begin toolName toolArgs g =
          match function_member daaMcpTools_linked key with
          | Some h => (outcome <- invoke_begin Secondary key h toolArgs ;;
                       ret (Some outcome)) g
          | None => (Normal None, g)
          end) as Hdaa.
  { unfold try_daa_begin, bind at 1, lift. rewrite Hkey.
    by destruct (function_member daaMcpTools_linked key). }
  unfold call_tool_begin, resolve. destruct mcpTools as [tools|]; simpl.
  - unfold bind at 1, lift. rewrite Hkey.
    destruct (function_member tools key) as [h|]; [apply Hinv|].
    rewrite Hdaa. destruct (function_member daaMcpTools_linked key); [apply Hinv|done].
  - rewrite Hdaa. destruct (function_member daaMcpTools_linked key); [apply Hinv|done].
Qed.

(** The dispatcher is its two halves, one run after the other. *)
Lemma handleMcpRequest_split request mcpTools g :
  handleMcpRequest request mcpTools g
  = (outcome <- handleMcpRequest_begin request mcpTools ;;
     match outcome with
     | inl response => ret response
     | inr c => handleMcpRequest_resume c
     end) g.
Proof.
  unfold handleMcpRequest, handleMcpRequest_begin.
  unfold bind, lift, try_catch, ret; cbv beta iota zeta.
  destruct (Get request (js "id")) as [i|e]; [|done].
  set (response := Response (js "2.0") i None None).
  destruct (Get request (js "method")) as [method|e] eqn:Hmethod.
  2:{ unfold switch_method, bind, lift. by rewrite Hmethod. }
  destruct (strict_equals_string method (js "tools/call")) eqn:Hcall.
  2:{ by destruct (switch_method response request mcpTools g) as [[r|e] g']. }
  apply strict_equals_string_true in Hcall as ->.
  unfold switch_method, tools_call_case, tools_call_case_begin.
  unfold bind, lift, try_catch, ret; cbv beta iota zeta. rewrite Hmethod.
  replace (strict_equals_string (VStr (js "tools/call")) (js "initialize")) with false
    by (by vm_compute).
  replace (strict_equals_string (VStr (js "tools/call")) (js "tools/list")) with false
    by (by vm_compute).
  replace (strict_equals_string (VStr (js "tools/call")) (js "tools/call")) with true
    by (by vm_compute).
  cbv beta iota zeta.
  destruct (Get request (js "params")) as [params|e]; [|done].
  destruct (Get params (js "name")) as [toolName|e]; [|done].
  destruct (Get params (js "arguments")) as [arguments|e]; [|done].
  set (toolArgs := if ToBoolean arguments then arguments else VObj []).
  destruct (ToString toolName) as [key|e] eqn:Hkey.
  2:{ assert (call_tool mcpTools toolName toolArgs g = (Throw e, g)) as ->.
      { unfold call_tool, try_daa, bind, lift. rewrite Hkey.
        by destruct mcpTools. }
      assert (call_tool_begin mcpTools toolName toolArgs g = (Throw e, g)) as ->.
      { unfold call_tool_begin, try_daa_begin, bind, lift. rewrite Hkey.
        by destruct mcpTools. }
      done. }
  rewrite (call_tool_resolve _ _ _ _ _ Hkey),
    (call_tool_begin_resolve _ _ _ _ _ Hkey).
  destruct (resolve mcpTools key) as [[r h]|].
  - unfold handleMcpRequest_resume, try_catch, bind, lift, ret.
    cbn [call_outcome call_response call_toolName call_toolArgs].
    by destruct (h toolArgs (engine g)) as [[v|e] w].
  - by destruct (result_case response toolName toolArgs VNull g) as [[r|e] g'].
Qed.

(** The body of the loop is its two halves. *)
Lemma handle_line_split tools line g :
  handle_line tools line g
  = (waits <- handle_line_begin tools line ;;
     match waits with
     | Some (n, request, c) => handle_line_resume n c
     | None => ret tt
     end) g.
Proof.
  unfold handle_line, handle_line_begin.
  destruct (is_candidate line); [|done].
  unfold bind, lift, try_catch, ret, gets, act, modify; cbv beta iota zeta.
  destruct (JSON_parse line) as [request|e]; [|done].
  destruct (Get request (js "method")) as [method|e]; [|done].
  rewrite handleMcpRequest_split. unfold bind, ret; cbv beta iota zeta.
  by destruct (handleMcpRequest_begin request (Some tools) _) as [[[r|c]|e] g2].
Qed.

(** The loop is the loop that waits, when every tool settles at once. *)
Lemma handle_lines_split tools lines g :
  handle_lines tools lines g
  = (waits <- handle_lines_begin tools lines ;;
     match waits with
     | Some t => resume_at_once t
     | None => ret tt
     end) g.
Proof.
  revert g. induction lines as [|line rest IH]; intros g; [done|].
  cbn [handle_lines handle_lines_begin].
  change ((handle_line tools line ;;; handle_lines tools rest) g)
    with (match handle_line tools line g with
          | (Normal _, g') => handle_lines tools rest g'
          | (Throw e, g') => (Throw e, g')
          end).
  rewrite handle_line_split. unfold bind, ret; cbv beta iota zeta.
  destruct (handle_line_begin tools line g) as [[[[[n request] c]|]|e] g1]; try done.
Qed.

Lemma tools_call_route_split c body g :
  tools_call_route c body g
  = (waits <- tools_call_route_begin c body ;;
     match waits with
     | Some t => resume_at_once t
     | None => ret tt
     end) g.
Proof.
  unfold tools_call_route, tools_call_route_begin.
  unfold bind, lift, try_catch, ret; cbv beta iota zeta.
  destruct (JSON_parse body) as [parsed|e];
    [|by destruct (reply c 400 _ g) as [[[]|e'] g']].
  destruct (destructure parsed) as [[name args]|e];
    [|by destruct (reply c 400 _ g) as [[[]|e'] g']].
  rewrite handleMcpRequest_split. unfold bind, ret; cbv beta iota zeta.
  destruct (handleMcpRequest_begin _ (Some initializeSystem) g) as [[[r|pending]|e] g1].
  - unfold tools_call_route_end, bind, gets; cbv beta iota zeta.
    destruct (emit _ _ g1) as [[b|e] g2]; [|done].
    by destruct (reply c 200 _ g2) as [[[]|e'] g'].
  - cbn [resume_at_once]. unfold tools_call_route_resume, try_catch, bind.
    cbv beta iota zeta.
    by destruct (handleMcpRequest_resume pending g1) as [[r|e] g2].
  - by destruct (reply c 400 _ g1) as [[[]|e'] g'].
Qed.

Lemma requestListener_split c (method pathname body : jsstring) g :
  requestListener c method pathname body g
  = (waits <- requestListener_begin c method pathname body ;;
     match waits with
     | Some t => resume_at_once t
     | None => ret tt
     end) g.
Proof.
  assert (forall (m : M unit) g0,
            m g0 = (waits <- (m ;;; ret None) ;;
                    match waits with
                    | Some t => resume_at_once t
                    | None => ret tt
                    end) g0) as Hthrough.
  { intros m g0. unfold bind, ret. by destruct (m g0) as [[[]|e] g']. }
  unfold requestListener_begin.
  destruct (jsstring_eqb method (js "OPTIONS")) eqn:Hoptions.
  { rewrite <- Hthrough. unfold requestListener. by rewrite Hoptions. }
  destruct (jsstring_eqb pathname (js "/api/tools/call")) eqn:Hcall.
  { apply bool_decide_eq_true in Hcall as ->. unfold requestListener. rewrite Hoptions.
    replace (jsstring_eqb (js "/api/tools/call") (js "/health")) with false
      by (by vm_compute).
    replace (jsstring_eqb (js "/api/tools/call") (js "/events")) with false
      by (by vm_compute).
    replace (jsstring_eqb (js "/api/tools/call") (js "/api/tools/list")) with false
      by (by vm_compute).
    replace (jsstring_eqb (js "/api/tools/call") (js "/api/tools/call")) with true
      by (by vm_compute).
    destruct (negb (jsstring_eqb method (js "POST"))); [by rewrite <- Hthrough|].
    apply tools_call_route_split. }
  destruct (jsstring_eqb pathname (js "/api/status")) eqn:Hstatus;
    [|by rewrite <- Hthrough].
  apply bool_decide_eq_true in Hstatus as ->. unfold requestListener. rewrite Hoptions.
  replace (jsstring_eqb (js "/api/status") (js "/health")) with false
    by (by vm_compute).
  replace (jsstring_eqb (js "/api/status") (js "/events")) with false
    by (by vm_compute).
  replace (jsstring_eqb (js "/api/status") (js "/api/tools/list")) with false
    by (by vm_compute).
  replace (jsstring_eqb (js "/api/status") (js "/api/tools/call")) with false
    by (by vm_compute).
  replace (jsstring_eqb (js "/api/status") (js "/api/status")) with true
    by (by vm_compute).
  destruct (function_member initializeSystem (js "swarm_status")) as [h|]; [|done].
  unfold bind; cbv beta iota zeta. rewrite invoke_split.
  by destruct (invoke_begin Primary (js "swarm_status") h _ g) as [[[v|e]|e] g1].
Qed.

(** The synchronous reading is one of the schedules: the listener that
    [step] runs is the listener that waits, with every tool it calls
    settling at once. *)
Lemma dispatch_split e g0 g :
  dispatch e g0 g
  = (waits <- begin e g0 ;;
     match waits with
     | Some t => resume_at_once t
     | None => ret tt
     end) g.
Proof.
  assert (forall (m : M unit) g1,
            m g1 = (waits <- (m ;;; ret None) ;;
                    match waits with
                    | Some t => resume_at_once t
                    | None => ret tt
                    end) g1) as Hthrough.
  { intros m g1. unfold bind, ret. by destruct (m g1) as [[[]|err] g']. }
  destruct e; cbn [begin]; try apply Hthrough.
  - cbn [dispatch]. destruct (stdinListeners g0); [|done].
    unfold on_data, on_data_begin, bind, gets; cbv beta iota zeta.
    destruct (frame (buffer g) chunk) as [lines b'].
    unfold modify; cbv beta iota zeta. rewrite handle_lines_split. by unfold bind.
  - cbn [dispatch]. destruct (httpServer g0); [|done]. apply requestListener_split.
Qed.

End Splitting.

(** * Listeners that wait: the stdio session *)

Section Waiting.
Context {RT : Runtime}.

Implicit Types (g : gateway) (mcpTools : option (gmap jsstring (member world))).
Implicit Types (tools : gmap jsstring (member world)).
Implicit Types (line : jsstring) (lines : list jsstring) (t : list action).
Implicit Types (tasks : list task) (p : process) (m n : N).

(** ** The dispatcher's halves *)

Lemma dispatched_invoke_begin r key (h : handler world) toolArgs :
  changes dispatched (invoke_begin r key h toolArgs).
Proof.
  intros g c g'. rewrite invoke_begin_returns. intros [= _ <-].
  eexists _, _. split; [done|]. by repeat constructor.
Qed.

Lemma dispatched_call_tool_begin mcpTools toolName toolArgs :
  changes dispatched (call_tool_begin mcpTools toolName toolArgs).
Proof.
  unfold call_tool_begin, try_daa_begin.
  repeat first [apply dispatched_invoke_begin | changes_step].
Qed.

Lemma dispatched_handleMcpRequest_begin request mcpTools :
  changes dispatched (handleMcpRequest_begin request mcpTools).
Proof.
  unfold handleMcpRequest_begin, tools_call_case_begin.
  repeat first
    [ apply dispatched_call_tool_begin | apply dispatched_result_case
    | apply dispatched_switch_method | changes_step ].
Qed.

Lemma returns_bind_with {A B} (Q : A -> Prop) (P : B -> Prop) (m : M A)
    (k : A -> M B) :
  returns Q m -> (forall a, Q a -> returns P (k a)) -> returns P (bind m k).
Proof.
  intros Hm Hk g b g'. unfold bind. destruct (m g) as [[a|e] g1] eqn:Hg; [|done].
  apply Hk. by eapply Hm.
Qed.

Lemma result_case_keeps_id response toolName toolArgs result :
  returns (fun r => response_id r = response_id response)
    (result_case response toolName toolArgs result).
Proof.
  unfold result_case.
  repeat first
    [ apply returns_bind; intros ?
    | by apply returns_ret
    | match goal with
      | |- returns _ (if ?b then _ else _) => destruct b
      | |- returns _ (match ?x with _ => _ end) => destruct x
      end ].
Qed.

(** Up to the await the dispatcher does not throw on a request whose [id]
    can be read, and what it returns, a response or a call, carries that
    id. *)
Lemma handleMcpRequest_begin_responds request mcpTools g i :
  Get request (js "id") = Normal i ->
  exists outcome w t,
    handleMcpRequest_begin request mcpTools g = (Normal outcome, extend g w t)
    /\ Forall quiet t
    /\ match outcome with
       | inl r => response_id r = i
       | inr c => response_id (call_response c) = i
       end.
Proof.
  intros Hid.
  assert (exists outcome g',
            handleMcpRequest_begin request mcpTools g = (Normal outcome, g')
            /\ match outcome with
               | inl r => response_id r = i
               | inr c => response_id (call_response c) = i
               end) as (outcome & g' & Hrun & Hout).
  { unfold handleMcpRequest_begin, bind at 1, lift at 1. rewrite Hid.
    set (response := Response (js "2.0") i None None).
    unfold try_catch.
    match goal with |- context [match ?m g with _ => _ end] =>
      assert (returns (fun outcome => match outcome with
                                      | inl r => response_id r = i
                                      | inr c => response_id (call_response c) = i
                                      end) m) as Hreturns;
      [|destruct (m g) as [[outcome|e] g1] eqn:Hm]
    end.
    - unfold tools_call_case_begin.
      repeat first
        [ eapply returns_bind_with;
          [apply result_case_keeps_id | intros ? ?; by apply returns_ret]
        | eapply returns_bind_with;
          [apply switch_method_keeps_id | intros ? [? _]; by apply returns_ret]
        | apply returns_bind; intros ?
        | by apply returns_ret
        | match goal with
          | |- returns _ (if ?b then _ else _) => destruct b
          | |- returns _ (match ?x with _ => _ end) => destruct x
          end ].
    - exists outcome, g1. split; [done|]. by eapply Hreturns.
    - by eexists _, g1. }
  pose proof (dispatched_handleMcpRequest_begin _ _ _ _ _ Hrun) as (w & t & -> & Ht).
  by exists outcome, w, t.
Qed.

(** From the settlement on the dispatcher returns a response with the id
    of the call, and all it does is publish. *)
Lemma handleMcpRequest_resume_responds (c : call) g :
  exists r t,
    handleMcpRequest_resume c g = (Normal r, extend g (engine g) t)
    /\ Forall publication t
    /\ response_id r = response_id (call_response c).
Proof.
  unfold handleMcpRequest_resume, try_catch, bind, lift.
  destruct (call_outcome c) as [result|e].
  2:{ exists (with_error (call_response c) (internal_error e)), [].
      by rewrite extend_id. }
  destruct (result_case (call_response c) (call_toolName c) (call_toolArgs c) result g)
    as [[r|e] g'] eqn:Hrun.
  - pose proof (published_result_case _ _ _ _ _ _ _ Hrun) as (t & -> & Ht).
    exists r, t. split; [done|]. split; [done|].
    by eapply result_case_keeps_id.
  - pose proof (published_result_case _ _ _ _ _ _ _ Hrun) as (t & -> & Ht).
    exists (with_error (call_response c) (internal_error e)), t. by unfold ret.
Qed.

(** ** Records *)

Lemma records_app m t t' : records m (t ++ t') = records m t ++ records m t'.
Proof. apply List.filter_app. Qed.

Lemma records_off_stdio m t : Forall off_stdio t -> records m t = [].
Proof. induction 1 as [|a t Ha _ IH]; [done|]. by destruct a. Qed.

Lemma records_quiet m t : Forall quiet t -> records m t = [].
Proof.
  intros Ht. apply records_off_stdio. eapply Forall_impl; [done|].
  apply quiet_off_stdio.
Qed.

Lemma records_same m (a : action) t :
  message_number a = Some m -> records m (a :: t) = a :: records m t.
Proof. intros Ha. unfold records. cbn [List.filter]. by rewrite bool_decide_eq_true_2. Qed.

Lemma records_other m (a : action) t :
  message_number a <> Some m -> records m (a :: t) = records m t.
Proof. intros Ha. unfold records. cbn [List.filter]. by rewrite bool_decide_eq_false_2. Qed.

Lemma records_elem m (a : action) t :
  a ∈ t -> message_number a = Some m -> a ∈ records m t.
Proof.
  intros Hin Ha. apply list_elem_of_In, List.filter_In. split.
  - by apply list_elem_of_In.
  - by apply bool_decide_eq_true.
Qed.

Lemma elem_records m (a : action) t :
  a ∈ records m t -> a ∈ t /\ message_number a = Some m.
Proof.
  intros Hin. apply list_elem_of_In, List.filter_In in Hin as [Hin Ha].
  split; [by apply list_elem_of_In | by apply bool_decide_eq_true in Ha].
Qed.

Lemma taken_app t t' : taken (t ++ t') = taken t ++ taken t'.
Proof. apply omap_app. Qed.

Lemma taken_off_stdio t : Forall off_stdio t -> taken t = [].
Proof. induction 1 as [|a t Ha _ IH]; [done|]. by destruct a. Qed.

Lemma taken_quiet t : Forall quiet t -> taken t = [].
Proof.
  intros Ht. apply taken_off_stdio. eapply Forall_impl; [done|].
  apply quiet_off_stdio.
Qed.

Lemma publication_quiet (a : action) : publication a -> quiet a.
Proof. by destruct a. Qed.

Ltac records_of_block :=
  repeat first
    [ rewrite records_app
    | rewrite records_same by done
    | rewrite records_other by (cbn; congruence)
    | match goal with
      | H : Forall quiet ?t |- context [records ?m ?t] => rewrite (records_quiet m t H)
      end
    | rewrite app_nil_r
    | rewrite app_nil_l ];
  cbn [app].

(** ** The body of the loop, in its two halves *)

(** Up to the await: the line is counted and taken; then it is rejected,
    or answered without a call, or the listener waits for a call with the
    request parsed and on record. *)
Lemma handle_line_begin_effect tools line g :
  is_candidate line = true ->
  let n := (messageCount g + 1)%N in
  exists waits w t,
    handle_line_begin tools line g
    = (Normal waits, extend (set_messageCount n g) w t)
    /\ (forall m, m <> n -> records m t = [])
    /\ taken t = [line]
    /\ match waits with
       | None =>
           rejected n line (records n t)
           \/ exists request,
                JSON_parse line = Normal request
                /\ answered n line request (records n t)
       | Some (n', request, c) =>
           n' = n
           /\ records n t = [Message n line; LogMcpIn n request]
           /\ JSON_parse line = Normal request
           /\ Get request (js "id") = Normal (response_id (call_response c))
       end.
Proof.
  intros Hcand n. unfold handle_line_begin. rewrite Hcand.
  unfold bind at 1, modify at 1. unfold bind at 1, gets at 1.
  unfold bind at 1, act at 1, modify at 1. unfold try_catch, bind at 1, lift at 1.
  cbn [messageCount set_messageCount set_trace trace]. fold n.
  assert (forall e,
            JSON_parse line = Throw e
            \/ (exists request, JSON_parse line = Normal request
                               /\ Get request (js "method") = Throw e) ->
            exists waits w t,
              (act (LogError n e) ;;;
               act (Stdout n (WResponse (errorResponse e))) ;;; ret None)
                (set_trace (trace g ++ [Message n line]) (set_messageCount n g))
              = (Normal waits, extend (set_messageCount n g) w t)
              /\ (forall m, m <> n -> records m t = [])
              /\ taken t = [line]
              /\ match waits with
                 | None =>
                     rejected n line (records n t)
                     \/ exists request,
                          JSON_parse line = Normal request
                          /\ answered n line request (records n t)
                 | Some (n', request, c) =>
                     n' = n
                     /\ records n t = [Message n line; LogMcpIn n request]
                     /\ JSON_parse line = Normal request
                     /\ Get request (js "id") = Normal (response_id (call_response c))
                 end) as Hrejected.
  { intros e He.
    exists None, (engine g),
      [Message n line; LogError n e; Stdout n (WResponse (errorResponse e))].
    repeat apply conj.
    - unfold bind, act, modify, ret, extend. destruct g; cbn.
      by rewrite <- !app_assoc.
    - intros m Hm. by records_of_block.
    - done.
    - left. exists e. split; [by records_of_block | done]. }
  destruct (JSON_parse line) as [request|e] eqn:Hparse; [|apply Hrejected; by left].
  unfold bind at 1, lift at 1.
  destruct (Get request (js "method")) as [method|e] eqn:Hmethod.
  2:{ apply Hrejected. right. by exists request. }
  destruct (Get_normal _ _ (js "id") _ Hmethod) as [i Hid].
  unfold bind at 1, act at 1, modify at 1. unfold bind at 1.
  match goal with |- context [handleMcpRequest_begin request (Some tools) ?g0] =>
    destruct (handleMcpRequest_begin_responds request (Some tools) g0 i Hid)
      as (outcome & w & t & -> & Ht & Hout)
  end.
  destruct outcome as [r|c].
  - exists None, w, ([Message n line; LogMcpIn n request] ++ t
                     ++ [LogMcpOut n r; Stdout n (WResponse r)]).
    repeat apply conj.
    + unfold bind, act, modify, ret, extend. destruct g; cbn.
      by rewrite <- !app_assoc.
    + intros m Hm. cbn [app]. by records_of_block.
    + cbn [app]. change (taken (Message n line :: LogMcpIn n request :: ?l))
        with (line :: taken l). by rewrite taken_app, (taken_quiet _ Ht).
    + right. exists request. split; [done|]. exists r.
      split; [cbn [app]; by records_of_block | by rewrite Hout].
  - exists (Some (n, request, c)), w, ([Message n line; LogMcpIn n request] ++ t).
    repeat apply conj; try done.
    + unfold ret, extend. destruct g; cbn. by rewrite <- !app_assoc.
    + intros m Hm. cbn [app]. by records_of_block.
    + cbn [app]. change (taken (Message n line :: LogMcpIn n request :: ?l))
        with (line :: taken l). by rewrite (taken_quiet _ Ht).
    + cbn [app]. by records_of_block.
    + by rewrite Hout.
Qed.

(** From the settlement on: what the dispatcher publishes, then the
    response on record and on stdout. *)
Lemma handle_line_resume_effect n (c : call) g :
  exists r t,
    handle_line_resume n c g
    = (Normal tt,
       extend g (engine g) (t ++ [LogMcpOut n r; Stdout n (WResponse r)]))
    /\ Forall publication t
    /\ response_id r = response_id (call_response c).
Proof.
  unfold handle_line_resume, try_catch, bind at 1.
  destruct (handleMcpRequest_resume_responds c g) as (r & t & -> & Ht & Hid).
  exists r, t. split; [|done].
  unfold bind, act, modify, extend. destruct g; cbn. by rewrite <- !app_assoc.
Qed.

(** ** The session stays in order *)

Lemma awaited_app tasks tasks' :
  awaited (tasks ++ tasks') = awaited tasks ++ awaited tasks'.
Proof. apply omap_app. Qed.

Lemma held_app tasks tasks' : held (tasks ++ tasks') = held tasks ++ held tasks'.
Proof. unfold held. by rewrite omap_app, concat_app. Qed.

Lemma elem_awaited m tasks :
  m ∈ awaited tasks
  <-> exists tools request c rest, DataTask tools m request c rest ∈ tasks.
Proof.
  unfold awaited. rewrite list_elem_of_omap. split.
  - intros (task & Hin & Hm). destruct task; try done. injection Hm as ->. eauto.
  - intros (tools & request & c & rest & Hin). by eexists (DataTask _ _ _ _ _).
Qed.

(** Whatever leaves the stdio session alone, and neither adds nor removes
    a suspended ['data'] listener, keeps the session in order. *)
Lemma orderly_untouched g tasks g' tasks' :
  orderly (Process g tasks) ->
  stdio_untouched g g' ->
  awaited tasks' = awaited tasks ->
  (forall tools m request c rest,
     DataTask tools m request c rest ∈ tasks' ->
     DataTask tools m request c rest ∈ tasks) ->
  orderly (Process g' tasks').
Proof.
  intros (Hdup & Hnone & Hzero & Htasks & Hdone & Hcount) Hun Hawaited Hsub.
  pose proof (untouched_messages _ _ Hun) as Hmessages.
  destruct Hun as (_ & Hn & Hl & t & Ht & Hoff).
  unfold orderly. cbn [state suspended] in *.
  rewrite Hawaited, Hn, Hl, Ht, Hmessages.
  repeat apply conj; try done.
  - intros m Hm. by rewrite records_app, (records_off_stdio _ _ Hoff), Hnone.
  - by rewrite records_app, (records_off_stdio _ _ Hoff), app_nil_r.
  - intros tools m request c rest Hin. rewrite records_app, (records_off_stdio _ _ Hoff),
      app_nil_r. by eapply Htasks, Hsub.
  - intros m Hm Hfree. rewrite records_app, (records_off_stdio _ _ Hoff), app_nil_r.
    by apply Hdone.
Qed.

(** The numbers of the suspended listeners have been counted. *)
Lemma orderly_awaited_counted g tasks m :
  orderly (Process g tasks) -> m ∈ awaited tasks -> (1 <= m <= messageCount g)%N.
Proof.
  intros (_ & Hnone & Hzero & Htasks & _) Hm. cbn [state suspended] in *.
  apply elem_awaited in Hm as (tools & request & c & rest & Hin).
  destruct (Htasks _ _ _ _ _ Hin) as (line & Hrecords & _).
  split.
  - destruct (decide (m = 0%N)) as [->|]; [|lia].
    rewrite Hzero in Hrecords. by destruct (stdinListeners g).
  - destruct (decide (messageCount g < m)%N) as [Hlt|]; [|lia].
    by rewrite (Hnone _ Hlt) in Hrecords.
Qed.

(** A line is taken: the session is in order again, whether the line was
    dealt with or the listener now waits at it. *)
Lemma orderly_taken tools line (rest : list jsstring) g tasks g' t
    (waits : option (N * value * call)) :
  orderly (Process g tasks) ->
  let n := (messageCount g + 1)%N in
  trace g' = trace g ++ t ->
  messageCount g' = n ->
  stdinListeners g' = stdinListeners g ->
  (forall m, m <> n -> records m t = []) ->
  taken t = [line] ->
  match waits with
  | None =>
      rejected n line (records n t)
      \/ exists request,
           JSON_parse line = Normal request
           /\ answered n line request (records n t)
  | Some (n', request, c) =>
      n' = n
      /\ records n t = [Message n line; LogMcpIn n request]
      /\ JSON_parse line = Normal request
      /\ Get request (js "id") = Normal (response_id (call_response c))
  end ->
  orderly (Process g'
             match waits with
             | None => tasks
             | Some (n', request, c) => tasks ++ [DataTask tools n' request c rest]
             end).
Proof.
  intros Horderly n Ht Hn Hl Hothers Htaken Hwaits.
  pose proof (fun m => orderly_awaited_counted g tasks m Horderly) as Hcounted.
  destruct Horderly as (Hdup & Hnone & Hzero & Htasks & Hdone & Hcount).
  cbn [state suspended] in *.
  assert (records n (trace g) = []) as Hfresh by (apply Hnone; lia).
  assert (n ∉ awaited tasks) as Hfree by (intros Hin; apply Hcounted in Hin; lia).
  assert (messageCount g' = N.of_nat (length (messages g'))) as Hcount'.
  { change (messages g') with (taken (trace g')).
    rewrite Ht, taken_app, Htaken, length_app.
    change (taken (trace g)) with (messages g). cbn [length]. rewrite Hn. unfold n.
    lia. }
  assert (forall m, m <> n -> records m (trace g') = records m (trace g)) as Hsame.
  { intros m Hm. by rewrite Ht, records_app, Hothers, app_nil_r. }
  assert (records n (trace g') = records n t) as Hnew
    by (by rewrite Ht, records_app, Hfresh).
  unfold orderly. cbn [state suspended]. rewrite Hl.
  destruct waits as [[[n' request] c]|].
  - destruct Hwaits as (-> & Hrecords & Hparse & Hid).
    rewrite awaited_app. cbn [awaited omap list_omap app].
    repeat apply conj; try done.
    + apply NoDup_app. repeat apply conj; [done| |apply NoDup_singleton].
      intros m Hm Hin. apply list_elem_of_singleton in Hin as ->. done.
    + intros m Hm. rewrite Hsame by lia. apply Hnone. lia.
    + rewrite Hsame by lia. done.
    + intros tools' m request' c' rest' Hin.
      apply elem_of_app in Hin as [Hin|Hin].
      * assert (m <> n) as Hm.
        { intros ->. apply Hfree, elem_awaited. eauto. }
        rewrite Hsame by done. by eapply Htasks.
      * apply list_elem_of_singleton in Hin. injection Hin as -> -> -> -> ->.
        exists line. by rewrite Hnew.
    + intros m Hm Hout.
      assert (m <> n) as Hne.
      { intros ->. apply Hout, elem_of_app. right. by apply list_elem_of_singleton. }
      rewrite Hsame by done. apply Hdone; [lia|].
      intros Hin. apply Hout, elem_of_app. by left.
  - repeat apply conj; try done.
    + intros m Hm. rewrite Hsame by lia. apply Hnone. lia.
    + rewrite Hsame by lia. done.
    + intros tools' m request' c' rest' Hin.
      assert (m <> n) as Hm.
      { intros ->. apply Hfree, elem_awaited. eauto. }
      rewrite Hsame by done. by eapply Htasks.
    + intros m Hm Hout. destruct (decide (m = n)) as [->|Hne].
      * exists line. by rewrite Hnew.
      * rewrite Hsame by done. apply Hdone; [lia | done].
Qed.

(** The call of a suspended ['data'] listener settles: its request is
    answered, and the session is in order with that listener gone. *)
Lemma orderly_settled g tasks (k : nat) tools n request (c : call) rest g' t r :
  orderly (Process g tasks) ->
  tasks !! k = Some (DataTask tools n request c rest) ->
  trace g' = trace g ++ t ++ [LogMcpOut n r; Stdout n (WResponse r)] ->
  Forall publication t ->
  response_id r = response_id (call_response c) ->
  messageCount g' = messageCount g ->
  stdinListeners g' = stdinListeners g ->
  orderly (Process g' (delete k tasks))
  /\ (exists line,
        records n (trace g) = [Message n line; LogMcpIn n request]
        /\ JSON_parse line = Normal request
        /\ answered n line request (records n (trace g')))
  /\ n ∉ awaited (delete k tasks).
Proof.
  intros Horderly Hk Ht Hpub Hid Hn Hl.
  pose proof (fun m => orderly_awaited_counted g tasks m Horderly) as Hcounted.
  destruct Horderly as (Hdup & Hnone & Hzero & Htasks & Hdone & Hcount).
  cbn [state suspended] in *.
  assert (Forall quiet t) as Hquiet
    by (eapply Forall_impl; [done | apply publication_quiet]).
  assert (DataTask tools n request c rest ∈ tasks) as Hin
    by (by eapply list_elem_of_lookup_2).
  destruct (Htasks _ _ _ _ _ Hin) as (line & Hrecords & Hparse & Hrid).
  assert (awaited tasks = awaited (take k tasks) ++ n :: awaited (drop (S k) tasks))
    as Hsplit.
  { rewrite <- (take_drop_middle _ _ _ Hk) at 1. by rewrite awaited_app. }
  assert (awaited (delete k tasks)
          = awaited (take k tasks) ++ awaited (drop (S k) tasks)) as Hrest
    by (by rewrite delete_take_drop, awaited_app).
  rewrite Hsplit in Hdup.
  apply NoDup_app in Hdup as (Hdup1 & Hdisjoint & Hdup2).
  apply NoDup_cons in Hdup2 as [Hn2 Hdup2].
  assert (n ∉ awaited (delete k tasks)) as Hgone.
  { rewrite Hrest. intros [H1|H2]%elem_of_app; [|done].
    apply (Hdisjoint _ H1). by left. }
  assert (forall m, m ∈ awaited tasks <-> m = n \/ m ∈ awaited (delete k tasks))
    as Hawaited.
  { intros m. rewrite Hsplit, Hrest, !elem_of_app, elem_of_cons. tauto. }
  assert (messages g' = messages g) as Hmessages.
  { change (messages g') with (taken (trace g')).
    rewrite Ht, !taken_app, (taken_quiet _ Hquiet). cbn. by rewrite app_nil_r. }
  assert (forall m, m <> n -> records m (trace g') = records m (trace g)) as Hsame.
  { intros m Hm. rewrite Ht. by records_of_block. }
  assert (records n (trace g')
          = [Message n line; LogMcpIn n request; LogMcpOut n r; Stdout n (WResponse r)])
    as Hnew.
  { rewrite Ht. records_of_block. by rewrite Hrecords. }
  assert (n <> 0%N) as Hn0 by (specialize (Hcounted n); rewrite Hawaited in Hcounted;
                                 lia).
  split; [|split; [|done]].
  - unfold orderly. cbn [state suspended]. rewrite Hn, Hl, Hmessages.
    repeat apply conj; try done.
    + rewrite Hrest. apply NoDup_app. repeat apply conj; [done| |done].
      intros m H1 H2. apply (Hdisjoint _ H1). by right.
    + intros m Hm. rewrite Hsame; [by apply Hnone|].
      intros ->. specialize (Hcounted n). rewrite Hawaited in Hcounted. lia.
    + by rewrite Hsame.
    + intros tools' m request' c' rest' Hin'.
      assert (m <> n) as Hm.
      { intros ->. apply Hgone, elem_awaited. eauto. }
      rewrite Hsame by done. eapply Htasks. by eapply list_elem_of_delete_inv.
    + intros m Hm Hfree. destruct (decide (m = n)) as [->|Hne].
      * exists line. right. exists request. split; [done|]. exists r.
        by rewrite Hnew, Hid.
      * rewrite Hsame by done. apply Hdone; [done|]. rewrite Hawaited. tauto.
  - exists line. split; [done|]. split; [done|]. exists r. by rewrite Hnew, Hid.
Qed.

Lemma awaited_at tasks (k : nat) tools n request (c : call) rest :
  tasks !! k = Some (DataTask tools n request c rest) ->
  held tasks ≡ₚ held (delete k tasks) ++ List.filter is_candidate rest.
Proof.
  intros Hk. rewrite <- (take_drop_middle _ _ _ Hk) at 1.
  rewrite delete_take_drop, !held_app.
  change (held (DataTask tools n request c rest :: drop (S k) tasks))
    with (List.filter is_candidate rest ++ held (drop (S k) tasks)).
  by rewrite (Permutation_app_comm (List.filter is_candidate rest)), app_assoc.
Qed.

(** The loop, from a session in order, until it waits or is through: it
    does not throw, the session is in order again, and every candidate
    line has been taken or is held by the listener that waits. *)
Lemma handle_lines_begin_effect tools lines g tasks :
  orderly (Process g tasks) ->
  exists waits g',
    handle_lines_begin tools lines g = (Normal waits, g')
    /\ orderly (conclude tasks (Normal waits, g'))
    /\ buffer g' = buffer g
    /\ stdinListeners g' = stdinListeners g
    /\ exitCode g' = exitCode g
    /\ (forall m, (m <= messageCount g)%N ->
          records m (trace g') = records m (trace g))
    /\ match waits with
       | Some (RouteTask _ _ _) | Some (StatusTask _ _) => False
       | _ => True
       end
    /\ messages g' ++ held (suspended (conclude tasks (Normal waits, g')))
       ≡ₚ messages g ++ held tasks ++ List.filter is_candidate lines.
Proof.
  revert g. induction lines as [|line rest IH]; intros g Horderly.
  { exists None, g. cbn [handle_lines_begin conclude suspended List.filter].
    split; [done|]. split; [done|]. repeat apply conj; try done.
    by rewrite !app_nil_r. }
  cbn [handle_lines_begin List.filter]. unfold bind at 1.
  destruct (is_candidate line) eqn:Hcand.
  2:{ unfold handle_line_begin. rewrite Hcand. unfold ret at 1. by apply IH. }
  destruct (handle_line_begin_effect tools line g Hcand)
    as (waits & w & t & -> & Hothers & Htaken & Hwaits).
  set (g1 := extend (set_messageCount (messageCount g + 1) g) w t).
  pose proof (orderly_taken tools line rest g tasks g1 t waits Horderly
                eq_refl eq_refl eq_refl Hothers Htaken Hwaits) as Horderly1.
  assert (messages g1 = messages g ++ [line]) as Hmessages.
  { change (messages g1) with (taken (trace g ++ t)). by rewrite taken_app, Htaken. }
  assert (forall m, (m <= messageCount g)%N ->
            records m (trace g1) = records m (trace g)) as Hkept.
  { intros m Hm. change (trace g1) with (trace g ++ t).
    rewrite records_app, Hothers by lia. by rewrite app_nil_r. }
  assert (buffer g1 = buffer g /\ stdinListeners g1 = stdinListeners g
          /\ exitCode g1 = exitCode g /\ messageCount g1 = (messageCount g + 1)%N)
    as (Hb1 & Hl1 & Hexit1 & Hn1) by done.
  clearbody g1.
  destruct waits as [[[n request] c]|].
  - exists (Some (DataTask tools n request c rest)), g1.
    cbn [conclude suspended]. split; [done|]. split; [exact Horderly1|].
    repeat apply conj; try done.
    rewrite Hmessages, held_app.
    change (held [DataTask tools n request c rest])
      with (List.filter is_candidate rest ++ []).
    rewrite app_nil_r. by solve_Permutation.
  - destruct (IH g1 Horderly1)
      as (waits & g' & -> & Horderly' & Hb & Hl & Hexit & Hkept' & Hkind & Hperm).
    exists waits, g'. split; [done|]. split; [exact Horderly'|].
    repeat apply conj; try done; try congruence.
    + intros m Hm. rewrite Hkept' by lia. by apply Hkept.
    + rewrite Hperm, Hmessages. by solve_Permutation.
Qed.

(** A suspended ['data'] listener goes on: its request is answered, and
    the loop takes up the rest of its batch. *)
Lemma resume_data_effect g tasks (k : nat) tools n request (c : call) rest :
  orderly (Process g tasks) ->
  tasks !! k = Some (DataTask tools n request c rest) ->
  exists waits g',
    resume (DataTask tools n request c rest) g = (Normal waits, g')
    /\ orderly (conclude (delete k tasks) (Normal waits, g'))
    /\ buffer g' = buffer g
    /\ stdinListeners g' = stdinListeners g
    /\ exitCode g' = exitCode g
    /\ (exists line,
          records n (trace g) = [Message n line; LogMcpIn n request]
          /\ JSON_parse line = Normal request
          /\ answered n line request (records n (trace g')))
    /\ match waits with
       | Some (RouteTask _ _ _) | Some (StatusTask _ _) => False
       | _ => True
       end
    /\ messages g' ++ held (suspended (conclude (delete k tasks) (Normal waits, g')))
       ≡ₚ messages g ++ held tasks.
Proof.
  intros Horderly Hk. cbn [resume]. unfold bind at 1.
  destruct (handle_line_resume_effect n c g) as (r & t & -> & Ht & Hid).
  set (g1 := extend g (engine g) (t ++ [LogMcpOut n r; Stdout n (WResponse r)])).
  destruct (orderly_settled g tasks k tools n request c rest g1 t r Horderly Hk
              eq_refl Ht Hid eq_refl eq_refl) as (Horderly1 & Hanswered & Hgone).
  pose proof (orderly_awaited_counted g tasks n Horderly) as Hcounted.
  assert (n ∈ awaited tasks) as Hn.
  { apply elem_awaited. do 4 eexists. by eapply list_elem_of_lookup_2. }
  assert (messages g1 = messages g) as Hmessages.
  { change (messages g1)
      with (taken (trace g ++ t ++ [LogMcpOut n r; Stdout n (WResponse r)])).
    rewrite !taken_app, (taken_quiet t); [cbn; by rewrite app_nil_r|].
    eapply Forall_impl; [done | apply publication_quiet]. }
  assert (buffer g1 = buffer g /\ stdinListeners g1 = stdinListeners g
          /\ exitCode g1 = exitCode g /\ messageCount g1 = messageCount g)
    as (Hb1 & Hl1 & Hexit1 & Hn1) by done.
  clearbody g1.
  destruct (handle_lines_begin_effect tools rest g1 (delete k tasks) Horderly1)
    as (waits & g' & -> & Horderly' & Hb & Hl & Hexit & Hkept & Hkind & Hperm).
  exists waits, g'. split; [done|]. split; [exact Horderly'|].
  repeat apply conj; try done; try congruence.
  - destruct Hanswered as (line & Hrecords & Hparse & Hanswered). exists line.
    split; [done|]. split; [done|]. rewrite Hkept; [done|]. rewrite Hn1.
    by apply Hcounted.
  - rewrite Hperm, Hmessages, (awaited_at _ _ _ _ _ _ _ Hk). by solve_Permutation.
Qed.

(** ** The other listeners *)

Lemma dispatched_handleMcpRequest_resume (c : call) :
  changes dispatched (handleMcpRequest_resume c).
Proof.
  unfold handleMcpRequest_resume.
  repeat first [apply dispatched_result_case | changes_step].
Qed.

Ltac untouched_begin_step :=
  first
    [ apply register_listeners_untouched
    | eapply changes_weaken;
      [ apply dispatched_stdio_untouched
      | first [ apply dispatched_handleMcpRequest_begin
              | apply dispatched_handleMcpRequest_resume
              | apply dispatched_invoke_begin ] ]
    | untouched_step ].

Lemma requestListener_begin_untouched (c : conn) (method pathname body : jsstring) :
  changes stdio_untouched (requestListener_begin c method pathname body).
Proof.
  unfold requestListener_begin, tools_call_route_begin, tools_call_route_end,
    requestListener, events_route, tools_call_route, reply.
  repeat untouched_begin_step.
Qed.

Lemma begin_untouched e g0 :
  (forall chunk, e <> StdinData chunk) -> changes stdio_untouched (begin e g0).
Proof.
  intros Hne.
  assert (changes stdio_untouched (dispatch e g0 ;;; ret None (A := option task)))
    as Hthrough.
  { changes_step; [by apply dispatch_untouched | by changes_step]. }
  destruct e; try done; cbn [begin].
  - by destruct (Hne chunk).
  - destruct (httpServer g0); [|by changes_step].
    apply requestListener_begin_untouched.
Qed.

Lemma resume_untouched (t : task) :
  match t with DataTask _ _ _ _ _ => False | _ => True end ->
  changes stdio_untouched (resume t).
Proof.
  destruct t; [done|..]; intros _; cbn [resume];
    unfold tools_call_route_resume, tools_call_route_end, reply;
    repeat untouched_begin_step.
Qed.

Lemma requestListener_begin_kind (c : conn) (method pathname body : jsstring) :
  returns no_data_task (requestListener_begin c method pathname body).
Proof.
  unfold requestListener_begin, tools_call_route_begin.
  repeat first
    [ apply returns_try_catch; [|intros ?]
    | apply returns_bind; intros ?
    | by apply returns_ret
    | match goal with
      | |- returns _ (if ?b then _ else _) => destruct b
      | |- returns _ (match ?x with _ => _ end) => destruct x
      | |- returns _ (let '(_, _) := ?x in _) => destruct x
      end ].
  all: by intros g a g'.
Qed.

Lemma begin_kind e g0 :
  (forall chunk, e <> StdinData chunk) -> returns no_data_task (begin e g0).
Proof.
  intros Hne. destruct e; cbn [begin];
    try (apply returns_bind; intros ?; by apply returns_ret).
  - by destruct (Hne chunk).
  - destruct (httpServer g0); [apply requestListener_begin_kind | by apply returns_ret].
Qed.

Lemma resume_kind (t : task) :
  match t with DataTask _ _ _ _ _ => False | _ => True end ->
  returns (fun waits => waits = None) (resume t).
Proof.
  destruct t; [done|..]; intros _; cbn [resume];
    repeat first [apply returns_bind; intros ? | by apply returns_ret].
Qed.

Lemma non_data_at tasks (k : nat) (t : task) :
  tasks !! k = Some t ->
  match t with DataTask _ _ _ _ _ => False | _ => True end ->
  awaited (delete k tasks) = awaited tasks /\ held (delete k tasks) = held tasks.
Proof.
  intros Hk Ht. rewrite <- (take_drop_middle _ _ _ Hk) at 2 4.
  rewrite delete_take_drop, !awaited_app, !held_app. by destruct t.
Qed.

Lemma orderly_exit (status : option Z) g tasks :
  orderly (Process g tasks) -> orderly (Process (set_exitCode status g) tasks).
Proof. done. Qed.

(** ** One occurrence *)

(** What an occurrence does to the stdio session: the session stays in
    order; a chunk of stdin goes through the framer, and its candidate
    lines are taken or held; nothing else takes or holds a line, except
    that a listener that goes on takes lines it held. *)
Lemma advance_effect p (o : occurrence) :
  orderly p ->
  let p' := advance p o in
  let arrived :=
    match o with
    | Deliver (StdinData chunk) =>
        if stdinListeners (state p) then frame (buffer (state p)) chunk
        else ([], buffer (state p))
    | _ => ([], buffer (state p))
    end in
  orderly p'
  /\ stdinListeners (state p') = stdinListeners (state p)
  /\ (exitCode (state p) = None ->
      buffer (state p') = arrived.2
      /\ messages (state p') ++ held (suspended p')
         ≡ₚ messages (state p) ++ held (suspended p)
            ++ List.filter is_candidate arrived.1).
Proof.
  intros Horderly. destruct p as [g tasks]. unfold advance. cbn [state suspended].
  destruct (exitCode g) as [status|] eqn:Hexit.
  { split; [done|]. split; [done|]. by intros [=]. }
  assert (forall (m : M (option task)) tasks0,
            changes stdio_untouched m -> returns (fun waits => no_data_task waits) m ->
            awaited tasks0 = awaited tasks -> held tasks0 = held tasks ->
            (forall tools n request c rest,
               DataTask tools n request c rest ∈ tasks0 ->
               DataTask tools n request c rest ∈ tasks) ->
            let p' := conclude tasks0 (m g) in
            orderly p'
            /\ stdinListeners (state p') = stdinListeners g
            /\ (None = None (A := Z) ->
                buffer (state p') = buffer g
                /\ messages (state p') ++ held (suspended p')
                   ≡ₚ messages g ++ held tasks ++ [])) as Hother.
  { intros m tasks0 Hun Hkind Hawaited Hheld Hsub.
    destruct (m g) as [[waits|err] g'] eqn:Hm.
    - pose proof (Hun _ _ _ Hm) as Hg. pose proof (untouched_messages _ _ Hg) as Hmsg.
      apply Hkind in Hm.
      assert (let tasks' := suspended (conclude tasks0 (Normal waits, g')) in
              awaited tasks' = awaited tasks /\ held tasks' = held tasks
              /\ forall tools n request c rest,
                   DataTask tools n request c rest ∈ tasks' ->
                   DataTask tools n request c rest ∈ tasks)
        as (Hawaited' & Hheld' & Hsub').
      { destruct waits as [[]|]; try done; cbn [conclude suspended];
          rewrite awaited_app, held_app, Hawaited, Hheld;
          (repeat apply conj; [by rewrite app_nil_r | by rewrite app_nil_r |]);
          intros tools n request c' rest' [Hin|Hin]%elem_of_app;
          (by apply Hsub) || by apply list_elem_of_singleton in Hin. }
      assert (state (conclude tasks0 (Normal waits, g')) = g') as Hstate
        by (by destruct waits).
      cbv zeta. rewrite Hheld'.
      destruct (conclude tasks0 (Normal waits, g')) as [g'' tasks''].
      cbn [state suspended] in *. subst g''. rewrite Hmsg, app_nil_r.
      split; [by apply (orderly_untouched g tasks)|].
      destruct Hg as (Hb & Hn & Hl & Ht). by repeat apply conj.
    - pose proof (Hun _ _ _ Hm) as Hg. pose proof (untouched_messages _ _ Hg) as Hmsg.
      cbn [conclude state suspended].
      change (messages (set_exitCode (Some 1%Z) g')) with (messages g').
      rewrite Hmsg, Hheld, app_nil_r.
      split; [apply orderly_exit; by apply (orderly_untouched g tasks)|].
      destruct Hg as (Hb & Hn & Hl & Ht). by repeat apply conj. }
  destruct o as [e|c err|k].
  - assert ((exists chunk, e = StdinData chunk) \/ (forall chunk, e <> StdinData chunk))
      as [[chunk ->]|Hne] by (destruct e; eauto).
    2:{ assert (forall chunk', Deliver e <> Deliver (StdinData chunk')) as Hne'
          by congruence.
        destruct e; try by destruct (Hne chunk).
        all: apply Hother; auto using begin_untouched, begin_kind. }
    unfold begin. destruct (stdinListeners g) eqn:Hlisten.
    2:{ cbn [conclude ret state suspended fst snd List.filter]. rewrite Hlisten.
        split; [done|]. split; [done|]. intros _. by rewrite !app_nil_r. }
    destruct (frame (buffer g) chunk) as [lines b'] eqn:Hframe. cbn [fst snd].
    assert (on_data_begin initializeSystem chunk g
            = handle_lines_begin initializeSystem lines (set_buffer b' g)) as ->.
    { unfold on_data_begin, bind, gets, modify. by rewrite Hframe. }
    destruct (handle_lines_begin_effect initializeSystem lines (set_buffer b' g) tasks)
      as (waits & g' & -> & Horderly' & Hb & Hl & _ & _ & _ & Hperm); [done|].
    split; [done|].
    assert (state (conclude tasks (Normal waits, g')) = g') as ->
      by (by destruct waits as [[]|]).
    split; [by rewrite Hl|]. intros _. split; [by rewrite Hb|exact Hperm].
  - destruct (httpServer g).
    + cbn [state suspended fst snd List.filter]. split; [done|]. split; [done|].
      intros _. by rewrite !app_nil_r.
    + cbn [state suspended fst snd List.filter]. split; [done|]. split; [done|].
      intros _. by rewrite !app_nil_r.
  - destruct (tasks !! k) as [task|] eqn:Hk.
    2:{ cbn [state suspended fst snd List.filter].
        split; [done|]. split; [done|]. intros _. by rewrite !app_nil_r. }
    destruct task as [tools n request c rest|res name c|res outcome].
    + destruct (resume_data_effect g tasks k tools n request c rest Horderly Hk)
        as (waits & g' & -> & Horderly' & Hb & Hl & _ & _ & _ & Hperm).
      split; [done|].
      assert (state (conclude (delete k tasks) (Normal waits, g')) = g') as ->
        by (by destruct waits as [[]|]).
      cbn [fst snd List.filter]. rewrite !app_nil_r.
      split; [by rewrite Hl|]. intros _. split; [by rewrite Hb|exact Hperm].
    + destruct (non_data_at _ _ _ Hk I) as [Hawaited Hheld].
      apply Hother; auto using resume_untouched.
      * intros g0 waits g1 Hr. apply (resume_kind (RouteTask res name c) I) in Hr.
        by subst waits.
      * intros ? ? ? ? ? ?. by eapply list_elem_of_delete_inv.
    + destruct (non_data_at _ _ _ Hk I) as [Hawaited Hheld].
      apply Hother; auto using resume_untouched.
      * intros g0 waits g1 Hr. apply (resume_kind (StatusTask res outcome) I) in Hr.
        by subst waits.
      * intros ? ? ? ? ? ?. by eapply list_elem_of_delete_inv.
Qed.

End Waiting.

(** * The process over any occurrences *)

Section Playing.
Context {RT : Runtime}.

Implicit Types (p : process) (o : occurrence) (occurrences : list occurrence).

Lemma advance_exited p o : exitCode (state p) <> None -> advance p o = p.
Proof. intros Hexit. unfold advance. by destruct (exitCode (state p)). Qed.

(** A process that has exited stays as it is. *)
Lemma play_exited p occurrences :
  exitCode (state p) <> None -> play p occurrences = p.
Proof.
  intros Hexit. induction occurrences as [|o occurrences IH]; [done|].
  cbn [play foldl]. by rewrite advance_exited.
Qed.

Lemma play_running p occurrences :
  exitCode (state (play p occurrences)) = None -> exitCode (state p) = None.
Proof.
  intros Hrun. destruct (exitCode (state p)) as [status|] eqn:Hexit; [|done].
  rewrite play_exited in Hrun by (by rewrite Hexit). congruence.
Qed.

Lemma play_orderly p occurrences : orderly p -> orderly (play p occurrences).
Proof.
  revert p. induction occurrences as [|o occurrences IH]; intros p Horderly; [done|].
  cbn [play foldl]. apply IH. by destruct (advance_effect p o Horderly) as [? _].
Qed.

Lemma play_listening p occurrences :
  orderly p ->
  stdinListeners (state (play p occurrences)) = stdinListeners (state p).
Proof.
  revert p. induction occurrences as [|o occurrences IH]; intros p Horderly; [done|].
  cbn [play foldl]. destruct (advance_effect p o Horderly) as (Horderly' & Hl & _).
  fold (play (advance p o) occurrences). by rewrite IH.
Qed.

(** Over any occurrences, as long as the process runs: the buffer is the
    framer's, and the framer's candidates have been taken, or are held by
    a listener that waits. *)
Lemma play_framing p occurrences :
  orderly p ->
  stdinListeners (state p) = true ->
  exitCode (state (play p occurrences)) = None ->
  buffer (state (play p occurrences))
  = (frame_all (buffer (state p)) (chunks occurrences)).2
  /\ messages (state (play p occurrences)) ++ held (suspended (play p occurrences))
     ≡ₚ messages (state p) ++ held (suspended p)
        ++ (frame_all (buffer (state p)) (chunks occurrences)).1.
Proof.
  revert p. induction occurrences as [|o occurrences IH]; intros p Horderly Hlisten Hrun.
  { cbn. by rewrite app_nil_r. }
  cbn [play foldl] in *. fold (play (advance p o) occurrences) in *.
  pose proof (play_running _ _ Hrun) as Hrun1.
  assert (exitCode (state p) = None) as Hrun0.
  { destruct (exitCode (state p)) as [status|] eqn:Hexit; [|done].
    rewrite advance_exited in Hrun1 by (by rewrite Hexit). congruence. }
  destruct (advance_effect p o Horderly) as (Horderly' & Hl & Heffect).
  destruct (Heffect Hrun0) as [Hb Hperm]. clear Heffect.
  destruct (IH (advance p o) Horderly') as [-> Hperm']; [congruence | done |].
  rewrite Hperm', app_assoc, Hperm, Hb. clear Hperm' Hperm Hb IH.
  assert ((exists chunk, o = Deliver (StdinData chunk))
          \/ (forall chunk, o <> Deliver (StdinData chunk)))
    as [[chunk ->]|Hne].
  { destruct o as [[]| |]; eauto. }
  - rewrite Hlisten. cbn [chunks omap list_omap]. fold (chunks occurrences).
    rewrite frame_all_cons. cbn [fst snd]. split; [done|].
    by rewrite <- !app_assoc.
  - assert (chunks (o :: occurrences) = chunks occurrences) as ->.
    { destruct o as [[]| |]; try done. by destruct (Hne chunk). }
    assert (match o with
            | Deliver (StdinData chunk) =>
                if stdinListeners (state p) then frame (buffer (state p)) chunk
                else ([], buffer (state p))
            | _ => ([], buffer (state p))
            end = ([], buffer (state p))) as ->.
    { destruct o as [[]| |]; try done. by destruct (Hne chunk). }
    cbn [fst snd List.filter]. split; [done|]. by rewrite app_nil_r, <- !app_assoc.
Qed.

(** What [main] has started is in order. *)
Lemma launched_orderly (w : world) (t0 : N) (args : list jsstring) :
  orderly (launched (main args (boot w t0)).2).
Proof.
  destruct (main_started w t0 args) as (Hcount & _ & [[Htrace Hl]|[Htrace Hl]]).
  all: unfold orderly, launched, messages; cbn [state suspended].
  all: rewrite Hcount, Htrace, Hl.
  all: repeat apply conj; try done.
  all: try apply NoDup_nil_2.
  all: try (intros m Hm; unfold records; cbn [List.filter message_number];
            rewrite ?bool_decide_eq_false_2; [done|]; intros [=]; lia).
  all: try (intros m Hm; lia).
  all: intros ? ? ? ? ? Hin; by apply elem_of_nil in Hin.
Qed.

(** From [main] on, with listeners that wait: the stream read so far
    divides into lines and a rest; the rest is the buffer, and the lines
    that are not blank have been taken or are held. *)
Lemma play_lines_and_rest (w : world) (t0 : N) (args : list jsstring) occurrences :
  let p := play (launched (main args (boot w t0)).2) occurrences in
  stdinListeners (state p) = true ->
  exitCode (state p) = None ->
  exists ls,
    lines_and_rest (concat (chunks occurrences)) ls (buffer (state p))
    /\ messages (state p) ++ held (suspended p)
       ≡ₚ List.filter (fun line => negb (blank line)) ls.
Proof.
  intros p Hlisten Hrun. subst p.
  pose proof (launched_orderly w t0 args) as Horderly.
  rewrite play_listening in Hlisten by done.
  destruct (main_started w t0 args) as (_ & Hbuffer & [[_ Hoff]|[Htrace _]]).
  { cbn [launched state] in Hlisten. congruence. }
  destruct (play_framing _ occurrences Horderly Hlisten Hrun) as [Hb Hperm].
  cbn [launched state suspended] in Hb, Hperm.
  rewrite Hbuffer in Hb, Hperm.
  destruct (frame_all_lines_and_rest (chunks occurrences) [])
    as (ls & Hls & Hfilter); [apply not_elem_of_nil|].
  exists ls. rewrite Hb, Hperm, Hfilter. split; [done|].
  unfold messages. rewrite Htrace. cbn. by rewrite filter_candidates.
Qed.

(** A value whose properties can be read. *)
Lemma Get_any (v : value) (k k' : jsstring) (i : value) :
  Get v k = Normal i -> exists i', Get v k' = Normal i'.
Proof. destruct v; try done; by eexists. Qed.

(** A request on record in a session in order: it has been answered, once
    and with its id, or a listener is waiting for its tool. *)
Lemma orderly_request p (m : N) (line : jsstring) (request i : value) :
  orderly p ->
  Message m line ∈ trace (state p) ->
  JSON_parse line = Normal request ->
  Get request (js "id") = Normal i ->
  (exists r,
     records m (trace (state p))
     = [Message m line; LogMcpIn m request; LogMcpOut m r; Stdout m (WResponse r)]
     /\ response_id r = i
     /\ m ∉ awaited (suspended p))
  \/ (records m (trace (state p)) = [Message m line; LogMcpIn m request]
      /\ exists (k : nat) tools c rest,
           suspended p !! k = Some (DataTask tools m request c rest)).
Proof.
  intros (Hdup & Hnone & Hzero & Htasks & Hdone & Hcount) Hin Hparse Hid.
  destruct p as [g tasks]. cbn [state suspended] in *.
  apply (records_elem m) in Hin; [|done].
  assert (forall line' rest, Message m line ∈ Message m line' :: rest ->
            Forall (fun a => forall l, a <> Message m l) rest -> line' = line) as Hsame.
  { intros line' rest [[=]|Hrest]%elem_of_cons Hnot; [done|].
    rewrite Forall_forall in Hnot. by destruct (Hnot _ Hrest line). }
  assert ((1 <= m <= messageCount g)%N) as Hm.
  { destruct (decide (m = 0%N)) as [->|].
    { rewrite Hzero in Hin. destruct (stdinListeners g).
      - by apply list_elem_of_singleton in Hin.
      - by apply elem_of_nil in Hin. }
    destruct (decide (messageCount g < m)%N) as [Hlt|]; [|lia].
    rewrite Hnone in Hin by done. by apply elem_of_nil in Hin. }
  destruct (decide (m ∈ awaited tasks)) as [Hwaits|Hfree].
  - right. apply elem_awaited in Hwaits as (tools & request' & c & rest & Htask).
    destruct (Htasks _ _ _ _ _ Htask) as (line' & Hrecords & Hparse' & _).
    rewrite Hrecords in Hin.
    assert (line' = line) as -> by (apply (Hsame _ _ Hin); by repeat constructor).
    assert (request' = request) as -> by congruence.
    split; [done|]. apply list_elem_of_lookup_1 in Htask as [k Hk]. eauto.
  - left. destruct (Hdone m Hm Hfree) as (line' & [Hrejected|Hanswered]).
    + destruct Hrejected as (e & Hrecords & Hwhy). rewrite Hrecords in Hin.
      assert (line' = line) as -> by (apply (Hsame _ _ Hin); by repeat constructor).
      destruct Hwhy as [Hthrow|(request' & Hparse' & Hthrow)]; [congruence|].
      assert (request' = request) as -> by congruence.
      destruct (Get_any _ _ (js "method") _ Hid). congruence.
    + destruct Hanswered as (request' & Hparse' & r & Hrecords & Hid').
      rewrite Hrecords in Hin.
      assert (line' = line) as -> by (apply (Hsame _ _ Hin); by repeat constructor).
      assert (request' = request) as -> by congruence.
      exists r. split; [done|]. split; [congruence | done].
Qed.

(** C5.  Correlation on stdio, with listeners that wait for their tools.
    Start the process with any arguments and let anything happen: events
    are delivered, tools settle, in any order.  First, the requests are
    those of the stream: as long as the process runs, the complete lines
    of stdin that are not blank have each been taken as a message, or are
    held by a listener that waits for a tool and takes them when it goes
    on.  Second, for every message that was taken and parsed to a request
    whose id can be read (whatever the id, non-null ids in particular),
    one of two holds.  Either the records of the message are, in this
    order: taken, parsed, response logged, response written; so exactly
    one line was written for it, after it was parsed, and the response
    carries the request's id.  Or the records are: taken, parsed; nothing
    has been written for it, a ['data'] listener is suspended at the call
    of its tool, and if the process is still running when that tool
    settles, the response is written then, once and with the request's
    id. *)
Theorem stdio_correlation_while_running (w : world) (t0 : N) (args : list jsstring)
    occurrences :
  let p := play (launched (main args (boot w t0)).2) occurrences in
  let g := state p in
  (stdinListeners g = true -> exitCode g = None ->
   exists ls,
     lines_and_rest (concat (chunks occurrences)) ls (buffer g)
     /\ messages g ++ held (suspended p)
        ≡ₚ List.filter (fun line => negb (blank line)) ls)
  /\ (forall (m : N) (line : jsstring) (request i : value),
        Message m line ∈ trace g ->
        JSON_parse line = Normal request ->
        Get request (js "id") = Normal i ->
        (exists r,
           records m (trace g)
           = [Message m line; LogMcpIn m request; LogMcpOut m r; Stdout m (WResponse r)]
           /\ response_id r = i)
        \/ (records m (trace g) = [Message m line; LogMcpIn m request]
            /\ exists (k : nat) tools c rest,
                 suspended p !! k = Some (DataTask tools m request c rest)
                 /\ (exitCode g = None ->
                     exists r,
                       records m (trace (state (advance p (Settle k))))
                       = [Message m line; LogMcpIn m request; LogMcpOut m r;
                          Stdout m (WResponse r)]
                       /\ response_id r = i))).
Proof.
  intros p g. split; [apply play_lines_and_rest|].
  intros m line request i Hin Hparse Hid.
  assert (orderly p) as Horderly by apply play_orderly, launched_orderly.
  destruct (orderly_request p m line request i Horderly Hin Hparse Hid)
    as [(r & Hrecords & Hr & _)|(Hrecords & k & tools & c & rest & Hk)].
  { left. by exists r. }
  right. split; [done|]. exists k, tools, c, rest. split; [done|]. intros Hrun.
  unfold advance. fold g. rewrite Hrun, Hk.
  destruct p as [g0 tasks]. cbn [state suspended] in *. subst g.
  destruct (resume_data_effect g0 tasks k tools m request c rest Horderly Hk)
    as (waits & g' & -> & _ & _ & _ & _ & (line' & Hrecords' & _ & Hanswered) & _).
  assert (state (conclude (delete k tasks) (Normal waits, g')) = g') as ->
    by (by destruct waits as [[]|]).
  rewrite Hrecords in Hrecords'. injection Hrecords' as <-.
  destruct Hanswered as (r & -> & Hr). exists r. split; [done | congruence].
Qed.

End Playing.

(** * Further properties of the process with waiting listeners *)

Section WrittenLines.
Context {RT : Runtime}.

Implicit Types (p : process) (occurrences : list occurrence).

Lemma stdout_numbers_records (m : N) (t : list action) :
  stdout_numbers (records m t)
  = List.filter (fun n => bool_decide (n = m)) (stdout_numbers t).
Proof.
  induction t as [|a t IH]; [done|].
  destruct (decide (message_number a = Some m)) as [Ha|Ha].
  - rewrite records_same by done.
    destruct a; try done; cbn [stdout_numbers omap list_omap List.filter];
      fold (stdout_numbers t); fold (stdout_numbers (records m t)); try done.
    injection Ha as ->. by rewrite bool_decide_eq_true_2, IH.
  - rewrite records_other by done.
    destruct a; try done; cbn [stdout_numbers omap list_omap List.filter];
      fold (stdout_numbers t); try done.
    rewrite bool_decide_eq_false_2; [done|]. cbn in Ha. congruence.
Qed.

Lemma NoDup_by_count (l : list N) :
  (forall m, (length (List.filter (fun n => bool_decide (n = m)) l) <= 1)%nat) ->
  NoDup l.
Proof.
  induction l as [|a l IH]; intros Hcount; [apply NoDup_nil_2|].
  apply NoDup_cons_2.
  - intros Hin. specialize (Hcount a). cbn [List.filter] in Hcount.
    rewrite bool_decide_eq_true_2 in Hcount by done. cbn [length] in Hcount.
    assert (a ∈ List.filter (fun n => bool_decide (n = a)) l) as Hfound.
    { apply list_elem_of_In, List.filter_In. split; [by apply list_elem_of_In|].
      by apply bool_decide_eq_true. }
    destruct (List.filter _ l); [by apply elem_of_nil in Hfound | cbn in Hcount; lia].
  - apply IH. intros m. specialize (Hcount m). cbn [List.filter] in Hcount.
    destruct (bool_decide (a = m)); cbn [length] in Hcount; lia.
Qed.

Lemma elem_by_count (m : N) (l : list N) :
  m ∈ l <-> List.filter (fun n => bool_decide (n = m)) l <> [].
Proof.
  split.
  - intros Hin Hnone.
    assert (m ∈ List.filter (fun n => bool_decide (n = m)) l) as Hfound.
    { apply list_elem_of_In, List.filter_In. split; [by apply list_elem_of_In|].
      by apply bool_decide_eq_true. }
    rewrite Hnone in Hfound. by apply elem_of_nil in Hfound.
  - intros Hsome. destruct (List.filter _ l) as [|n rest] eqn:Hfilter; [done|].
    assert (n ∈ n :: rest) as Hin by left. rewrite <- Hfilter in Hin.
    apply list_elem_of_In, List.filter_In in Hin as [Hin Hn].
    apply bool_decide_eq_true in Hn as ->. by apply list_elem_of_In.
Qed.

(** In a session in order, the lines on stdout under number [m]. *)
Lemma orderly_written p (m : N) :
  orderly p ->
  let g := state p in
  ((m = 0%N /\ stdinListeners g = true)
   \/ ((1 <= m <= messageCount g)%N /\ m ∉ awaited (suspended p)))
  /\ stdout_numbers (records m (trace g)) = [m]
  \/ ~ ((m = 0%N /\ stdinListeners g = true)
        \/ ((1 <= m <= messageCount g)%N /\ m ∉ awaited (suspended p)))
     /\ stdout_numbers (records m (trace g)) = [].
Proof.
  intros (Hdup & Hnone & Hzero & Htasks & Hdone & Hcount). cbv zeta.
  destruct p as [g tasks]. cbn [state suspended] in *.
  destruct (decide (m = 0%N)) as [->|Hm0].
  { rewrite Hzero. destruct (stdinListeners g).
    - left. split; [by left | done].
    - right. split; [|done]. intros [[_ [=]]|[? _]]. lia. }
  destruct (decide (messageCount g < m)%N) as [Hlt|Hle].
  { right. rewrite Hnone by done. split; [|done]. intros [[? _]|[? _]]; lia. }
  destruct (decide (m ∈ awaited tasks)) as [Hwaits|Hfree].
  { right. split; [intros [[? _]|[_ ?]]; done|].
    apply elem_awaited in Hwaits as (tools & request & c & rest & Htask).
    destruct (Htasks _ _ _ _ _ Htask) as (line & -> & _). done. }
  left. split; [right; split; [lia | done]|].
  destruct (Hdone m) as (line & [(e & -> & _)|(request & _ & r & -> & _)]);
    [lia | done | done | done].
Qed.

(** X18.  The lines written with [process.stdout.write], with listeners
    that wait for their tools.  Start the process with any arguments and
    let anything happen, in any order.  No two lines are written under
    the same message number.  A line is written under number 0 exactly
    when the stdio server was started, and it is the greeting; a line is
    written under a number from 1 on exactly for the messages that have
    been counted and are not waiting for a tool.  So every message taken
    from stdin gets one line, at the latest when its tool settles, and
    HTTP requests, SSE connections, timers and signals write none.  The
    messages taken are as many as were counted. *)
Theorem each_message_written_once (w : world) (t0 : N) (args : list jsstring)
    occurrences :
  let p := play (launched (main args (boot w t0)).2) occurrences in
  let g := state p in
  NoDup (stdout_numbers (trace g))
  /\ (forall m : N,
        m ∈ stdout_numbers (trace g)
        <-> (m = 0%N /\ stdinListeners g = true)
            \/ ((1 <= m <= messageCount g)%N /\ m ∉ awaited (suspended p)))
  /\ (forall out, Stdout 0 out ∈ trace g -> out = initMessage)
  /\ messageCount g = N.of_nat (length (messages g)).
Proof.
  intros p g. subst g.
  assert (orderly p) as Horderly by apply play_orderly, launched_orderly.
  clearbody p. repeat apply conj.
  - apply NoDup_by_count. intros m. rewrite <- stdout_numbers_records.
    by destruct (orderly_written p m Horderly) as [[_ ->]|[_ ->]]; cbn; lia.
  - intros m. rewrite elem_by_count, <- stdout_numbers_records.
    destruct (orderly_written p m Horderly) as [[Hm ->]|[Hm ->]]; [done|].
    split; [done | by intros ?].
  - intros out Hin. apply (records_elem 0) in Hin; [|done].
    destruct Horderly as (_ & _ & Hzero & _). cbv zeta in Hzero. rewrite Hzero in Hin.
    destruct (stdinListeners (state p)).
    + apply list_elem_of_singleton in Hin. by injection Hin.
    + by apply elem_of_nil in Hin.
  - by destruct Horderly as (_ & _ & _ & _ & _ & Hcount).
Qed.

End WrittenLines.

Section WaysOut.
Context {RT : Runtime}.

Implicit Types (p : process) (o : occurrence) (occurrences : list occurrence).

Ltac exit_step :=
  first [ changes_step | by apply changes_modify ].

Lemma same_exit_invoke_begin r key (h : handler world) toolArgs :
  changes same_exit (invoke_begin r key h toolArgs).
Proof. intros g c g'. rewrite invoke_begin_returns. by intros [= _ <-]. Qed.

Lemma same_exit_handleMcpRequest_begin request mcpTools :
  changes same_exit (handleMcpRequest_begin request mcpTools).
Proof.
  intros g c g' Hrun. apply dispatched_exitCode.
  by eapply dispatched_handleMcpRequest_begin.
Qed.

Lemma same_exit_handleMcpRequest_resume (c : call) :
  changes same_exit (handleMcpRequest_resume c).
Proof.
  intros g r g' Hrun. apply dispatched_exitCode.
  by eapply dispatched_handleMcpRequest_resume.
Qed.

Lemma same_exit_requestListener_begin (c : conn) (method pathname body : jsstring) :
  changes same_exit (requestListener_begin c method pathname body).
Proof.
  unfold requestListener_begin, tools_call_route_begin, tools_call_route_end,
    reply, emit, act.
  repeat first
    [ apply same_exit_requestListener | apply same_exit_handleMcpRequest_begin
    | apply same_exit_invoke_begin | apply same_exit_call_listeners | exit_step ].
Qed.

Lemma same_exit_tools_call_route_resume (c : conn) (name : value) (pending : call) :
  changes same_exit (tools_call_route_resume c name pending).
Proof.
  unfold tools_call_route_resume, tools_call_route_end, reply, emit, act.
  repeat first
    [ apply same_exit_handleMcpRequest_resume | apply same_exit_call_listeners
    | exit_step ].
Qed.

(** Every route but [/api/status] runs until it waits or is through, and
    it is not the listener of [/api/status] that waits. *)
Lemma requestListener_begin_runs (c : conn) (method pathname body : jsstring) g :
  method = js "OPTIONS" \/ pathname <> js "/api/status" ->
  exists waits g',
    requestListener_begin c method pathname body g = (Normal waits, g')
    /\ exitCode g' = exitCode g
    /\ no_status_task waits.
Proof.
  intros Hroute.
  destruct (requestListener_returns c method pathname body g Hroute) as (g2 & Hrun).
  rewrite requestListener_split in Hrun. unfold bind in Hrun.
  destruct (requestListener_begin c method pathname body g) as [[waits|e] g'] eqn:Hbegin;
    [|done].
  exists waits, g'. split; [done|].
  split; [by apply same_exit_requestListener_begin in Hbegin|].
  clear Hrun. revert Hbegin. unfold requestListener_begin.
  destruct (jsstring_eqb method (js "OPTIONS")) eqn:Hoptions.
  { by intros [= <- _]. }
  destruct Hroute as [->|Hstatus]; [by vm_compute in Hoptions|].
  destruct (jsstring_eqb pathname (js "/api/tools/call")).
  { destruct (negb (jsstring_eqb method (js "POST"))); [by intros [= <- _]|].
    unfold tools_call_route_begin, try_catch, bind, lift, ret; cbv beta iota zeta.
    destruct (JSON_parse body) as [parsed|e]; [|by intros [= <- _]].
    destruct (destructure parsed) as [[name args]|e]; [|by intros [= <- _]].
    destruct (handleMcpRequest_begin _ _ g) as [[[r|pending]|e] g1].
    - destruct (tools_call_route_end c name r g1) as [[[]|e] g3];
        by intros [= <- _].
    - by intros [= <- _].
    - by intros [= <- _]. }
  rewrite (jsstring_eqb_ne _ _ Hstatus). unfold bind, ret.
  destruct (requestListener c method pathname body g) as [[[]|e] g3]; [|done].
  by intros [= <- _].
Qed.

(** The loop runs until it waits or is through. *)
Lemma handle_lines_begin_runs tools (lines : list jsstring) g :
  exists waits g',
    handle_lines_begin tools lines g = (Normal waits, g')
    /\ exitCode g' = exitCode g
    /\ no_status_task waits.
Proof.
  revert g. induction lines as [|line rest IH]; intros g; [by eexists _, _|].
  cbn [handle_lines_begin]. unfold bind at 1.
  destruct (is_candidate line) eqn:Hcand.
  2:{ unfold handle_line_begin. rewrite Hcand. unfold ret at 1. apply IH. }
  destruct (handle_line_begin_effect tools line g Hcand) as (waits & w & t & -> & _).
  destruct waits as [[[n request] c]|]; [by eexists _, _|].
  destruct (IH (extend (set_messageCount (messageCount g + 1) g) w t))
    as (waits & g' & -> & Hexit & Hkind).
  by exists waits, g'.
Qed.

(** The listener of an event that is benign runs until it waits or is
    through, and leaves the exit status as it is. *)
Lemma begin_runs e g :
  benign e ->
  exists waits g',
    begin e g g = (Normal waits, g') /\ exitCode g' = exitCode g
    /\ no_status_task waits.
Proof.
  intros He. destruct e; try done; cbn [begin].
  - destruct (stdinListeners g); [|by eexists _, _].
    unfold on_data_begin, bind, gets, modify; cbv beta iota zeta.
    destruct (frame (buffer g) chunk) as [lines b'].
    destruct (handle_lines_begin_runs initializeSystem lines (set_buffer b' g))
      as (waits & g' & -> & Hexit & Hkind).
    by exists waits, g'.
  - destruct (httpServer g); [|by eexists _, _].
    by apply requestListener_begin_runs.
  - cbn [dispatch]. destruct (closeListeners g !! c); by eexists _, _.
  - cbn [dispatch]. destruct (bool_decide (c ∈ heartbeats g)); by eexists _, _.
  - by eexists _, _.
Qed.

(** A suspended listener, other than that of [/api/status], goes on until
    it waits again or is through. *)
Lemma resume_runs (t : task) g :
  no_status_task (Some t) ->
  exists waits g',
    resume t g = (Normal waits, g') /\ exitCode g' = exitCode g
    /\ no_status_task waits.
Proof.
  intros Ht. destruct t as [tools n request c rest|res name c|]; [| |done];
    cbn [resume]; unfold bind at 1.
  - destruct (handle_line_resume_effect n c g) as (r & t & -> & _).
    destruct (handle_lines_begin_runs tools rest
                (extend g (engine g) (t ++ [LogMcpOut n r; Stdout n (WResponse r)])))
      as (waits & g' & -> & Hexit & Hkind).
    by exists waits, g'.
  - destruct (tools_call_route_resume res name c g) as [[[]|e] g'] eqn:Hrun.
    + exists None, g'. split; [done|]. split; [|done].
      by apply same_exit_tools_call_route_resume in Hrun.
    + exfalso. revert Hrun.
      unfold tools_call_route_resume, try_catch, bind.
      destruct (handleMcpRequest_resume_responds c g) as (r & t & -> & _).
      unfold tools_call_route_end, bind, gets. rewrite emit_trace. done.
Qed.

Lemma harmless_advance p o :
  exitCode (state p) = None ->
  (forall t, t ∈ suspended p -> no_status_task (Some t)) ->
  harmless o ->
  exitCode (state (advance p o)) = None
  /\ (forall t, t ∈ suspended (advance p o) -> no_status_task (Some t)).
Proof.
  intros Hexit Htasks Ho. unfold advance. rewrite Hexit.
  destruct p as [g tasks]. cbn [state suspended] in *.
  destruct o as [e|c err|k]; [|done|].
  - destruct (begin_runs e g Ho) as (waits & g' & -> & Hexit' & Hkind).
    destruct waits as [t|]; cbn [conclude state suspended].
    + split; [congruence|]. intros t' [Hin|Hin]%elem_of_app; [by apply Htasks|].
      by apply list_elem_of_singleton in Hin as ->.
    + split; [congruence | done].
  - destruct (tasks !! k) as [t|] eqn:Hk; [|done].
    assert (t ∈ tasks) as Hin by (by eapply list_elem_of_lookup_2).
    destruct (resume_runs t g (Htasks t Hin)) as (waits & g' & -> & Hexit' & Hkind).
    assert (forall t', t' ∈ delete k tasks -> no_status_task (Some t')) as Hrest.
    { intros t' Hin'. apply Htasks. by eapply list_elem_of_delete_inv. }
    destruct waits as [t'|]; cbn [conclude state suspended].
    + split; [congruence|]. intros t'' [Hin'|Hin']%elem_of_app; [by apply Hrest|].
      by apply list_elem_of_singleton in Hin' as ->.
    + split; [congruence | done].
Qed.

(** X20.  What can end the process, with listeners that wait for their
    tools.  Once [main] has started it with the stdio server, so that the
    system is initialized, the process exits only on a signal, on the end
    of stdin, through a request to [/api/status], or on a request whose
    URL [new URL] rejects: over any other occurrences (chunks of stdin
    with lines that do not parse, calls of tools that fail or do not
    exist, tools settling in any order, HTTP requests with any verb, body
    and parsed path other than [/api/status], clients connecting and
    disconnecting, timers) no listener throws and the process keeps
    running. *)
Theorem only_four_ways_out (w : world) (t0 : N) (args : list jsstring) occurrences :
  let p := launched (main args (boot w t0)).2 in
  stdinListeners (state p) = true ->
  exitCode (state p) = None ->
  Forall harmless occurrences ->
  exitCode (state (play p occurrences)) = None.
Proof.
  intros p _ Hexit Hall.
  assert (forall t, t ∈ suspended p -> no_status_task (Some t)) as Htasks.
  { intros t Hin. by apply elem_of_nil in Hin. }
  clearbody p. revert p Hexit Htasks.
  induction Hall as [|o occurrences Ho _ IH]; intros p Hexit Htasks; [done|].
  cbn [play foldl]. destruct (harmless_advance p o Hexit Htasks Ho) as [Hexit' Htasks'].
  by apply IH.
Qed.

End WaysOut.

(** ** Waiting listeners on the first installation *)

(** The request of [line_status], whose id is 3, is parsed, its tool is
    called, and stdin ends before the tool settles: the process exits
    with status 0, the greeting is the one line it has written, and
    nothing that happens afterwards changes that. *)
Lemma stdio_request_unanswered_at_exit :
  let p := play (RT := Scenario.runtime) (launched (Scenario.started ["--stdio"%string]))
             [Deliver (StdinData (Scenario.line_status ++ [LF])); Deliver StdinEnd] in
  let g := state p in
  JSON_parse (Runtime := Scenario.runtime) Scenario.line_status
  = Normal Scenario.request_status
  /\ Get Scenario.request_status (js "id") = Normal (VNum 3)
  /\ records 1 (trace g)
     = [Message 1 Scenario.line_status; LogMcpIn 1 Scenario.request_status]
  /\ stdout g = [initMessage (RT := Scenario.runtime)]
  /\ exitCode g = Some 0%Z
  /\ (forall more,
        stdout (state (play p more)) = [initMessage (RT := Scenario.runtime)]).
Proof.
  intros p g.
  assert (exitCode g = Some 0%Z) as Hexit by (by vm_compute).
  split; [by vm_compute|]. split; [by vm_compute|]. split; [by vm_compute|].
  split; [by vm_compute|]. split; [exact Hexit|].
  intros more. rewrite play_exited; [by vm_compute|]. fold g. by rewrite Hexit.
Qed.

(** The same with a signal in the place of the end of stdin. *)
Lemma stdio_request_unanswered_at_signal :
  let q := play (RT := Scenario.runtime) (launched (Scenario.started ["--stdio"%string]))
             [Deliver (StdinData (Scenario.line_status ++ [LF])); Deliver Signal] in
  LogMcpIn 1 Scenario.request_status ∈ trace (state q)
  /\ exitCode (state q) = Some 0%Z
  /\ (forall more,
        stdout (state (play q more)) = [initMessage (RT := Scenario.runtime)]).
Proof.
  intros q.
  assert (exitCode (state q) = Some 0%Z) as Hexit by (by vm_compute).
  split; [apply (list_elem_of_lookup_2 _ 2); by vm_compute|].
  split; [exact Hexit|].
  intros more. rewrite play_exited; [by vm_compute|]. by rewrite Hexit.
Qed.

(** Two chunks and one tool that takes its time: the second message is
    answered while the first waits, and the line that the first listener
    held is taken last, as the third message. *)
Lemma responses_can_overtake :
  let occurrences :=
    [Deliver (StdinData (Scenario.line_status ++ [LF] ++ Scenario.line_initialize ++ [LF]));
     Deliver (StdinData (Scenario.line_unknown_method ++ [LF]));
     Settle 0] in
  let p := play (RT := Scenario.runtime) (launched (Scenario.started ["--stdio"%string]))
             occurrences in
  stdout_numbers (trace (state p)) = [0; 2; 1; 3]
  /\ messages (state p)
     = [Scenario.line_status; Scenario.line_unknown_method; Scenario.line_initialize]
  /\ suspended p = [].
Proof. intros occurrences p. repeat apply conj; by vm_compute. Qed.

Lemma stdio_correlation_while_running_witness :
  let occurrences :=
    [Deliver (StdinData (Scenario.line_status ++ [LF] ++ Scenario.line_initialize ++ [LF]))] in
  let p := play (RT := Scenario.runtime) (launched (Scenario.started ["--stdio"%string]))
             occurrences in
  let g := state p in
  (exists ls,
     lines_and_rest (concat (chunks occurrences)) ls (buffer g)
     /\ messages g ++ held (suspended p)
        ≡ₚ List.filter (fun line => negb (blank line)) ls)
  /\ Message 1 Scenario.line_status ∈ trace g
  /\ (forall out, Stdout 1 out ∉ trace g)
  /\ exists r,
       records 1 (trace (state (advance p (Settle 0))))
       = [Message 1 Scenario.line_status; LogMcpIn 1 Scenario.request_status;
          LogMcpOut 1 r; Stdout 1 (WResponse r)]
       /\ response_id r = VNum 3.
Proof.
  intros occurrences p g.
  pose proof (stdio_correlation_while_running (RT := Scenario.runtime) 0 1000
                (map js ["--stdio"%string]) occurrences) as [Hstream Hrequests].
  assert (records 1 (trace g)
          = [Message 1 Scenario.line_status; LogMcpIn 1 Scenario.request_status])
    as Hpending by (by vm_compute).
  assert (Message 1 Scenario.line_status ∈ trace g) as Hin.
  { apply (elem_records 1). fold g. rewrite Hpending. by left. }
  split; [apply Hstream; by vm_compute|]. split; [exact Hin|]. split.
  { intros out Hout. apply (records_elem 1) in Hout; [|done].
    fold g in Hout. rewrite Hpending in Hout.
    by repeat (apply elem_of_cons in Hout as [[=]|Hout]); apply elem_of_nil in Hout. }
  destruct (Hrequests 1 Scenario.line_status Scenario.request_status (VNum 3) Hin
              eq_refl eq_refl)
    as [(r & Hdone & _)|(_ & k & tools & c & rest & Hk & Hsettles)].
  { pose proof (eq_trans (eq_sym Hpending) Hdone) as Hboth. discriminate Hboth. }
  destruct k as [|k]; [by apply Hsettles|].
  apply lookup_lt_Some in Hk. vm_compute in Hk. lia.
Defined.

Lemma only_four_ways_out_witness :
  let p := launched (Scenario.started ["--hybrid"%string]) in
  let occurrences :=
    [Deliver (StdinData (Scenario.line_broken ++ [LF] ++ Scenario.line_status ++ [LF]
                           ++ Scenario.line_faulty ++ [LF]));
     Deliver (Scenario.POST 1%nat "/api/tools/call" Scenario.body_status);
     Deliver (Scenario.POST 5%nat "/api/tools/call" Scenario.line_broken);
     Deliver (Scenario.GET 2%nat "/events"); Settle 1; Deliver (HttpClose 2%nat);
     Deliver (HeartbeatTimer 2%nat); Settle 0; Settle 0; Settle 7;
     Deliver (HttpRequest 3%nat (js "DELETE") (js "/api/tools/list") []);
     Deliver (HttpRequest 4%nat (js "OPTIONS") (js "/api/status") [])] in
  stdinListeners (state p) = true
  /\ exitCode (state p) = None
  /\ exitCode (state (play (RT := Scenario.runtime) p occurrences)) = None.
Proof.
  intros p occurrences.
  assert (stdinListeners (state p) = true) as Hlisten by (by vm_compute).
  assert (exitCode (state p) = None) as Hexit by (by vm_compute).
  split; [exact Hlisten|]. split; [exact Hexit|].
  apply (only_four_ways_out (RT := Scenario.runtime) 0 1000 (map js ["--hybrid"%string])
           occurrences Hlisten Hexit).
  repeat apply List.Forall_cons; try apply List.Forall_nil;
    hnf; first [exact I | by left | right; by vm_compute].
Defined.
